(** * AbstractIndexEngine: a shallow embedding of the near-real-time index engine

    The engine ([com.tle.core.freetext.index.AbstractIndexEngine]) is Java code
    that drives Lucene objects (directory, writer, NRT manager, reopen thread),
    a [java.util.Timer], reflection, and two caller-supplied callbacks
    ([Searcher], [IndexBuilder]).  The embedding keeps the engine's own fields
    in a record and turns every call that leaves the class into a node of a
    program tree; an arbitrary handler answers these calls with a value or a
    thrown [Throwable].  Java's [try]/[catch]/[finally] are combinators on such
    programs. *)

From Stdlib Require Import ZArith List String Bool Lia QArith.
Import ListNotations.
Open Scope Z_scope.
Open Scope string_scope.

Set Implicit Arguments.
Set Warnings "-register-all".

(** ** Java throwables *)

Module Java.

Inductive jclass :=
| Throwable_
| Exception_
| Error_
| IOException_
| RuntimeException_
| NullPointerException_
| ErrorDuringSearchException_
| InstantiationException_
| NoSuchMethodException_
| InvocationTargetException_
| IllegalAccessException_.

Definition jclass_eqb (a b : jclass) : bool :=
  match a, b with
  | Throwable_, Throwable_ | Exception_, Exception_ | Error_, Error_
  | IOException_, IOException_ | RuntimeException_, RuntimeException_
  | NullPointerException_, NullPointerException_
  | ErrorDuringSearchException_, ErrorDuringSearchException_
  | InstantiationException_, InstantiationException_
  | NoSuchMethodException_, NoSuchMethodException_
  | InvocationTargetException_, InvocationTargetException_
  | IllegalAccessException_, IllegalAccessException_ => true
  | _, _ => false
  end.

(** The direct superclass; [ErrorDuringSearchException] is the engine's own
    unchecked exception ([search] throws it without declaring it). *)
Definition superclass (c : jclass) : option jclass :=
  match c with
  | Throwable_ => None
  | Exception_ | Error_ => Some Throwable_
  | IOException_ | RuntimeException_
  | InstantiationException_ | NoSuchMethodException_
  | InvocationTargetException_ | IllegalAccessException_ => Some Exception_
  | NullPointerException_ | ErrorDuringSearchException_ => Some RuntimeException_
  end.

Fixpoint subclass_fuel (n : nat) (c d : jclass) : bool :=
  jclass_eqb c d ||
  match n with
  | O => false
  | S n' => match superclass c with
            | Some s => subclass_fuel n' s d
            | None => false
            end
  end.

(** The hierarchy above has depth three. *)
Definition subclass : jclass -> jclass -> bool := subclass_fuel 3.

Inductive Throwable :=
| mkThrowable (cls : jclass) (message : option string) (cause : option Throwable).

Definition getClass (t : Throwable) : jclass :=
  let 'mkThrowable c _ _ := t in c.
Definition getMessage (t : Throwable) : option string :=
  let 'mkThrowable _ m _ := t in m.
Definition getCause (t : Throwable) : option Throwable :=
  let 'mkThrowable _ _ c := t in c.

(** [t instanceof c], the test a [catch (c ex)] clause performs. *)
Definition instanceOf (t : Throwable) (c : jclass) : bool :=
  subclass (getClass t) c.

Arguments instanceOf : simpl never.

(** How a call or a block ends. *)
Inductive outcome (A : Type) :=
| Normal (a : A)
| Thrown (t : Throwable).
Arguments Normal {A} a.
Arguments Thrown {A} t.

(** [int] arithmetic wraps around modulo 2^32. *)
Definition int_wrap (z : Z) : Z := (z + 2147483648) mod 4294967296 - 2147483648.
Definition int_add (a b : Z) : Z := int_wrap (a + b).
Definition int_mul (a b : Z) : Z := int_wrap (a * b).

Definition Long_MIN_VALUE : Z := - 9223372036854775808.
Definition Long_MAX_VALUE : Z := 9223372036854775807.
Definition is_long (z : Z) : Prop := Long_MIN_VALUE <= z <= Long_MAX_VALUE.

Definition Thread_MAX_PRIORITY : Z := 10.

(** [Class.getName] of the classes above. *)
Definition className (c : jclass) : string :=
  match c with
  | Throwable_ => "java.lang.Throwable"
  | Exception_ => "java.lang.Exception"
  | Error_ => "java.lang.Error"
  | IOException_ => "java.io.IOException"
  | RuntimeException_ => "java.lang.RuntimeException"
  | NullPointerException_ => "java.lang.NullPointerException"
  | ErrorDuringSearchException_ => "com.dytech.edge.exceptions.ErrorDuringSearchException"
  | InstantiationException_ => "java.lang.InstantiationException"
  | NoSuchMethodException_ => "java.lang.NoSuchMethodException"
  | InvocationTargetException_ => "java.lang.reflect.InvocationTargetException"
  | IllegalAccessException_ => "java.lang.IllegalAccessException"
  end.

(** [Throwable.toString]: the class name, followed by ": " and the message
    when there is one. *)
Definition Throwable_toString (t : Throwable) : string :=
  match getMessage t with
  | Some m => className (getClass t) ++ ": " ++ m
  | None => className (getClass t)
  end.

(** [new RuntimeException(cause)]: the message is [cause.toString()]. *)
Definition new_RuntimeException_of (cause : Throwable) : Throwable :=
  mkThrowable RuntimeException_ (Some (Throwable_toString cause)) (Some cause).

(** Guava's [Throwables.propagate]: unchecked throwables are rethrown as they
    are, a checked one is wrapped in [new RuntimeException(cause)]. *)
Definition Throwables_propagate (t : Throwable) : Throwable :=
  if instanceOf t RuntimeException_ || instanceOf t Error_ then t
  else new_RuntimeException_of t.

End Java.
Import Java.

(** ** The objects the engine holds and the calls it makes *)

Definition File := string.
Definition CharArraySet := list string.

(** References to objects that live outside the engine. *)
Inductive FSDirectory := FSDirectoryRef (id : nat).
Inductive IndexWriter := IndexWriterRef (id : nat).
Inductive NRTManager := NRTManagerRef (id : nat).
Inductive IndexSearcher := IndexSearcherRef (id : nat).
Inductive NRTManagerReopenThread := ReopenThreadRef (id : nat).
Inductive Timer := TimerRef (id : nat).
Inductive ScanResult := ScanResultRef (id : nat).
Inductive Method := MethodRef (id : nat).
Inductive Object := ObjectRef (id : nat).

(** A loaded class, as reflection sees it: its fully qualified name. *)
Record JavaClass := { getName : string; classId : nat }.

(** Caller-supplied callbacks ([interface Searcher<T>], [interface IndexBuilder]). *)
Inductive Searcher := SearcherRef (id : nat).
Inductive IndexBuilder := IndexBuilderRef (id : nat).

(** [new TrackingIndexWriter(writer)] only wraps the writer. *)
Record TrackingIndexWriter := { getIndexWriter : IndexWriter }.

(** The analyzers the engine builds.  [TLEAnalyzer stopSet stem] is
    [new TLEAnalyzer(stopSet, stem)] with a nullable stop set; a language
    analyzer is whatever reflection instantiated. *)
Inductive Analyzer :=
| TLEAnalyzer (stopSet : option CharArraySet) (stem : bool)
| LanguageAnalyzer (instance : Object).

Record PerFieldAnalyzerWrapper := {
  defaultAnalyzer : Analyzer;
  fieldAnalyzers : list (string * Analyzer)
}.

(** The task the commit timer runs (the anonymous [TimerTask] of
    [afterPropertiesSet]). *)
Inductive TimerTask := CommitTask.

Inductive call :=
| File_exists (f : File)
| File_mkdirs (f : File)
| FileUtils_delete (f : option File)
| FSDirectory_open (f : File)
| FSDirectory_close (d : FSDirectory)
| IndexWriter_isLocked (d : FSDirectory)
| IndexWriter_unlock (d : FSDirectory)
| IndexWriter_new (d : FSDirectory) (a : PerFieldAnalyzerWrapper)
| IndexWriter_commit (w : IndexWriter)
| IndexWriter_close (w : IndexWriter)
| NRTManager_new (w : TrackingIndexWriter)
| NRTManager_waitForGeneration (m : NRTManager) (g : Z)
| NRTManager_acquire (m : NRTManager)
| NRTManager_release (m : NRTManager) (s : IndexSearcher)
| NRTManager_close (m : NRTManager)
| ReopenThread_new (m : NRTManager) (targetMaxStaleSec targetMinStaleSec : Q)
| ReopenThread_setName (t : NRTManagerReopenThread) (name : string)
| ReopenThread_setPriority (t : NRTManagerReopenThread) (p : Z)
| ReopenThread_setDaemon (t : NRTManagerReopenThread) (on : bool)
| ReopenThread_start (t : NRTManagerReopenThread)
| ReopenThread_close (t : NRTManagerReopenThread)
| Thread_currentPriority
| Timer_new (isDaemon : bool)
| Timer_schedule (t : Timer) (task : TimerTask) (delay period : Z)
| Timer_cancel (t : Timer)
| Searcher_search (s : Searcher) (searcher : option IndexSearcher)
| IndexBuilder_buildIndex (b : IndexBuilder) (m : option NRTManager)
                          (w : option TrackingIndexWriter)
| WordlistLoader_getWordSet (f : File)
| ClassGraph_scan (pkg : string)
| ScanResult_loadSubclasses (r : ScanResult)
| ScanResult_close (r : ScanResult)
| Class_newInstance (c : JavaClass)
| Class_getDeclaredMethod (c : JavaClass) (name : string)
| Method_invoke (m : Method).

(** What each call hands back when it returns; a reference that Java allows
    to be [null] is an [option]. *)
Definition resp (c : call) : Type :=
  match c with
  | File_exists _ | File_mkdirs _ | IndexWriter_isLocked _ => bool
  | FSDirectory_open _ => FSDirectory
  | IndexWriter_new _ _ => IndexWriter
  | NRTManager_new _ => NRTManager
  | NRTManager_acquire _ => option IndexSearcher
  | ReopenThread_new _ _ _ => NRTManagerReopenThread
  | Thread_currentPriority => Z
  | Timer_new _ => Timer
  | Searcher_search _ _ => Object
  | IndexBuilder_buildIndex _ _ _ => Z
  | WordlistLoader_getWordSet _ => CharArraySet
  | ClassGraph_scan _ => ScanResult
  | ScanResult_loadSubclasses _ => list JavaClass
  | Class_newInstance _ => Object
  | Class_getDeclaredMethod _ _ => Method
  | Method_invoke _ => CharArraySet
  | _ => unit
  end.

(** ** Programs over these calls *)

Inductive prog (A : Type) : Type :=
| Done (a : A)
| Invoke (c : call) (k : outcome (resp c) -> prog A).
Arguments Done {A} a.
Arguments Invoke {A} c k.

Fixpoint pbind {A B} (p : prog A) (f : A -> prog B) : prog B :=
  match p with
  | Done a => f a
  | Invoke c k => Invoke c (fun o => pbind (k o) f)
  end.

(** Running a program against an environment: the handler answers each call
    and moves the world on; the calls made are recorded in order. *)
Section Run.
Context {W : Type}.
Variable handler : forall c : call, W -> outcome (resp c) * W.

Fixpoint run {A} (p : prog A) (w : W) : (A * W) * list call :=
  match p with
  | Done a => ((a, w), [])
  | Invoke c k =>
      let r := handler c w in
      let r' := run (k (fst r)) (snd r) in
      (fst r', c :: snd r')
  end.

Definition result {A} (p : prog A) (w : W) : A := fst (fst (run p w)).
Definition world_after {A} (p : prog A) (w : W) : W := snd (fst (run p w)).
Definition trace {A} (p : prog A) (w : W) : list call := snd (run p w).
End Run.

(** ** The engine's fields *)

Inductive LogLevel := INFO | WARN | ERROR.

Record LogRecord := {
  level : LogLevel;
  text : string;
  thrown : option Throwable
}.

(** The fields of [AbstractIndexEngine].  A reference field is [None] while it
    is [null].  [runtimeClass] is what [getClass()] names and
    [getAnalyzerFieldMap] is the abstract method a concrete engine supplies.
    [LOGGER] is the log written so far, oldest entry first. *)
Record AbstractIndexEngine := mkEngine {
  runtimeClass : string;
  getAnalyzerFieldMap : Analyzer -> Analyzer -> list (string * Analyzer);
  LOGGER : list LogRecord;
  indexPath : option File;
  analyzer : option PerFieldAnalyzerWrapper;
  stopWordsFile : option File;
  analyzerLanguage : option string;
  directory : option FSDirectory;
  trackingIndexWriter : option TrackingIndexWriter;
  nrtManager : option NRTManager;
  nrtReopenThread : option NRTManagerReopenThread;
  commiterThread : option Timer;
  generation : Z
}.

(** A freshly constructed engine: [analyzer = null], [generation = -1], every
    other reference field still unset. *)
Definition newEngine (cls : string)
    (fieldMap : Analyzer -> Analyzer -> list (string * Analyzer)) : AbstractIndexEngine :=
  mkEngine cls fieldMap [] None None None None None None None None None (-1).

Definition set_LOGGER v e := mkEngine (runtimeClass e) (getAnalyzerFieldMap e) v
  (indexPath e) (analyzer e) (stopWordsFile e) (analyzerLanguage e) (directory e)
  (trackingIndexWriter e) (nrtManager e) (nrtReopenThread e) (commiterThread e) (generation e).
Definition set_indexPath v e := mkEngine (runtimeClass e) (getAnalyzerFieldMap e) (LOGGER e)
  v (analyzer e) (stopWordsFile e) (analyzerLanguage e) (directory e)
  (trackingIndexWriter e) (nrtManager e) (nrtReopenThread e) (commiterThread e) (generation e).
Definition set_analyzer v e := mkEngine (runtimeClass e) (getAnalyzerFieldMap e) (LOGGER e)
  (indexPath e) v (stopWordsFile e) (analyzerLanguage e) (directory e)
  (trackingIndexWriter e) (nrtManager e) (nrtReopenThread e) (commiterThread e) (generation e).
Definition set_stopWordsFile v e := mkEngine (runtimeClass e) (getAnalyzerFieldMap e) (LOGGER e)
  (indexPath e) (analyzer e) v (analyzerLanguage e) (directory e)
  (trackingIndexWriter e) (nrtManager e) (nrtReopenThread e) (commiterThread e) (generation e).
Definition set_analyzerLanguage v e := mkEngine (runtimeClass e) (getAnalyzerFieldMap e) (LOGGER e)
  (indexPath e) (analyzer e) (stopWordsFile e) v (directory e)
  (trackingIndexWriter e) (nrtManager e) (nrtReopenThread e) (commiterThread e) (generation e).
Definition set_directory v e := mkEngine (runtimeClass e) (getAnalyzerFieldMap e) (LOGGER e)
  (indexPath e) (analyzer e) (stopWordsFile e) (analyzerLanguage e) v
  (trackingIndexWriter e) (nrtManager e) (nrtReopenThread e) (commiterThread e) (generation e).
Definition set_trackingIndexWriter v e := mkEngine (runtimeClass e) (getAnalyzerFieldMap e) (LOGGER e)
  (indexPath e) (analyzer e) (stopWordsFile e) (analyzerLanguage e) (directory e)
  v (nrtManager e) (nrtReopenThread e) (commiterThread e) (generation e).
Definition set_nrtManager v e := mkEngine (runtimeClass e) (getAnalyzerFieldMap e) (LOGGER e)
  (indexPath e) (analyzer e) (stopWordsFile e) (analyzerLanguage e) (directory e)
  (trackingIndexWriter e) v (nrtReopenThread e) (commiterThread e) (generation e).
Definition set_nrtReopenThread v e := mkEngine (runtimeClass e) (getAnalyzerFieldMap e) (LOGGER e)
  (indexPath e) (analyzer e) (stopWordsFile e) (analyzerLanguage e) (directory e)
  (trackingIndexWriter e) (nrtManager e) v (commiterThread e) (generation e).
Definition set_commiterThread v e := mkEngine (runtimeClass e) (getAnalyzerFieldMap e) (LOGGER e)
  (indexPath e) (analyzer e) (stopWordsFile e) (analyzerLanguage e) (directory e)
  (trackingIndexWriter e) (nrtManager e) (nrtReopenThread e) v (generation e).
Definition set_generation v e := mkEngine (runtimeClass e) (getAnalyzerFieldMap e) (LOGGER e)
  (indexPath e) (analyzer e) (stopWordsFile e) (analyzerLanguage e) (directory e)
  (trackingIndexWriter e) (nrtManager e) (nrtReopenThread e) (commiterThread e) v.

(** ** Method bodies: state and exceptions over programs *)

(** A method body starts from the engine's fields, makes calls, and ends with
    the fields as it left them together with a value or a thrown exception. *)
Definition J (A : Type) : Type :=
  AbstractIndexEngine -> prog (outcome A * AbstractIndexEngine).

Definition ret {A} (a : A) : J A := fun e => Done (Normal a, e).
Definition throw {A} (t : Throwable) : J A := fun e => Done (Thrown t, e).

Definition bind {A B} (m : J A) (f : A -> J B) : J B :=
  fun e => pbind (m e) (fun r =>
    match fst r with
    | Normal a => f a (snd r)
    | Thrown t => Done (Thrown t, snd r)
    end).

Declare Scope java_scope.
Delimit Scope java_scope with java.
Notation "x <- m ;; k" := (bind m (fun x => k))
  (at level 61, m at next level, right associativity) : java_scope.
Notation "m ;; k" := (bind m (fun _ => k))
  (at level 61, right associativity) : java_scope.
Open Scope java_scope.

(** A call that leaves the class. *)
Definition invoke (c : call) : J (resp c) := fun e => Invoke c (fun o => Done (o, e)).

(** Reading and assigning fields. *)
Definition field {A} (f : AbstractIndexEngine -> A) : J A := fun e => Done (Normal (f e), e).
Definition assign (upd : AbstractIndexEngine -> AbstractIndexEngine) : J unit :=
  fun e => Done (Normal tt, upd e).

Definition new_NullPointerException : Throwable :=
  mkThrowable NullPointerException_ None None.

(** Using a reference field as the receiver of a call: [null] throws. *)
Definition deref {A} (f : AbstractIndexEngine -> option A) : J A :=
  fun e => match f e with
           | Some a => Done (Normal a, e)
           | None => Done (Thrown new_NullPointerException, e)
           end.

Definition log (l : LogLevel) (msg : string) (t : option Throwable) : J unit :=
  assign (fun e => set_LOGGER (LOGGER e ++ [{| level := l; text := msg; thrown := t |}])%list e).

(** [try { body } catch (C1 | ... | Cn ex) { handler }]. *)
Definition try_catch {A} (body : J A) (classes : list jclass)
    (handler : Throwable -> J A) : J A :=
  fun e => pbind (body e) (fun r =>
    match fst r with
    | Normal a => Done (Normal a, snd r)
    | Thrown t =>
        if existsb (instanceOf t) classes then handler t (snd r)
        else Done (Thrown t, snd r)
    end).

(** [try { body } finally { fin }]: the [finally] block always runs; when it
    throws, its exception replaces whatever the body ended with. *)
Definition try_finally {A} (body : J A) (fin : J unit) : J A :=
  fun e => pbind (body e) (fun r =>
    pbind (fin (snd r)) (fun r' =>
      match fst r' with
      | Normal _ => Done (fst r, snd r')
      | Thrown t => Done (Thrown t, snd r')
      end)).

(** [try (R r = open) { body }]: the resource is closed when the body is left,
    before any [catch] clause of the statement runs; an exception of [close]
    is suppressed when the body already threw. *)
Definition try_with_resource {R A} (open : J R) (close : R -> J unit)
    (body : R -> J A) : J A :=
  r <- open ;;
  fun e => pbind (body r e) (fun b =>
    pbind (close r (snd b)) (fun c =>
      match fst b, fst c with
      | Normal a, Normal _ => Done (Normal a, snd c)
      | Normal _, Thrown t => Done (Thrown t, snd c)
      | Thrown t, _ => Done (Thrown t, snd c)
      end)).

(** [String.contains]. *)
Fixpoint contains (s sub : string) : bool :=
  String.prefix sub s ||
  match s with
  | EmptyString => false
  | String _ s' => contains s' sub
  end.

(** ** The methods of [AbstractIndexEngine] *)

(** A file reference in a string concatenation: [null] prints as "null". *)
Definition File_toString (f : option File) : string :=
  match f with Some path => path | None => "null" end.

Definition setStopWordsFile (f : option File) : J unit := assign (set_stopWordsFile f).
Definition setAnalyzerLanguage (l : option string) : J unit := assign (set_analyzerLanguage l).
Definition setIndexPath (f : option File) : J unit := assign (set_indexPath f).

(** The stop set [getAnalyser] starts from: the word list of [stopWordsFile]
    when the file is set, exists and can be read, otherwise [null]. *)
Definition loadStopSet : J (option CharArraySet) :=
  f <- field stopWordsFile ;;
  match f return J (option CharArraySet) with
  | Some file =>
      present <- invoke (File_exists file) ;;
      if present : bool then
        try_catch
          (words <- invoke (WordlistLoader_getWordSet file) ;;
           ret (Some (words : CharArraySet)))
          [IOException_]
          (fun e1 => log WARN ("No stop words available: " ++ file) (Some e1) ;; ret None)
      else ret None
  | None => ret None
  end.

(** The exceptions the analyzer lookup is prepared for. *)
Definition reflectionFailures : list jclass :=
  [InstantiationException_; NoSuchMethodException_;
   InvocationTargetException_; IllegalAccessException_].

(** The [try (ScanResult scanResult = ...) { ... }] statement inside the
    [if (!analyzerLanguage.equals("en"))] block.  It may reassign the locals
    [normalAnalyzer] and [nonStemmedAnalyzer]; it is given their current
    values and yields the values they hold when it is left. *)
Definition lookupLanguageAnalyzer (languageAnalyzerPackage : string)
    (normalAnalyzer nonStemmedAnalyzer : Analyzer) : J (Analyzer * Analyzer) :=
  try_with_resource
    (invoke (ClassGraph_scan languageAnalyzerPackage))
    (fun scanResult => invoke (ScanResult_close scanResult))
    (fun scanResult =>
       classes <- invoke (ScanResult_loadSubclasses scanResult) ;;
       match find (fun c => contains (getName c) languageAnalyzerPackage) classes with
       | Some languageAnalyzer =>
           instance <- invoke (Class_newInstance languageAnalyzer) ;;
           getDefaultStopSet <-
             invoke (Class_getDeclaredMethod languageAnalyzer "getDefaultStopSet") ;;
           stopSet <- invoke (Method_invoke getDefaultStopSet) ;;
           log INFO ("Using Lucene analyzer: " ++ getName languageAnalyzer) None ;;
           ret (LanguageAnalyzer instance, TLEAnalyzer (Some stopSet) false)
       | None => ret (normalAnalyzer, nonStemmedAnalyzer)
       end).

Definition fallbackWarning (lang : option string) : string :=
  match lang with Some l => l | None => "null" end
  ++ " language analyzer is not avaiable so use the default analyzer".

(** The [catch] clause of that statement: both locals become the
    autocomplete analyzer, and a warning is logged. *)
Definition useAutoComplete (autoCompleteAnalyzer : Analyzer) : J (Analyzer * Analyzer) :=
  lng <- field analyzerLanguage ;;
  log WARN (fallbackWarning lng) None ;;
  ret (autoCompleteAnalyzer, autoCompleteAnalyzer).

(** The whole [if (!analyzerLanguage.equals("en"))] block (lines 676-719). *)
Definition languageAnalyzers (lang : string)
    (normalAnalyzer nonStemmedAnalyzer autoCompleteAnalyzer : Analyzer)
    : J (Analyzer * Analyzer) :=
  let languageAnalyzerPackage := "org.apache.lucene.analysis." ++ lang in
  try_catch
    (lookupLanguageAnalyzer languageAnalyzerPackage normalAnalyzer nonStemmedAnalyzer)
    reflectionFailures
    (fun _ => useAutoComplete autoCompleteAnalyzer).

Definition getAnalyser : J PerFieldAnalyzerWrapper :=
  cached <- field analyzer ;;
  match cached with
  | Some a => ret a
  | None =>
      stopSet <- loadStopSet ;;
      let normalAnalyzer := TLEAnalyzer stopSet true in
      let nonStemmedAnalyzer := TLEAnalyzer stopSet false in
      let autoCompleteAnalyzer := TLEAnalyzer None false in
      lang <- deref analyzerLanguage ;;
      analyzers <-
        (if negb (String.eqb lang "en")
         then languageAnalyzers lang normalAnalyzer nonStemmedAnalyzer autoCompleteAnalyzer
         else ret (normalAnalyzer, nonStemmedAnalyzer)) ;;
      fieldMap <- field getAnalyzerFieldMap ;;
      let built := {| defaultAnalyzer := fst analyzers;
                      fieldAnalyzers := fieldMap autoCompleteAnalyzer (snd analyzers) |} in
      assign (set_analyzer (Some built)) ;;
      ret built
  end.

(** [run()] of the anonymous commit task. *)
Definition CommitTask_run : J unit :=
  try_catch
    (writer <- deref trackingIndexWriter ;;
     invoke (IndexWriter_commit (getIndexWriter writer)))
    [IOException_]
    (fun ex => log ERROR "Error attempting to commit index writer" (Some ex)).

Definition runTask (t : TimerTask) : J unit :=
  match t with CommitTask => CommitTask_run end.

(** [java.util.Timer] with a repeating task: the timer thread calls [run()]
    at every tick for as long as [run()] returns; a throwable that escapes
    [run()] ends the timer thread, and no later tick takes place. *)
Fixpoint timerTicks (n : nat) (task : TimerTask) : J unit :=
  match n with
  | O => ret tt
  | S n' => runTask task ;; timerTicks n' task
  end.

Definition targetMaxStaleSec_literal : Q := 5 # 1.
Definition targetMinStaleSec_literal : Q := 1 # 10.
Definition commitPeriodMillis : Z := int_mul (int_mul 5 60) 1000.

(** [afterPropertiesSet] is one straight-line method; its four stretches are
    named here so that each can be stated on its own. *)

(** Lines 572-582: make sure the index path exists, open the directory and
    clear a stale lock. *)
Definition openDirectory : J unit :=
  path <- deref indexPath ;;
  present <- invoke (File_exists path) ;;
  (if negb present then
     made <- invoke (File_mkdirs path) ;;
     if negb made
     then throw (mkThrowable Error_ (Some ("Error creating index:" ++ path)) None)
     else ret tt
   else ret tt) ;;
  dir <- invoke (FSDirectory_open path) ;;
  assign (set_directory (Some dir)) ;;
  locked <- invoke (IndexWriter_isLocked dir) ;;
  if locked : bool then
    log INFO ("Unlocking index:" ++ path) None ;;
    invoke (IndexWriter_unlock dir)
  else ret tt.

(** Lines 583-588: open the writer and the NRT manager. *)
Definition openWriter : J unit :=
  path <- field indexPath ;;
  log INFO ("Opening writer for index:" ++ File_toString path) None ;;
  an <- getAnalyser ;;
  dir <- deref directory ;;
  writer <- invoke (IndexWriter_new dir an) ;;
  assign (set_trackingIndexWriter (Some {| getIndexWriter := writer |})) ;;
  tracking <- deref trackingIndexWriter ;;
  manager <- invoke (NRTManager_new tracking) ;;
  assign (set_nrtManager (Some manager)).

(** Lines 590-597: "Possibly reopen a searcher every 5 seconds if necessary in
    the background". *)
Definition startReopenThread : J unit :=
  manager <- deref nrtManager ;;
  thread <- invoke (ReopenThread_new manager targetMaxStaleSec_literal
                                     targetMinStaleSec_literal) ;;
  assign (set_nrtReopenThread (Some thread)) ;;
  thread <- deref nrtReopenThread ;;
  cls <- field runtimeClass ;;
  invoke (ReopenThread_setName thread ("NRT Reopen Thread: " ++ "class " ++ cls)) ;;
  thread <- deref nrtReopenThread ;;
  priority <- invoke Thread_currentPriority ;;
  invoke (ReopenThread_setPriority thread
            (Z.min (int_add priority 2) Thread_MAX_PRIORITY)) ;;
  thread <- deref nrtReopenThread ;;
  invoke (ReopenThread_setDaemon thread true) ;;
  thread <- deref nrtReopenThread ;;
  invoke (ReopenThread_start thread).

(** Lines 599-613: "Commit any changes to disk every 5 minutes". *)
Definition startCommitTimer : J unit :=
  timer <- invoke (Timer_new true) ;;
  assign (set_commiterThread (Some timer)) ;;
  timer <- deref commiterThread ;;
  invoke (Timer_schedule timer CommitTask commitPeriodMillis commitPeriodMillis).

Definition afterPropertiesSet : J unit :=
  openDirectory ;;
  openWriter ;;
  startReopenThread ;;
  startCommitTimer.

Definition deleteDirectory : J unit :=
  try_catch
    (timer <- deref commiterThread ;;
     invoke (Timer_cancel timer) ;;
     thread <- deref nrtReopenThread ;;
     invoke (ReopenThread_close thread) ;;
     manager <- deref nrtManager ;;
     invoke (NRTManager_close manager) ;;
     writer <- deref trackingIndexWriter ;;
     invoke (IndexWriter_close (getIndexWriter writer)) ;;
     dir <- deref directory ;;
     invoke (FSDirectory_close dir) ;;
     path <- field indexPath ;;
     invoke (FileUtils_delete path) ;;
     afterPropertiesSet)
    [IOException_]
    (fun e => throw (Throwables_propagate e)).

(** The exceptions [modifyIndex] and [search] construct. *)
Definition buildError (ex : Throwable) : Throwable :=
  mkThrowable RuntimeException_ (Some "Error while building index") (Some ex).

Definition searchError (ex : Throwable) : Throwable :=
  mkThrowable ErrorDuringSearchException_ (Some "Error searching index") (Some ex).

Definition releaseError (ex : Throwable) : Throwable :=
  mkThrowable ErrorDuringSearchException_ (Some "Error releasing searcher") (Some ex).

(** [modifyIndex]: the local [g] starts at [-1] and is assigned only when
    [buildIndex] returns; the [finally] block then folds it into
    [generation], whichever way the call ended. *)
Definition modifyIndex (builder : IndexBuilder) : J unit :=
  try_catch
    (fun e =>
       let g0 := -1 in
       Invoke (IndexBuilder_buildIndex builder (nrtManager e) (trackingIndexWriter e))
         (fun o =>
            let g := match o with Normal v => v | Thrown _ => g0 end in
            let e' := set_generation (Z.max g (generation e)) e in
            match o with
            | Normal _ => Done (Normal tt, e')
            | Thrown t => Done (Thrown t, e')
            end))
    [Exception_]
    (fun ex => throw (buildError ex)).

Definition search (s : Searcher) : J Object :=
  manager <- deref nrtManager ;;
  g <- field generation ;;
  invoke (NRTManager_waitForGeneration manager g) ;;
  manager <- deref nrtManager ;;
  indexSearcher <- invoke (NRTManager_acquire manager) ;;
  try_finally
    (try_catch
       (invoke (Searcher_search s indexSearcher))
       [IOException_]
       (fun ex =>
          log ERROR "Error searching index" (Some ex) ;;
          throw (searchError ex)))
    (match indexSearcher with
     | Some acquired =>
         try_catch
           (manager <- deref nrtManager ;;
            invoke (NRTManager_release manager acquired))
           [IOException_]
           (fun ex => throw (releaseError ex))
     | None => ret tt
     end).

(** Whether the five handles are set: the directory, the writer, the manager,
    the reopen thread and the commit timer are all non-[null].  This says
    nothing about which objects they are or whether they are still open. *)
Definition isReady (e : AbstractIndexEngine) : bool :=
  match directory e, trackingIndexWriter e, nrtManager e,
        nrtReopenThread e, commiterThread e with
  | Some _, Some _, Some _, Some _, Some _ => true
  | _, _, _, _, _ => false
  end.

(** ** Requests

    Everything that can happen to an engine after its construction: the
    setters and lifecycle methods, writes and searches, a subclass asking for
    the analyzer, and the commit timer firing. *)
Inductive request :=
| SetStopWordsFile (f : option File)
| SetAnalyzerLanguage (l : option string)
| SetIndexPath (f : option File)
| AfterPropertiesSet
| DeleteDirectory
| ModifyIndex (b : IndexBuilder)
| Search (s : Searcher)
| GetAnalyser
| TimerFires (t : TimerTask).

Definition serve (r : request) : J unit :=
  match r with
  | SetStopWordsFile f => setStopWordsFile f
  | SetAnalyzerLanguage l => setAnalyzerLanguage l
  | SetIndexPath f => setIndexPath f
  | AfterPropertiesSet => afterPropertiesSet
  | DeleteDirectory => deleteDirectory
  | ModifyIndex b => modifyIndex b
  | Search s => search s ;; ret tt
  | GetAnalyser => getAnalyser ;; ret tt
  | TimerFires t => runTask t
  end.

(** A history of requests; a request that throws leaves the fields as they
    were when it threw, and the next request finds them so. *)
Fixpoint serveAll (rs : list request) (e : AbstractIndexEngine)
    : prog AbstractIndexEngine :=
  match rs with
  | [] => Done e
  | r :: rs' => pbind (serve r e) (fun res => serveAll rs' (snd res))
  end.

(** The states an engine can be in: those some history of requests, in some
    environment, leads to from a freshly constructed engine. *)
Definition reachable (e : AbstractIndexEngine) : Prop :=
  exists cls fieldMap rs (W : Type)
         (handler : forall c, W -> outcome (resp c) * W) (w : W),
    e = result handler (serveAll rs (newEngine cls fieldMap)) w.

(** ** Runs of method bodies

    How a body ended, the fields and the world it left, and the calls it
    made. *)

Definition outcome_of {W : Type} (handler : forall c : call, W -> outcome (resp c) * W)
    {A} (m : J A) (e : AbstractIndexEngine) (w : W) : outcome A :=
  fst (result handler (m e) w).

Definition engine_after {W : Type} (handler : forall c : call, W -> outcome (resp c) * W)
    {A} (m : J A) (e : AbstractIndexEngine) (w : W)
    : AbstractIndexEngine :=
  snd (result handler (m e) w).

Definition world_of {W : Type} (handler : forall c : call, W -> outcome (resp c) * W)
    {A} (m : J A) (e : AbstractIndexEngine) (w : W) : W :=
  world_after handler (m e) w.

Definition calls_of {W : Type} (handler : forall c : call, W -> outcome (resp c) * W)
    {A} (m : J A) (e : AbstractIndexEngine) (w : W) : list call :=
  trace handler (m e) w.

(** A call together with the answer it got, and the exchanges of a run in
    the order they took place. *)
Definition exchange : Type := {c : call & outcome (resp c)}.


Fixpoint history {W : Type} (handler : forall c : call, W -> outcome (resp c) * W)
    {A} (p : prog A) (w : W) : list exchange :=
  match p with
  | Done _ => []
  | Invoke c k =>
      let r := handler c w in
      existT (fun c => outcome (resp c)) c (fst r) :: history handler (k (fst r)) (snd r)
  end.


(** ** Vocabulary of the statements

    Predicates on programs, relations on fields, and closed forms of how each
    method ends given how its calls ended.  The closed forms are not taken on
    trust: [search_run], [modifyIndex_run] and [CommitTask_run_run] below
    prove that the embedded methods end exactly so. *)

(** [ensures P p]: however the calls of [p] are answered, [p] ends in [P]. *)
Fixpoint ensures {A} (P : A -> Prop) (p : prog A) : Prop :=
  match p with
  | Done a => P a
  | Invoke c k => forall o, ensures P (k o)
  end.

Definition steady (R : AbstractIndexEngine -> AbstractIndexEngine -> Prop)
    {A} (m : J A) : Prop :=
  forall e, ensures (fun r => R e (snd r)) (m e).

(** Relations between the fields before and after: the tracker did not go
    down; a cached analyzer is still cached; a field is unchanged. *)
Definition generation_le (a b : AbstractIndexEngine) : Prop :=
  generation a <= generation b.

Definition analyzer_kept (a b : AbstractIndexEngine) : Prop :=
  forall x, analyzer a = Some x -> analyzer b = Some x.

Definition same_directory (a b : AbstractIndexEngine) : Prop :=
  directory a = directory b.

Definition same_class (a b : AbstractIndexEngine) : Prop :=
  runtimeClass a = runtimeClass b.

Definition same_settings (a b : AbstractIndexEngine) : Prop :=
  getAnalyzerFieldMap a = getAnalyzerFieldMap b
  /\ analyzerLanguage a = analyzerLanguage b
  /\ analyzer a = analyzer b.

(** Reference counting as the pool implements it, stated on an arbitrary
    handler: a successful [acquire] takes one reference, a successful
    [release] gives one back, waiting and the searcher callback take none. *)
Record RefCounted {W : Type} (handler : forall c, W -> outcome (resp c) * W)
    (refs : W -> Z) : Prop := {
  acquire_takes : forall m w s,
    fst (handler (NRTManager_acquire m) w) = Normal (Some s) ->
    refs (snd (handler (NRTManager_acquire m) w)) = refs w + 1;
  release_gives : forall m s w,
    fst (handler (NRTManager_release m s) w) = Normal tt ->
    refs (snd (handler (NRTManager_release m s) w)) = refs w - 1;
  wait_keeps : forall m g w,
    refs (snd (handler (NRTManager_waitForGeneration m g) w)) = refs w;
  searcher_keeps : forall s i w,
    refs (snd (handler (Searcher_search s i) w)) = refs w
}.

(** The acquisitions and the releases a trace contains. *)
Definition is_acquire (c : call) : bool :=
  match c with NRTManager_acquire _ => true | _ => false end.

Definition is_release (c : call) : bool :=
  match c with NRTManager_release _ _ => true | _ => false end.

(** How the [try]/[catch] part of [search] ends, given how the searcher
    callback ended. *)
Definition afterSearcher (o : outcome Object) : outcome Object :=
  match o with
  | Normal v => Normal v
  | Thrown t => if instanceOf t IOException_ then Thrown (searchError t) else Thrown t
  end.

(** How [search] ends, given how the callback and the release ended. *)
Definition afterRelease (o : outcome Object) (r : outcome unit) : outcome Object :=
  match r with
  | Normal _ => afterSearcher o
  | Thrown u => if instanceOf u IOException_ then Thrown (releaseError u) else Thrown u
  end.

Definition searchLog (o : outcome Object) (e : AbstractIndexEngine) : AbstractIndexEngine :=
  match o with
  | Normal _ => e
  | Thrown t =>
      if instanceOf t IOException_
      then set_LOGGER (LOGGER e ++ [{| level := ERROR; text := "Error searching index";
                                       thrown := Some t |}])%list e
      else e
  end.

(** How [modifyIndex] ends, given how [buildIndex] ended. *)
Definition afterBuild (o : outcome Z) : outcome unit :=
  match o with
  | Normal _ => Normal tt
  | Thrown t => if instanceOf t Exception_ then Thrown (buildError t) else Thrown t
  end.

(** The value the local [g] holds when the [finally] block runs. *)
Definition builtOrNone (o : outcome Z) : Z :=
  match o with Normal g => g | Thrown _ => -1 end.

Definition commitLogRecord (ex : Throwable) : LogRecord :=
  {| level := ERROR; text := "Error attempting to commit index writer";
     thrown := Some ex |}.

(** How [run()] of the commit task ends, given how [commit()] ended. *)
Definition afterCommit (o : outcome unit) : outcome unit :=
  match o with
  | Normal _ => Normal tt
  | Thrown t => if instanceOf t IOException_ then Normal tt else Thrown t
  end.

Definition commitLog (o : outcome unit) (e : AbstractIndexEngine) : AbstractIndexEngine :=
  match o with
  | Normal _ => e
  | Thrown t =>
      if instanceOf t IOException_
      then set_LOGGER (LOGGER e ++ [commitLogRecord t])%list e
      else e
  end.

(** Every failure of [commit()] in this environment is an [IOException]. *)
Definition commit_fails_with_IOException_only {W : Type}
    (handler : forall c : call, W -> outcome (resp c) * W)
    (writer : IndexWriter) : Prop :=
  forall w t, fst (handler (IndexWriter_commit writer) w) = Thrown t ->
              instanceOf t IOException_ = true.

(** The six calls that take the engine down, in the order [deleteDirectory]
    makes them. *)
Definition teardownCalls (e : AbstractIndexEngine) (timer : Timer)
    (thread : NRTManagerReopenThread) (manager : NRTManager)
    (tracking : TrackingIndexWriter) (dir : FSDirectory) : list call :=
  [Timer_cancel timer;
   ReopenThread_close thread;
   NRTManager_close manager;
   IndexWriter_close (getIndexWriter tracking);
   FSDirectory_close dir;
   FileUtils_delete (indexPath e)].

(** The three analyzers [getAnalyser] starts from. *)
Definition normalOf (stopSet : option CharArraySet) : Analyzer := TLEAnalyzer stopSet true.

Definition nonStemmedOf (stopSet : option CharArraySet) : Analyzer := TLEAnalyzer stopSet false.

Definition autoComplete : Analyzer := TLEAnalyzer None false.

(** The wrapper [getAnalyser] builds from the normal and the non-stemmed
    analyzer it ends up with. *)
Definition wrapperOf (e : AbstractIndexEngine) (normal nonStemmed : Analyzer)
    : PerFieldAnalyzerWrapper :=
  {| defaultAnalyzer := normal;
     fieldAnalyzers := getAnalyzerFieldMap e autoComplete nonStemmed |}.

(** The language block as [getAnalyser] runs it. *)
Definition languageBlock (lang : string) (stopSet : option CharArraySet)
    : J (Analyzer * Analyzer) :=
  if negb (String.eqb lang "en")
  then languageAnalyzers lang (normalOf stopSet) (nonStemmedOf stopSet) autoComplete
  else ret (normalOf stopSet, nonStemmedOf stopSet).

Definition packageOf (lang : string) : string := "org.apache.lucene.analysis." ++ lang.

Definition provides (lang : string) (c : JavaClass) : bool :=
  contains (getName c) (packageOf lang).

(** ** A small simulated environment

    A concrete world to run the engine in: Lucene's reference counting as one
    counter, a table of injected faults, and fixed answers for everything
    else.  It is a test double for the examples below; the theorems quantify
    over every handler. *)
Module Sim.

Record World := {
  refCount : Z;
  failingCommits : nat;
  existing : File -> bool;
  lockedIndex : bool;
  wordList : CharArraySet;
  loadable : list JavaClass;
  searchHit : Object;
  builtGeneration : Z;
  callerPriority : Z
}.

Definition set_refCount (v : Z) (w : World) : World :=
  {| refCount := v; failingCommits := failingCommits w; existing := existing w;
     lockedIndex := lockedIndex w; wordList := wordList w; loadable := loadable w;
     searchHit := searchHit w; builtGeneration := builtGeneration w;
     callerPriority := callerPriority w |}.

Definition set_failingCommits (v : nat) (w : World) : World :=
  {| refCount := refCount w; failingCommits := v; existing := existing w;
     lockedIndex := lockedIndex w; wordList := wordList w; loadable := loadable w;
     searchHit := searchHit w; builtGeneration := builtGeneration w;
     callerPriority := callerPriority w |}.

Definition ioFailure : Throwable :=
  mkThrowable IOException_ (Some "disk failure") None.
Definition unchecked : Throwable :=
  mkThrowable RuntimeException_ (Some "boom") None.
Definition linkageError : Throwable :=
  mkThrowable Error_ (Some "NoClassDefFoundError") None.

(** What a call does when no fault is injected.  The disk fails the next
    [failingCommits] commits with an [IOException] and then recovers. *)
Definition answer (c : call) (w : World) : outcome (resp c) * World :=
  match c return outcome (resp c) * World with
  | File_exists f => (Normal (existing w f), w)
  | File_mkdirs _ => (Normal true, w)
  | FileUtils_delete _ => (Normal tt, w)
  | FSDirectory_open _ => (Normal (FSDirectoryRef 1), w)
  | FSDirectory_close _ => (Normal tt, w)
  | IndexWriter_isLocked _ => (Normal (lockedIndex w), w)
  | IndexWriter_unlock _ => (Normal tt, w)
  | IndexWriter_new _ _ => (Normal (IndexWriterRef 2), w)
  | IndexWriter_commit _ =>
      match failingCommits w with
      | O => (Normal tt, w)
      | S n => (Thrown ioFailure, set_failingCommits n w)
      end
  | IndexWriter_close _ => (Normal tt, w)
  | NRTManager_new _ => (Normal (NRTManagerRef 3), w)
  | NRTManager_waitForGeneration _ _ => (Normal tt, w)
  | NRTManager_acquire _ =>
      (Normal (Some (IndexSearcherRef 4)), set_refCount (refCount w + 1) w)
  | NRTManager_release _ _ => (Normal tt, set_refCount (refCount w - 1) w)
  | NRTManager_close _ => (Normal tt, w)
  | ReopenThread_new _ _ _ => (Normal (ReopenThreadRef 5), w)
  | ReopenThread_setName _ _ => (Normal tt, w)
  | ReopenThread_setPriority _ _ => (Normal tt, w)
  | ReopenThread_setDaemon _ _ => (Normal tt, w)
  | ReopenThread_start _ => (Normal tt, w)
  | ReopenThread_close _ => (Normal tt, w)
  | Thread_currentPriority => (Normal (callerPriority w), w)
  | Timer_new _ => (Normal (TimerRef 6), w)
  | Timer_schedule _ _ _ _ => (Normal tt, w)
  | Timer_cancel _ => (Normal tt, w)
  | Searcher_search _ _ => (Normal (searchHit w), w)
  | IndexBuilder_buildIndex _ _ _ => (Normal (builtGeneration w), w)
  | WordlistLoader_getWordSet _ => (Normal (wordList w), w)
  | ClassGraph_scan _ => (Normal (ScanResultRef 7), w)
  | ScanResult_loadSubclasses _ => (Normal (loadable w), w)
  | ScanResult_close _ => (Normal tt, w)
  | Class_newInstance _ => (Normal (ObjectRef 8), w)
  | Class_getDeclaredMethod _ _ => (Normal (MethodRef 9), w)
  | Method_invoke _ => (Normal ["le"; "la"], w)
  end.

(** The handler, with a table of injected faults: a call listed in the table
    throws what the table says and leaves the world alone. *)
Definition handler (fault : call -> option Throwable) (c : call) (w : World)
    : outcome (resp c) * World :=
  match fault c with
  | Some t => (Thrown t, w)
  | None => answer c w
  end.

Definition noFault : call -> option Throwable := fun _ => None.

Definition world0 : World :=
  {| refCount := 0; failingCommits := 0; existing := fun _ => true;
     lockedIndex := false; wordList := ["the"; "a"]; loadable := [];
     searchHit := ObjectRef 42; builtGeneration := 7; callerPriority := 5 |}.

Definition searcherThrows (t : Throwable) : call -> option Throwable :=
  fun c => match c with Searcher_search _ _ => Some t | _ => None end.
Definition releaseThrows (t : Throwable) : call -> option Throwable :=
  fun c => match c with NRTManager_release _ _ => Some t | _ => None end.
Definition searcherAndReleaseThrow (t u : Throwable) : call -> option Throwable :=
  fun c => match c with
           | Searcher_search _ _ => Some t
           | NRTManager_release _ _ => Some u
           | _ => None
           end.
Definition builderThrows (t : Throwable) : call -> option Throwable :=
  fun c => match c with IndexBuilder_buildIndex _ _ _ => Some t | _ => None end.
Definition commitThrows (t : Throwable) : call -> option Throwable :=
  fun c => match c with IndexWriter_commit _ => Some t | _ => None end.
Definition newInstanceThrows (t : Throwable) : call -> option Throwable :=
  fun c => match c with Class_newInstance _ => Some t | _ => None end.

Definition fieldMap : Analyzer -> Analyzer -> list (string * Analyzer) :=
  fun autoComplete nonStemmed => [("autocomplete", autoComplete); ("name", nonStemmed)].

(** A constructed engine with its path and language set, and the engine a
    completed [afterPropertiesSet] makes of it in [world0]. *)
Definition configured (lang : string) : AbstractIndexEngine :=
  set_analyzerLanguage (Some lang)
    (set_indexPath (Some "/var/index") (newEngine "ItemIndex" fieldMap)).

Definition startUp (lang : string) : list request :=
  [SetIndexPath (Some "/var/index"); SetAnalyzerLanguage (Some lang);
   AfterPropertiesSet].

(** A French engine with a stop-word file, not yet started, and a world in
    which Lucene's French analyzer can be loaded. *)
Definition french : AbstractIndexEngine :=
  set_stopWordsFile (Some "/etc/stopwords.txt") (configured "fr").

Definition frenchAnalyzer : JavaClass :=
  {| getName := "org.apache.lucene.analysis.fr.FrenchAnalyzer"; classId := 1 |}.

Definition withFrenchAnalyzer : World :=
  {| refCount := 0; failingCommits := 0; existing := fun _ => true;
     lockedIndex := false; wordList := ["the"; "a"]; loadable := [frenchAnalyzer];
     searchHit := ObjectRef 42; builtGeneration := 7; callerPriority := 5 |}.

Definition cannotInstantiate : Throwable :=
  mkThrowable InstantiationException_ None None.

Definition flakyDisk : World := set_failingCommits 2 world0.

Definition started : AbstractIndexEngine :=
  Eval vm_compute in
    result (handler noFault) (serveAll (startUp "en") (newEngine "ItemIndex" fieldMap))
           world0.

End Sim.

Definition aSearcher : Searcher := SearcherRef 0.

Definition aBuilder : IndexBuilder := IndexBuilderRef 0.

(** ** Vocabulary of the further properties *)

(** [calls_all P p]: however the calls of [p] are answered, every call [p]
    makes satisfies [P]. *)
Fixpoint calls_all {A} (P : call -> Prop) (p : prog A) : Prop :=
  match p with
  | Done _ => True
  | Invoke c k => P c /\ forall o, calls_all P (k o)
  end.

Definition only (P : call -> Prop) {A} (m : J A) : Prop :=
  forall e, calls_all P (m e).

(** [keeps P m]: started from fields that satisfy [P], [m] leaves fields that
    satisfy [P], however its calls are answered and however it ends. *)
Definition keeps (P : AbstractIndexEngine -> Prop) {A} (m : J A) : Prop :=
  forall e, P e -> ensures (fun r => P (snd r)) (m e).

Definition ready (e : AbstractIndexEngine) : Prop := isReady e = true.

(** The calls that take an engine down. *)
Definition is_teardown (c : call) : bool :=
  match c with
  | Timer_cancel _ | ReopenThread_close _ | NRTManager_close _
  | IndexWriter_close _ | FSDirectory_close _ | FileUtils_delete _ => true
  | _ => false
  end.

Definition no_teardown (c : call) : Prop := is_teardown c = false.

(** A priority handed to [Thread.setPriority] is at most [MAX_PRIORITY]. *)
Definition priority_capped (c : call) : Prop :=
  match c with
  | ReopenThread_setPriority _ p => p <= Thread_MAX_PRIORITY
  | _ => True
  end.

Definition is_searcher_call (c : call) : bool :=
  match c with Searcher_search _ _ => true | _ => false end.

(** What the container configured, and the generation the writes reached. *)
Definition same_configuration (a b : AbstractIndexEngine) : Prop :=
  runtimeClass a = runtimeClass b
  /\ indexPath a = indexPath b
  /\ stopWordsFile a = stopWordsFile b
  /\ analyzerLanguage a = analyzerLanguage b
  /\ generation a = generation b.

Definition stopWordsWarning (file : File) (ex : Throwable) : LogRecord :=
  {| level := WARN; text := "No stop words available: " ++ file; thrown := Some ex |}.

Definition providerLogRecord (cls : JavaClass) : LogRecord :=
  {| level := INFO; text := "Using Lucene analyzer: " ++ getName cls; thrown := None |}.

Definition is_scan_close (c : call) : bool :=
  match c with ScanResult_close _ => true | _ => false end.

(** The record [search] logs when the searcher fails with an [IOException]. *)
Definition searchLogRecord (ex : Throwable) : LogRecord :=
  {| level := ERROR; text := "Error searching index"; thrown := Some ex |}.

(** ** Further simulated environments *)

(** A disk on which nothing exists and nothing can be created. *)
Definition readOnlyDisk (c : call) (w : Sim.World) : outcome (resp c) * Sim.World :=
  match c return outcome (resp c) * Sim.World with
  | File_exists _ => (Normal false, w)
  | File_mkdirs _ => (Normal false, w)
  | c' => Sim.answer c' w
  end.


(** A manager that has no searcher to hand out. *)
Definition noSnapshot (c : call) (w : Sim.World) : outcome (resp c) * Sim.World :=
  match c return outcome (resp c) * Sim.World with
  | NRTManager_acquire _ => (Normal None, w)
  | c' => Sim.answer c' w
  end.

(** The index path is missing, and the directory opened there is locked. *)
Definition missingAndLocked : Sim.World :=
  {| Sim.refCount := 0; Sim.failingCommits := 0; Sim.existing := fun _ => false;
     Sim.lockedIndex := true; Sim.wordList := ["the"; "a"]; Sim.loadable := [];
     Sim.searchHit := ObjectRef 42; Sim.builtGeneration := 7;
     Sim.callerPriority := 5 |}.

Definition writerCloseThrows (t : Throwable) : call -> option Throwable :=
  fun c => match c with IndexWriter_close _ => Some t | _ => None end.
Definition acquireThrows (t : Throwable) : call -> option Throwable :=
  fun c => match c with NRTManager_acquire _ => Some t | _ => None end.
Definition wordListThrows (t : Throwable) : call -> option Throwable :=
  fun c => match c with WordlistLoader_getWordSet _ => Some t | _ => None end.
Definition scanThrows (t : Throwable) : call -> option Throwable :=
  fun c => match c with ClassGraph_scan _ => Some t | _ => None end.

(** The writer a started engine holds, and an English engine with a
    stop-word file. *)
Definition startedWriter : TrackingIndexWriter :=
  {| getIndexWriter := IndexWriterRef 2 |}.

Definition englishWithStopWords : AbstractIndexEngine :=
  set_stopWordsFile (Some "/etc/stopwords.txt") (Sim.configured "en").

(** * The selection-session module

    The TypeScript module that talks to the legacy selection-session
    endpoints.  Its functions read two globals: the render data of the page
    (through [getRenderData], imported from [AppConfig]) and the object
    [CourseList] that [courselist.js] defines. *)

Module SelectionSession.

(** JavaScript values.  A number is kept as its IEEE-754 bit pattern; an
    array is an object whose keys are its indices.  Properties are looked up
    among an object's own properties: none of the keys this module reads
    ([selectionSessionInfo], [stateId], [layout],
    [isSelectSummaryButtonDisabled]) is a property of a built-in prototype. *)
Inductive JsValue :=
| JsUndefined
| JsNull
| JsBoolean (b : bool)
| JsNumber (bits : Z)
| JsBigInt (z : Z)
| JsString (s : string)
| JsSymbol (description : string)
| JsObject (properties : list (string * JsValue))
| JsFunction (properties : list (string * JsValue)).

Inductive JsError :=
| TypeError (message : string)
| ReferenceError (message : string).

(** How the evaluation of an expression ends. *)
Inductive completion (A : Type) :=
| Returns (a : A)
| Throws (e : JsError).
Arguments Returns {A} a.
Arguments Throws {A} e.

Definition andThen {A B} (c : completion A) (k : A -> completion B) : completion B :=
  match c with
  | Returns a => k a
  | Throws e => Throws e
  end.

(** [typeof v]. *)
Definition typeof (v : JsValue) : string :=
  match v with
  | JsUndefined => "undefined"
  | JsNull => "object"
  | JsBoolean _ => "boolean"
  | JsNumber _ => "number"
  | JsBigInt _ => "bigint"
  | JsString _ => "string"
  | JsSymbol _ => "symbol"
  | JsObject _ => "object"
  | JsFunction _ => "function"
  end.

Fixpoint lookup (key : string) (properties : list (string * JsValue)) : option JsValue :=
  match properties with
  | [] => None
  | (k, v) :: rest => if String.eqb k key then Some v else lookup key rest
  end.

(** [v !== null]. *)
Definition isNotNull (v : JsValue) : bool :=
  match v with JsNull => false | _ => true end.

(** [key in v]: the operator throws a [TypeError] when [v] is not an object. *)
Definition hasProperty (key : string) (v : JsValue) : completion bool :=
  match v with
  | JsObject ps | JsFunction ps =>
      Returns (match lookup key ps with Some _ => true | None => false end)
  | _ => Throws (TypeError "Cannot use 'in' operator to search for a key in a primitive")
  end.

(** [v.key]: reading a property of [undefined] or [null] throws a
    [TypeError]; a missing property reads as [undefined]. *)
Definition member (v : JsValue) (key : string) : completion JsValue :=
  match v with
  | JsUndefined | JsNull => Throws (TypeError "Cannot read properties of undefined or null")
  | JsObject ps | JsFunction ps =>
      Returns (match lookup key ps with Some x => x | None => JsUndefined end)
  | _ => Returns JsUndefined
  end.

(** [v?.key]. *)
Definition optionalMember (v : JsValue) (key : string) : completion JsValue :=
  match v with
  | JsUndefined | JsNull => Returns JsUndefined
  | _ => member v key
  end.

(** [v === "s"]. *)
Definition strictEqualsString (v : JsValue) (s : string) : bool :=
  match v with
  | JsString s' => String.eqb s' s
  | _ => false
  end.

(** The two properties of [CourseList] that are read (its two methods
    manipulate the DOM). *)
Record CourseListObject := {
  newSearchPageItemClass : string;
  newSearchPageAttachmentClass : string
}.

(** The globals of a page: what [getRenderData()] returns, and [CourseList],
    which exists only where [courselist.js] has been loaded. *)
Record Page := {
  getRenderData : JsValue;
  CourseList : option CourseListObject
}.

(** Evaluating the identifier [CourseList]. *)
Definition getGlobalCourseList (page : Page) : completion CourseListObject :=
  match CourseList page with
  | Some c => Returns c
  | None => Throws (ReferenceError "CourseList is not defined")
  end.

(** [typeof data === "object" && data !== null && "stateId" in data]. *)
Definition isSelectionSessionInfo (data : JsValue) : completion bool :=
  if String.eqb (typeof data) "object" then
    if isNotNull data then hasProperty "stateId" data else Returns false
  else Returns false.

Definition isSelectionSessionOpen (page : Page) : completion bool :=
  andThen (optionalMember (getRenderData page) "selectionSessionInfo")
          isSelectionSessionInfo.

Definition getSelectionSessionInfo (page : Page) : completion JsValue :=
  andThen (optionalMember (getRenderData page) "selectionSessionInfo")
    (fun selectionSessionInfo =>
       andThen (isSelectionSessionInfo selectionSessionInfo)
         (fun ok =>
            if ok : bool then Returns selectionSessionInfo
            else Throws (TypeError "The type of Selection Session Info is incorrect."))).

Definition isSelectionSessionInStructured (page : Page) : completion bool :=
  andThen (isSelectionSessionOpen page)
    (fun open =>
       if open : bool then
         andThen (getSelectionSessionInfo page)
           (fun info =>
              andThen (member info "layout")
                (fun layout => Returns (strictEqualsString layout "coursesearch")))
       else Returns false).

Definition isSelectSummaryButtonDisabled (page : Page) : completion JsValue :=
  andThen (optionalMember (getRenderData page) "selectionSessionInfo")
    (fun selectionSessionInfo =>
       andThen (isSelectionSessionInfo selectionSessionInfo)
         (fun ok =>
            if ok : bool then member selectionSessionInfo "isSelectSummaryButtonDisabled"
            else Returns (JsBoolean true))).

Definition getSearchPageItemClass (page : Page) : completion string :=
  andThen (isSelectionSessionInStructured page)
    (fun structured =>
       if structured : bool then
         andThen (getGlobalCourseList page)
                 (fun courseList => Returns (newSearchPageItemClass courseList))
       else Returns "").

Definition getSearchPageAttachmentClass (page : Page) : completion string :=
  andThen (isSelectionSessionInStructured page)
    (fun structured =>
       if structured : bool then
         andThen (getGlobalCourseList page)
                 (fun courseList => Returns (newSearchPageAttachmentClass courseList))
       else Returns "").

(** Pages to try the functions on. *)
Definition structuredSession : JsValue :=
  JsObject [("stateId", JsString "1"); ("layout", JsString "coursesearch");
            ("isSelectSummaryButtonDisabled", JsBoolean false)].

Definition structuredPage : Page :=
  {| getRenderData := JsObject [("newUI", JsBoolean true);
                                ("selectionSessionInfo", structuredSession)];
     CourseList := Some {| newSearchPageItemClass := "drag-item";
                           newSearchPageAttachmentClass := "drag-attachment" |} |}.

Definition plainPage : Page :=
  {| getRenderData := JsObject [("newUI", JsBoolean true);
                                ("selectionSessionInfo", JsNull)];
     CourseList := None |}.

End SelectionSession.

(** * Lemmas and theorems *)

(** ** Reasoning about programs *)

Lemma ensures_run {A} (P : A -> Prop) (p : prog A) :
  ensures P p ->
  forall W (handler : forall c, W -> outcome (resp c) * W) (w : W),
    P (result handler p w).
Proof.
  unfold result. induction p as [a | c k IH]; cbn; intros HP W handler w.
  - exact HP.
  - apply IH, HP.
Qed.

Lemma ensures_pbind {A B} (Q : B -> Prop) (p : prog A) (f : A -> prog B) :
  ensures (fun a => ensures Q (f a)) p -> ensures Q (pbind p f).
Proof.
  induction p as [a | c k IH]; cbn; intros H.
  - exact H.
  - intros o. apply IH, H.
Qed.

Lemma ensures_weaken {A} (P Q : A -> Prop) (p : prog A) :
  (forall a, P a -> Q a) -> ensures P p -> ensures Q p.
Proof.
  intros PQ. induction p as [a | c k IH]; cbn; intros H.
  - apply PQ, H.
  - intros o. apply IH, H.
Qed.

(** How runs compose along sequences and [try]/[catch]. *)
Section Exec.
Context {W : Type}.
Variable handler : forall c : call, W -> outcome (resp c) * W.

Lemma run_pbind {A B} (p : prog A) (f : A -> prog B) (w : W) :
  run handler (pbind p f) w =
    (fst (run handler (f (result handler p w)) (world_after handler p w)),
     (trace handler p w
        ++ snd (run handler (f (result handler p w)) (world_after handler p w)))%list).
Proof.
  unfold result, world_after, trace.
  revert w. induction p as [a | c k IH]; intros w; cbn.
  - now destruct (run handler (f a) w).
  - rewrite IH. reflexivity.
Qed.

Lemma run_invoke (c : call) (e : AbstractIndexEngine) (w : W) :
  run handler (invoke c e) w =
    ((fst (handler c w), e), snd (handler c w), [c]).
Proof. reflexivity. Qed.

(** A sequence whose first part returns runs the rest from where the first
    part stopped. *)
Lemma run_bind_Normal {A B} (m : J A) (f : A -> J B) e w a :
  outcome_of handler m e w = Normal a ->
  run handler (bind m f e) w =
    (fst (run handler (f a (engine_after handler m e w)) (world_of handler m e w)),
     (calls_of handler m e w
        ++ snd (run handler (f a (engine_after handler m e w)) (world_of handler m e w)))%list).
Proof.
  unfold outcome_of, engine_after, world_of, calls_of, bind. intros H.
  rewrite run_pbind, H. reflexivity.
Qed.

(** A sequence whose first part throws stops there. *)
Lemma run_bind_Thrown {A B} (m : J A) (f : A -> J B) e w t :
  outcome_of handler m e w = Thrown t ->
  run handler (bind m f e) w =
    ((Thrown t, engine_after handler m e w), world_of handler m e w, calls_of handler m e w).
Proof.
  unfold outcome_of, engine_after, world_of, calls_of, bind. intros H.
  rewrite run_pbind, H. cbn. now rewrite app_nil_r.
Qed.

Lemma run_try_catch_Normal {A} (body : J A) classes (h : Throwable -> J A) e w a :
  outcome_of handler body e w = Normal a ->
  run handler (try_catch body classes h e) w =
    ((Normal a, engine_after handler body e w),
     world_of handler body e w, calls_of handler body e w).
Proof.
  unfold outcome_of, engine_after, world_of, calls_of, try_catch. intros H.
  rewrite run_pbind, H. cbn. now rewrite app_nil_r.
Qed.

Lemma run_try_catch_caught {A} (body : J A) classes (h : Throwable -> J A) e w t :
  outcome_of handler body e w = Thrown t ->
  existsb (instanceOf t) classes = true ->
  run handler (try_catch body classes h e) w =
    (fst (run handler (h t (engine_after handler body e w)) (world_of handler body e w)),
     (calls_of handler body e w
        ++ snd (run handler (h t (engine_after handler body e w))
                   (world_of handler body e w)))%list).
Proof.
  unfold outcome_of, engine_after, world_of, calls_of, try_catch. intros H Hc.
  rewrite run_pbind, H, Hc. reflexivity.
Qed.

Lemma outcome_bind_Normal_inv {A B} (m : J A) (f : A -> J B) e w b :
  outcome_of handler (bind m f) e w = Normal b ->
  exists a, outcome_of handler m e w = Normal a /\
            outcome_of handler (f a) (engine_after handler m e w)
                       (world_of handler m e w) = Normal b.
Proof.
  intros H. destruct (outcome_of handler m e w) as [a | t] eqn:Hm.
  - exists a. split; [reflexivity|].
    unfold outcome_of, result in H. erewrite run_bind_Normal in H by exact Hm.
    exact H.
  - unfold outcome_of, result in H. erewrite run_bind_Thrown in H by exact Hm.
    discriminate.
Qed.
End Exec.

(** ** [search] *)

Section SearchFacts.
Context {W : Type}.
Variable handler : forall c : call, W -> outcome (resp c) * W.
Variables (e : AbstractIndexEngine) (s : Searcher) (m : NRTManager).
Variables (w w1 w2 : W) (snapshot : IndexSearcher).
Hypothesis manager_set : nrtManager e = Some m.
Hypothesis waited :
  handler (NRTManager_waitForGeneration m (generation e)) w = (Normal tt, w1).
Hypothesis acquired :
  handler (NRTManager_acquire m) w1 = (Normal (Some snapshot), w2).

Let searched := handler (Searcher_search s (Some snapshot)) w2.
Let released := handler (NRTManager_release m snapshot) (snd searched).

(** With the generation reached and a snapshot handed out, [search] makes
    exactly these four calls and ends as [afterRelease] says. *)
Lemma search_run :
  run handler (search s e) w =
    ((afterRelease (fst searched) (fst released), searchLog (fst searched) e),
     snd released,
     [NRTManager_waitForGeneration m (generation e);
      NRTManager_acquire m;
      Searcher_search s (Some snapshot);
      NRTManager_release m snapshot]).
Proof.
  unfold search, bind, deref, field, invoke, try_finally, try_catch, log, assign, throw.
  rewrite manager_set. cbn. rewrite waited. cbn. rewrite manager_set. cbn.
  rewrite acquired. cbn.
  subst released searched.
  destruct (handler (Searcher_search s (Some snapshot)) w2) as [[v | t] w3]; cbn;
    [| destruct (instanceOf t IOException_) eqn:Ht; cbn];
    rewrite manager_set; cbn;
    destruct (handler (NRTManager_release m snapshot) w3) as [[[] | u] w4]; cbn;
    rewrite ?Ht;
    try (destruct (instanceOf u IOException_); cbn);
    reflexivity.
Qed.
End SearchFacts.

(** [search] stops before acquiring when waiting throws, and never releases
    what it did not get. *)
Lemma search_wait_throws {W} (handler : forall c, W -> outcome (resp c) * W)
    e s m w w1 t :
  nrtManager e = Some m ->
  handler (NRTManager_waitForGeneration m (generation e)) w = (Thrown t, w1) ->
  calls_of handler (search s) e w = [NRTManager_waitForGeneration m (generation e)]
  /\ outcome_of handler (search s) e w = Thrown t.
Proof.
  intros Hm Hw. unfold calls_of, outcome_of, trace, result, search, bind, deref,
    field, invoke.
  rewrite Hm. cbn. rewrite Hw. cbn. split; reflexivity.
Qed.

Lemma search_acquire_throws {W} (handler : forall c, W -> outcome (resp c) * W)
    e s m w w1 w2 t :
  nrtManager e = Some m ->
  handler (NRTManager_waitForGeneration m (generation e)) w = (Normal tt, w1) ->
  handler (NRTManager_acquire m) w1 = (Thrown t, w2) ->
  calls_of handler (search s) e w =
    [NRTManager_waitForGeneration m (generation e); NRTManager_acquire m]
  /\ outcome_of handler (search s) e w = Thrown t.
Proof.
  intros Hm Hw Ha. unfold calls_of, outcome_of, trace, result, search, bind, deref,
    field, invoke.
  rewrite Hm. cbn. rewrite Hw. cbn. rewrite Hm. cbn. rewrite Ha. cbn.
  split; reflexivity.
Qed.

(** C1.  Once the tracked generation has been waited for and a snapshot
    acquired, [search] has made exactly four calls when it is left, in this
    order: wait for [generation], acquire, the searcher callback on the
    acquired snapshot, release of that same snapshot.  This holds however the
    callback ends (return or throw) and however the release ends (return or
    throw), so each acquisition is matched by exactly one release.  Under
    reference counting, whenever that release returns, the count is back
    where it was before [search]: zero stays zero, on the success path and
    on the path where the callback threw. *)
Theorem search_releases_exactly_once {W}
    (handler : forall c, W -> outcome (resp c) * W) (refs : W -> Z)
    (e : AbstractIndexEngine) (s : Searcher) (m : NRTManager)
    (w w1 w2 : W) (snapshot : IndexSearcher) :
  nrtManager e = Some m ->
  handler (NRTManager_waitForGeneration m (generation e)) w = (Normal tt, w1) ->
  handler (NRTManager_acquire m) w1 = (Normal (Some snapshot), w2) ->
  calls_of handler (search s) e w =
    [NRTManager_waitForGeneration m (generation e);
     NRTManager_acquire m;
     Searcher_search s (Some snapshot);
     NRTManager_release m snapshot]
  /\ filter is_acquire (calls_of handler (search s) e w) = [NRTManager_acquire m]
  /\ filter is_release (calls_of handler (search s) e w) =
       [NRTManager_release m snapshot]
  /\ (RefCounted handler refs ->
      fst (handler (NRTManager_release m snapshot)
             (snd (handler (Searcher_search s (Some snapshot)) w2))) = Normal tt ->
      refs (world_of handler (search s) e w) = refs w
      /\ (refs w = 0 -> refs (world_of handler (search s) e w) = 0)).
Proof.
  intros Hm Hw Ha.
  unfold calls_of, world_of, trace, world_after.
  rewrite (@search_run W handler e s m w w1 w2 snapshot Hm Hw Ha). cbn [fst snd].
  split; [reflexivity|]. split; [reflexivity|]. split; [reflexivity|].
  intros RC Hrel.
  assert (refs (snd (handler (NRTManager_release m snapshot)
                       (snd (handler (Searcher_search s (Some snapshot)) w2)))) = refs w)
    as Hbal.
  { rewrite (@release_gives _ _ _ RC _ _ _ Hrel), (@searcher_keeps _ _ _ RC).
    pose proof (@acquire_takes _ _ _ RC m w1 snapshot) as Hacq.
    rewrite Ha in Hacq. cbn in Hacq. rewrite Hacq by reflexivity.
    pose proof (@wait_keeps _ _ _ RC m (generation e) w) as Hwait.
    rewrite Hw in Hwait. cbn in Hwait. lia. }
  split; [exact Hbal | intros H0; now rewrite Hbal].
Qed.

(** C6 (amended).  With the generation reached and a snapshot acquired:
    an [IOException] thrown by the searcher, the release returning, reaches
    the caller as an [ErrorDuringSearchException] "Error searching index"
    with that exception as cause, and is logged; an [IOException] thrown by
    the release reaches the caller as an [ErrorDuringSearchException]
    "Error releasing searcher" with that exception as cause, whatever the
    searcher did.  The two errors have the same class and differ in their
    message. *)
Theorem search_errors_differ_in_message_only {W}
    (handler : forall c, W -> outcome (resp c) * W)
    (e : AbstractIndexEngine) (s : Searcher) (m : NRTManager)
    (w w1 w2 : W) (snapshot : IndexSearcher) :
  nrtManager e = Some m ->
  handler (NRTManager_waitForGeneration m (generation e)) w = (Normal tt, w1) ->
  handler (NRTManager_acquire m) w1 = (Normal (Some snapshot), w2) ->
  let searched := handler (Searcher_search s (Some snapshot)) w2 in
  let released := handler (NRTManager_release m snapshot) (snd searched) in
  (forall ex, fst searched = Thrown ex -> instanceOf ex IOException_ = true ->
     fst released = Normal tt ->
     outcome_of handler (search s) e w = Thrown (searchError ex)
     /\ LOGGER (engine_after handler (search s) e w) =
          (LOGGER e ++ [{| level := ERROR; text := "Error searching index";
                           thrown := Some ex |}])%list)
  /\ (forall ex, fst released = Thrown ex -> instanceOf ex IOException_ = true ->
        outcome_of handler (search s) e w = Thrown (releaseError ex))
  /\ (forall a b, getClass (searchError a) = ErrorDuringSearchException_
                  /\ getClass (releaseError b) = ErrorDuringSearchException_
                  /\ getMessage (searchError a) <> getMessage (releaseError b)).
Proof.
  intros Hm Hw Ha searched released.
  unfold outcome_of, engine_after, result.
  rewrite (@search_run W handler e s m w w1 w2 snapshot Hm Hw Ha). cbn [fst snd].
  fold searched. fold released.
  split; [| split].
  - intros ex Hs Hio Hr. rewrite Hs, Hr. cbn. rewrite Hio. split; reflexivity.
  - intros ex Hr Hio. rewrite Hr. cbn. rewrite Hio. reflexivity.
  - intros a b. repeat split. cbn. discriminate.
Qed.

(** C10 (amended).  When the searcher throws an exception that is not an
    [IOException], the acquired snapshot is still released, exactly once and
    as the last call before [search] is left; if that release returns, the
    caller receives the searcher's exception itself, unwrapped, and nothing is
    logged; if the release throws, its exception (wrapped as a release error
    when it is an [IOException]) is what the caller receives instead. *)
Theorem search_unchecked_exception_after_release {W}
    (handler : forall c, W -> outcome (resp c) * W)
    (e : AbstractIndexEngine) (s : Searcher) (m : NRTManager)
    (w w1 w2 : W) (snapshot : IndexSearcher) (t : Throwable) :
  nrtManager e = Some m ->
  handler (NRTManager_waitForGeneration m (generation e)) w = (Normal tt, w1) ->
  handler (NRTManager_acquire m) w1 = (Normal (Some snapshot), w2) ->
  fst (handler (Searcher_search s (Some snapshot)) w2) = Thrown t ->
  instanceOf t IOException_ = false ->
  let released :=
    handler (NRTManager_release m snapshot)
            (snd (handler (Searcher_search s (Some snapshot)) w2)) in
  calls_of handler (search s) e w =
    [NRTManager_waitForGeneration m (generation e); NRTManager_acquire m;
     Searcher_search s (Some snapshot); NRTManager_release m snapshot]
  /\ (fst released = Normal tt ->
        outcome_of handler (search s) e w = Thrown t
        /\ engine_after handler (search s) e w = e)
  /\ (forall u, fst released = Thrown u ->
        outcome_of handler (search s) e w =
          Thrown (if instanceOf u IOException_ then releaseError u else u)).
Proof.
  intros Hm Hw Ha Hs Hio released.
  unfold calls_of, outcome_of, engine_after, trace, result.
  rewrite (@search_run W handler e s m w w1 w2 snapshot Hm Hw Ha). cbn [fst snd].
  fold released. rewrite Hs.
  split; [reflexivity | split].
  - intros Hr. rewrite Hr. cbn. rewrite Hio. split; reflexivity.
  - intros u Hr. rewrite Hr. cbn. now destruct (instanceOf u IOException_).
Qed.

(** ** [modifyIndex] *)

Lemma modifyIndex_run {W} (handler : forall c, W -> outcome (resp c) * W)
    (builder : IndexBuilder) (e : AbstractIndexEngine) (w : W) :
  let built :=
    handler (IndexBuilder_buildIndex builder (nrtManager e) (trackingIndexWriter e)) w in
  run handler (modifyIndex builder e) w =
    ((afterBuild (fst built),
      set_generation (Z.max (builtOrNone (fst built)) (generation e)) e),
     snd built,
     [IndexBuilder_buildIndex builder (nrtManager e) (trackingIndexWriter e)]).
Proof.
  unfold modifyIndex, try_catch, throw. cbn.
  destruct (handler _ w) as [[g | t] w']; cbn; [reflexivity|].
  now destruct (instanceOf t Exception_).
Qed.

(** ** What a method leaves alone

    [steady R m]: however its calls are answered, [m] leaves the fields
    [R]-related to the fields it started from.  [R] is a preorder, so
    steadiness composes along sequences, handlers and [finally] blocks. *)
Section Frame.
Variable R : AbstractIndexEngine -> AbstractIndexEngine -> Prop.
Hypothesis R_refl : forall e, R e e.
Hypothesis R_trans : forall a b c, R a b -> R b c -> R a c.

Lemma steady_ret {A} (a : A) : steady R (ret a).
Proof. intros e. apply R_refl. Qed.

Lemma steady_throw {A} (t : Throwable) : steady R (@throw A t).
Proof. intros e. apply R_refl. Qed.

Lemma steady_field {A} (f : AbstractIndexEngine -> A) : steady R (field f).
Proof. intros e. apply R_refl. Qed.

Lemma steady_deref {A} (f : AbstractIndexEngine -> option A) : steady R (deref f).
Proof. intros e. unfold deref. destruct (f e); apply R_refl. Qed.

Lemma steady_invoke (c : call) : steady R (invoke c).
Proof. intros e o. apply R_refl. Qed.

Lemma steady_assign (upd : AbstractIndexEngine -> AbstractIndexEngine) :
  (forall e, R e (upd e)) -> steady R (assign upd).
Proof. intros H e. apply H. Qed.

Lemma steady_pbind {A B} (e : AbstractIndexEngine)
    (p : prog (outcome A * AbstractIndexEngine))
    (f : outcome A * AbstractIndexEngine -> prog (outcome B * AbstractIndexEngine)) :
  ensures (fun r => R e (snd r)) p ->
  (forall r, ensures (fun r' => R (snd r) (snd r')) (f r)) ->
  ensures (fun r => R e (snd r)) (pbind p f).
Proof.
  intros Hp Hf. apply ensures_pbind.
  eapply ensures_weaken; [| exact Hp].
  intros r Hr. cbn in Hr.
  eapply ensures_weaken; [| apply Hf].
  intros r' Hr'. eapply R_trans; eassumption.
Qed.

Lemma steady_bind {A B} (m : J A) (f : A -> J B) :
  steady R m -> (forall a, steady R (f a)) -> steady R (bind m f).
Proof.
  intros Hm Hf e. unfold bind. apply steady_pbind; [apply Hm|].
  intros [[a | t] e1]; cbn; [apply Hf | apply R_refl].
Qed.

Lemma steady_try_catch {A} (body : J A) classes (h : Throwable -> J A) :
  steady R body -> (forall t, steady R (h t)) -> steady R (try_catch body classes h).
Proof.
  intros Hb Hh e. unfold try_catch. apply steady_pbind; [apply Hb|].
  intros [[a | t] e1]; cbn; [apply R_refl|].
  destruct (existsb (instanceOf t) classes); [apply Hh | apply R_refl].
Qed.

Lemma steady_try_finally {A} (body : J A) (fin : J unit) :
  steady R body -> steady R fin -> steady R (try_finally body fin).
Proof.
  intros Hb Hf e. unfold try_finally. apply steady_pbind; [apply Hb|].
  intros r. apply steady_pbind; [apply Hf|].
  intros [[a | t] e2]; cbn; apply R_refl.
Qed.

Lemma steady_try_with_resource {X A} (open : J X) (close : X -> J unit)
    (body : X -> J A) :
  steady R open -> (forall x, steady R (close x)) -> (forall x, steady R (body x)) ->
  steady R (try_with_resource open close body).
Proof.
  intros Ho Hc Hb. unfold try_with_resource. apply steady_bind; [exact Ho|].
  intros x e. apply steady_pbind; [apply Hb|].
  intros r. apply steady_pbind; [apply Hc|].
  intros r'. destruct (fst r), (fst r'); cbn; apply R_refl.
Qed.

Lemma steady_if {A} (b : bool) (m1 m2 : J A) :
  steady R m1 -> steady R m2 -> steady R (if b then m1 else m2).
Proof. now destruct b. Qed.

(** Assignments the methods make, as far as [R] tolerates them. *)
Hypothesis R_LOGGER : forall e v, R e (set_LOGGER v e).
Hypothesis R_directory : forall e v, R e (set_directory v e).
Hypothesis R_trackingIndexWriter : forall e v, R e (set_trackingIndexWriter v e).
Hypothesis R_nrtManager : forall e v, R e (set_nrtManager v e).
Hypothesis R_nrtReopenThread : forall e v, R e (set_nrtReopenThread v e).
Hypothesis R_commiterThread : forall e v, R e (set_commiterThread v e).

Lemma steady_log l msg t : steady R (log l msg t).
Proof. intros e. apply R_LOGGER. Qed.

Ltac steady_step :=
  first
    [ apply steady_try_with_resource; [| intros ? | intros ?]
    | apply steady_try_catch; [| intros ?]
    | apply steady_try_finally
    | apply steady_bind; [| intros ?]
    | apply steady_ret | apply steady_throw | apply steady_field
    | apply steady_deref | apply steady_invoke | apply steady_log
    | apply steady_assign; intros ?;
        first [ apply R_LOGGER | apply R_directory | apply R_trackingIndexWriter
              | apply R_nrtManager | apply R_nrtReopenThread
              | apply R_commiterThread ]
    | apply steady_if
    | match goal with
      | |- steady R (match ?x with _ => _ end) => destruct x
      end ].

Lemma loadStopSet_steady : steady R loadStopSet.
Proof. unfold loadStopSet. repeat steady_step. Qed.

Lemma lookupLanguageAnalyzer_steady pkg n ns :
  steady R (lookupLanguageAnalyzer pkg n ns).
Proof. unfold lookupLanguageAnalyzer. repeat steady_step. Qed.

Lemma languageAnalyzers_steady lang n ns ac : steady R (languageAnalyzers lang n ns ac).
Proof.
  unfold languageAnalyzers, lookupLanguageAnalyzer, useAutoComplete. cbv zeta.
  repeat steady_step.
Qed.

Lemma CommitTask_run_steady : steady R CommitTask_run.
Proof. unfold CommitTask_run. repeat steady_step. Qed.

Lemma search_steady s : steady R (search s).
Proof. unfold search. repeat steady_step. Qed.

Lemma getAnalyser_steady_assign :
  (forall e v, R e (set_analyzer v e)) -> steady R getAnalyser.
Proof.
  intros R_analyzer. unfold getAnalyser.
  repeat first [ apply loadStopSet_steady | apply languageAnalyzers_steady
               | apply steady_assign; intros ?; apply R_analyzer
               | steady_step ].
Qed.

Section Initialisation.
Hypothesis getAnalyser_steady : steady R getAnalyser.

Lemma openDirectory_steady : steady R openDirectory.
Proof. unfold openDirectory. repeat steady_step. Qed.

Lemma openWriter_steady : steady R openWriter.
Proof.
  unfold openWriter. repeat (first [apply getAnalyser_steady | steady_step]).
Qed.

Lemma startReopenThread_steady : steady R startReopenThread.
Proof. unfold startReopenThread. repeat steady_step. Qed.

Lemma startCommitTimer_steady : steady R startCommitTimer.
Proof. unfold startCommitTimer. repeat steady_step. Qed.

Lemma afterPropertiesSet_steady : steady R afterPropertiesSet.
Proof.
  unfold afterPropertiesSet.
  repeat first [ apply openDirectory_steady | apply openWriter_steady
               | apply startReopenThread_steady | apply startCommitTimer_steady
               | steady_step ].
Qed.

Lemma deleteDirectory_steady : steady R deleteDirectory.
Proof.
  unfold deleteDirectory.
  repeat first [ apply afterPropertiesSet_steady | steady_step ].
Qed.

(** Every request a caller, the container or the timer can make. *)
Hypothesis R_stopWordsFile : forall e v, R e (set_stopWordsFile v e).
Hypothesis R_analyzerLanguage : forall e v, R e (set_analyzerLanguage v e).
Hypothesis R_indexPath : forall e v, R e (set_indexPath v e).
Hypothesis R_generation :
  forall e g, R e (set_generation (Z.max g (generation e)) e).

Lemma modifyIndex_steady b : steady R (modifyIndex b).
Proof.
  intros e. unfold modifyIndex, try_catch, throw. cbn. intros [g | t]; cbn.
  - apply R_generation.
  - destruct (instanceOf t Exception_ || false); cbn; apply R_generation.
Qed.

Lemma serve_steady r : steady R (serve r).
Proof.
  destruct r; cbn [serve];
    first [ apply steady_assign; intros ?;
              first [apply R_stopWordsFile | apply R_analyzerLanguage | apply R_indexPath]
          | apply afterPropertiesSet_steady | apply deleteDirectory_steady
          | apply modifyIndex_steady | apply search_steady
          | apply steady_bind; [apply getAnalyser_steady | intros ?; apply steady_ret]
          | apply CommitTask_run_steady
          | idtac ].
  - apply steady_bind; [apply search_steady | intros ?; apply steady_ret].
  - destruct t. apply CommitTask_run_steady.
Qed.

Lemma serveAll_steady rs e : ensures (fun e' => R e e') (serveAll rs e).
Proof.
  revert e. induction rs as [| r rs IH]; intros e; cbn.
  - apply R_refl.
  - apply ensures_pbind. eapply ensures_weaken; [| apply serve_steady].
    intros r' Hr'. cbn in Hr'. eapply ensures_weaken; [| apply IH].
    intros e'. cbn. intros He'. eapply R_trans; eassumption.
Qed.
End Initialisation.
End Frame.

(** ** Invariants of reachable engines *)

Lemma ensures_always {A} (P : A -> Prop) (p : prog A) :
  (forall a, P a) -> ensures P p.
Proof.
  intros H. induction p as [a | c k IH]; cbn; [apply H | intros o; apply IH].
Qed.

Lemma generation_le_serveAll rs e :
  ensures (fun e' => generation e <= generation e') (serveAll rs e).
Proof.
  apply (@serveAll_steady generation_le); unfold generation_le; cbn; intros; try lia.
  apply getAnalyser_steady_assign; cbn; intros; lia.
Qed.

Lemma reachable_generation e : reachable e -> -1 <= generation e.
Proof.
  intros (cls & fm & rs & W & handler & w & ->).
  apply (ensures_run _ _ (generation_le_serveAll rs (newEngine cls fm))).
Qed.

Lemma getAnalyser_keeps_analyzer : steady analyzer_kept getAnalyser.
Proof.
  intros e. unfold getAnalyser, bind, field. cbn.
  destruct (analyzer e) as [a |] eqn:Ha; cbn.
  - intros x Hx. exact Hx.
  - apply ensures_always. intros r x Hx. congruence.
Qed.

Lemma analyzer_kept_serveAll rs e :
  ensures (fun e' => analyzer_kept e e') (serveAll rs e).
Proof.
  apply (@serveAll_steady analyzer_kept); unfold analyzer_kept; cbn; intros; auto.
  apply getAnalyser_keeps_analyzer.
Qed.

(** ** Writes and the generation tracker *)

(** A history served in two parts. *)
Lemma serveAll_app {W} (handler : forall c, W -> outcome (resp c) * W) rs1 rs2 :
  forall e w,
    result handler (serveAll (rs1 ++ rs2) e) w =
    result handler (serveAll rs2 (result handler (serveAll rs1 e) w))
           (world_after handler (serveAll rs1 e) w).
Proof.
  induction rs1 as [| r rs1 IH]; intros e w.
  - reflexivity.
  - cbn [app serveAll]. unfold result, world_after in *.
    rewrite !run_pbind. cbn [fst snd]. unfold result, world_after. apply IH.
Qed.

(** The tracker stays a [long]: [Math.max] cannot overflow. *)
Lemma modifyIndex_generation_is_long {W}
    (handler : forall c, W -> outcome (resp c) * W)
    (e : AbstractIndexEngine) (builder : IndexBuilder) (w : W) :
  is_long (generation e) ->
  (forall g, fst (handler (IndexBuilder_buildIndex builder (nrtManager e)
                             (trackingIndexWriter e)) w) = Normal g -> is_long g) ->
  is_long (generation (engine_after handler (modifyIndex builder) e w)).
Proof.
  intros He Hg. unfold engine_after, result. rewrite modifyIndex_run. cbn zeta. cbn.
  destruct (handler _ w) as [[g | t] w']; cbn in *.
  - specialize (Hg g eq_refl). unfold is_long in *. lia.
  - unfold is_long, Long_MIN_VALUE, Long_MAX_VALUE in *. lia.
Qed.

(** C2.  A write whose builder returns generation [g] ends normally and
    leaves the tracker at [max(previous, g)]; when the builder returns the
    sentinel [-1] the tracker keeps its value; and over any sequence of
    writes, and over any history of requests at all, the tracker never
    decreases: it is at least what it was at the start and at least what it
    was after any earlier part of the history. *)
Theorem modifyIndex_tracks_max_generation {W}
    (handler : forall c, W -> outcome (resp c) * W)
    (e : AbstractIndexEngine) (builder : IndexBuilder) (g : Z) (w w' : W) :
  reachable e ->
  handler (IndexBuilder_buildIndex builder (nrtManager e) (trackingIndexWriter e)) w
    = (Normal g, w') ->
  outcome_of handler (modifyIndex builder) e w = Normal tt
  /\ generation (engine_after handler (modifyIndex builder) e w)
       = Z.max (generation e) g
  /\ (g = -1 ->
      generation (engine_after handler (modifyIndex builder) e w) = generation e)
  /\ (forall (builders : list IndexBuilder) (w0 : W),
        generation e <=
          generation (result handler (serveAll (map ModifyIndex builders) e) w0))
  /\ (forall (rs : list request) (w0 : W),
        generation e <= generation (result handler (serveAll rs e) w0))
  /\ (forall (rs1 rs2 : list request) (w0 : W),
        generation (result handler (serveAll rs1 e) w0) <=
        generation (result handler (serveAll (rs1 ++ rs2) e) w0)).
Proof.
  intros Hreach Hb.
  pose proof (reachable_generation Hreach) as Hge.
  unfold outcome_of, engine_after, result.
  rewrite modifyIndex_run. cbn zeta. rewrite Hb. cbn.
  repeat split.
  - apply Z.max_comm.
  - intros ->. lia.
  - intros builders w0.
    apply (ensures_run _ _ (generation_le_serveAll (map ModifyIndex builders) e)).
  - intros rs w0. apply (ensures_run _ _ (generation_le_serveAll rs e)).
  - intros rs1 rs2 w0.
    pose proof (serveAll_app handler rs1 rs2 e w0) as Happ.
    unfold result in Happ. rewrite Happ.
    apply (ensures_run _ _ (generation_le_serveAll rs2 _)).
Qed.

(** C3 (amended).  When the builder throws, the tracker keeps its pre-call
    value and the builder has been called exactly once (no retry).  A thrown
    [java.lang.Exception] reaches the caller wrapped in a [RuntimeException]
    "Error while building index" whose cause it is; a thrown
    [java.lang.Error] is not caught and reaches the caller as it is. *)
Theorem modifyIndex_failure_keeps_generation {W}
    (handler : forall c, W -> outcome (resp c) * W)
    (e : AbstractIndexEngine) (builder : IndexBuilder) (t : Throwable) (w w' : W) :
  reachable e ->
  handler (IndexBuilder_buildIndex builder (nrtManager e) (trackingIndexWriter e)) w
    = (Thrown t, w') ->
  generation (engine_after handler (modifyIndex builder) e w) = generation e
  /\ calls_of handler (modifyIndex builder) e w =
       [IndexBuilder_buildIndex builder (nrtManager e) (trackingIndexWriter e)]
  /\ (instanceOf t Exception_ = true ->
      outcome_of handler (modifyIndex builder) e w = Thrown (buildError t)
      /\ getClass (buildError t) = RuntimeException_
      /\ getCause (buildError t) = Some t)
  /\ (instanceOf t Exception_ = false ->
      outcome_of handler (modifyIndex builder) e w = Thrown t).
Proof.
  intros Hreach Hb.
  pose proof (reachable_generation Hreach) as Hge.
  unfold outcome_of, engine_after, calls_of, trace, result.
  rewrite modifyIndex_run. cbn zeta. rewrite Hb. cbn.
  split; [lia |]. split; [reflexivity |]. split.
  - intros Hex. rewrite Hex. repeat split.
  - intros Hex. now rewrite Hex.
Qed.

(** ** Initialisation, block by block *)

Section Blocks.
Context {W : Type}.
Variable handler : forall c : call, W -> outcome (resp c) * W.

Ltac absurd_outcome :=
  try (let H := fresh in intro H; discriminate H).

Ltac answer_next :=
  match goal with
  | |- context [handler ?c ?w] =>
      destruct (handler c w) as [[? | ?] ?]; cbn; absurd_outcome
  | |- context [if ?b then _ else _] => destruct b; cbn; absurd_outcome
  end.

Lemma engine_after_bind_Normal {A B} (m : J A) (f : A -> J B) e w a :
  outcome_of handler m e w = Normal a ->
  engine_after handler (bind m f) e w =
    engine_after handler (f a) (engine_after handler m e w) (world_of handler m e w).
Proof.
  intros H. unfold engine_after at 1. unfold result.
  erewrite run_bind_Normal by exact H. reflexivity.
Qed.

Lemma calls_of_bind_Normal {A B} (m : J A) (f : A -> J B) e w a :
  outcome_of handler m e w = Normal a ->
  calls_of handler (bind m f) e w =
    (calls_of handler m e w ++
     calls_of handler (f a) (engine_after handler m e w) (world_of handler m e w))%list.
Proof.
  intros H. unfold calls_of at 1. unfold trace.
  erewrite run_bind_Normal by exact H. reflexivity.
Qed.

Lemma openDirectory_Normal e w :
  outcome_of handler openDirectory e w = Normal tt ->
  exists dir l,
    engine_after handler openDirectory e w = set_LOGGER l (set_directory (Some dir) e).
Proof.
  unfold outcome_of, engine_after, result, openDirectory, bind, deref, invoke,
    field, assign, log, throw, ret.
  destruct (indexPath e) as [path |] eqn:Hp; cbn; absurd_outcome.
  repeat answer_next.
  all: intros _; eexists; eexists; reflexivity.
Qed.

Lemma getAnalyser_same_directory : steady same_directory getAnalyser.
Proof.
  apply getAnalyser_steady_assign; unfold same_directory; cbn; intros; congruence.
Qed.

Lemma openWriter_Normal e w :
  outcome_of handler openWriter e w = Normal tt ->
  exists dir tracking manager,
    directory e = Some dir
    /\ directory (engine_after handler openWriter e w) = Some dir
    /\ trackingIndexWriter (engine_after handler openWriter e w) = Some tracking
    /\ nrtManager (engine_after handler openWriter e w) = Some manager.
Proof.
  unfold outcome_of, engine_after, result, openWriter, bind, deref, invoke,
    field, assign, log, throw, ret.
  cbn -[getAnalyser]. rewrite run_pbind.
  match goal with
  | |- context [result handler (getAnalyser ?e1) w] =>
      pose proof (ensures_run _ _ (getAnalyser_same_directory e1) handler w) as Hsame;
      destruct (result handler (getAnalyser e1) w) as [[an | t] e2]
  end; cbn in *; absurd_outcome.
  unfold same_directory in Hsame. cbn in Hsame. rewrite <- Hsame.
  destruct (directory e) as [dir |] eqn:Hd; cbn; absurd_outcome.
  repeat answer_next.
  intros _. exists dir. eexists. eexists. repeat split. cbn. now symmetry.
Qed.

Lemma openDirectory_steady_class : steady same_class openDirectory.
Proof.
  apply openDirectory_steady; unfold same_class; cbn; intros; congruence.
Qed.

Lemma openWriter_steady_class : steady same_class openWriter.
Proof.
  apply openWriter_steady; unfold same_class; cbn; intros; try congruence.
  apply getAnalyser_steady_assign; cbn; intros; congruence.
Qed.

Lemma startReopenThread_Normal e w :
  outcome_of handler startReopenThread e w = Normal tt ->
  exists manager thread priority,
    nrtManager e = Some manager
    /\ fst (handler (ReopenThread_new manager (5 # 1) (1 # 10)) w) = Normal thread
    /\ calls_of handler startReopenThread e w =
         [ReopenThread_new manager (5 # 1) (1 # 10);
          ReopenThread_setName thread
            ("NRT Reopen Thread: " ++ "class " ++ runtimeClass e);
          Thread_currentPriority;
          ReopenThread_setPriority thread
            (Z.min (int_add priority 2) Thread_MAX_PRIORITY);
          ReopenThread_setDaemon thread true;
          ReopenThread_start thread]
    /\ engine_after handler startReopenThread e w =
         set_nrtReopenThread (Some thread) e.
Proof.
  unfold outcome_of, engine_after, calls_of, trace, result, startReopenThread,
    bind, deref, invoke, field, assign, log, throw, ret.
  destruct (nrtManager e) as [manager |] eqn:Hm; cbn -[String.append]; absurd_outcome.
  destruct (handler (ReopenThread_new manager _ _) w) as [[thread | ?] ?] eqn:Hnew;
    cbn -[String.append]; absurd_outcome.
  repeat answer_next.
  intros _. exists manager, thread. eexists. repeat split.
  exact (f_equal fst Hnew).
Qed.

Lemma startCommitTimer_Normal e w :
  outcome_of handler startCommitTimer e w = Normal tt ->
  exists timer,
    calls_of handler startCommitTimer e w =
      [Timer_new true; Timer_schedule timer CommitTask 300000 300000]
    /\ engine_after handler startCommitTimer e w =
         set_commiterThread (Some timer) e.
Proof.
  unfold outcome_of, engine_after, calls_of, trace, result, startCommitTimer,
    bind, deref, invoke, field, assign, log, throw, ret.
  cbn. repeat answer_next.
  intros _. eexists. repeat split.
Qed.

(** A completed [afterPropertiesSet] ran its four stretches one after the
    other, each to completion. *)
Lemma afterPropertiesSet_Normal e w :
  outcome_of handler afterPropertiesSet e w = Normal tt ->
  exists e1 w1 e2 w2 e3 w3,
    outcome_of handler openDirectory e w = Normal tt
    /\ e1 = engine_after handler openDirectory e w
    /\ w1 = world_of handler openDirectory e w
    /\ outcome_of handler openWriter e1 w1 = Normal tt
    /\ e2 = engine_after handler openWriter e1 w1
    /\ w2 = world_of handler openWriter e1 w1
    /\ outcome_of handler startReopenThread e2 w2 = Normal tt
    /\ e3 = engine_after handler startReopenThread e2 w2
    /\ w3 = world_of handler startReopenThread e2 w2
    /\ outcome_of handler startCommitTimer e3 w3 = Normal tt
    /\ engine_after handler afterPropertiesSet e w =
         engine_after handler startCommitTimer e3 w3
    /\ calls_of handler afterPropertiesSet e w =
         (calls_of handler openDirectory e w ++
          calls_of handler openWriter e1 w1 ++
          calls_of handler startReopenThread e2 w2 ++
          calls_of handler startCommitTimer e3 w3)%list.
Proof.
  unfold afterPropertiesSet. intros H.
  pose proof H as H0.
  apply outcome_bind_Normal_inv in H0. destruct H0 as ([] & H1 & H0).
  pose proof H0 as H0'.
  apply outcome_bind_Normal_inv in H0'. destruct H0' as ([] & H2 & H0').
  pose proof H0' as H0''.
  apply outcome_bind_Normal_inv in H0''. destruct H0'' as ([] & H3 & H4).
  do 6 eexists.
  repeat (split; [first [eassumption | reflexivity] |]).
  split.
  - erewrite engine_after_bind_Normal by exact H1.
    erewrite engine_after_bind_Normal by exact H2.
    erewrite engine_after_bind_Normal by exact H3. reflexivity.
  - erewrite calls_of_bind_Normal by exact H1.
    erewrite calls_of_bind_Normal by exact H2.
    erewrite calls_of_bind_Normal by exact H3. reflexivity.
Qed.

Lemma afterPropertiesSet_ready e w :
  outcome_of handler afterPropertiesSet e w = Normal tt ->
  isReady (engine_after handler afterPropertiesSet e w) = true.
Proof.
  intros H.
  apply afterPropertiesSet_Normal in H.
  destruct H
    as (e1 & w1 & e2 & w2 & e3 & w3 & H1 & -> & -> & H2 & -> & -> & H3 & -> & -> & H4
        & -> & _).
  apply startCommitTimer_Normal in H4. destruct H4 as (timer & _ & ->).
  apply startReopenThread_Normal in H3. destruct H3 as (m & th & p & _ & _ & _ & ->).
  apply openWriter_Normal in H2. destruct H2 as (dir & tw & mgr & _ & Hd & Ht & Hm).
  unfold isReady. cbn. rewrite Hd, Ht, Hm. reflexivity.
Qed.
End Blocks.

(** C8.  When [afterPropertiesSet] completes, it has created the reopen
    thread with a target interval of 5.0 seconds and a minimum interval of
    0.1 seconds ([5 # 1] and [1 # 10] are the values of these two decimal
    literals), has marked that thread as a daemon before starting it, and
    holds it in [nrtReopenThread]. *)
Theorem reopen_thread_configuration {W}
    (handler : forall c, W -> outcome (resp c) * W)
    (e : AbstractIndexEngine) (w : W) :
  outcome_of handler afterPropertiesSet e w = Normal tt ->
  exists before after manager thread priority w2,
    calls_of handler afterPropertiesSet e w =
      (before ++
       [ReopenThread_new manager (5 # 1) (1 # 10);
        ReopenThread_setName thread
          ("NRT Reopen Thread: " ++ "class " ++ runtimeClass e);
        Thread_currentPriority;
        ReopenThread_setPriority thread
          (Z.min (int_add priority 2) Thread_MAX_PRIORITY);
        ReopenThread_setDaemon thread true;
        ReopenThread_start thread] ++ after)%list
    /\ fst (handler (ReopenThread_new manager (5 # 1) (1 # 10)) w2) = Normal thread
    /\ nrtReopenThread (engine_after handler afterPropertiesSet e w) = Some thread
    /\ targetMaxStaleSec_literal == 5
    /\ targetMinStaleSec_literal * 10 == 1.
Proof.
  intros H.
  apply afterPropertiesSet_Normal in H.
  destruct H
    as (e1 & w1 & e2 & w2 & e3 & w3 & H1 & He1 & Hw1 & H2 & He2 & Hw2 & H3 & He3 & Hw3
        & H4 & Hend & Hcalls).
  pose proof (ensures_run _ _ (openDirectory_steady_class e) handler w) as Hc1.
  pose proof (ensures_run _ _ (openWriter_steady_class e1) handler w1) as Hc2.
  apply startReopenThread_Normal in H3.
  destruct H3 as (m & th & p & Hm & Hnew & Hc3 & He3').
  apply startCommitTimer_Normal in H4. destruct H4 as (timer & _ & He4).
  exists (calls_of handler openDirectory e w ++ calls_of handler openWriter e1 w1)%list,
         (calls_of handler startCommitTimer e3 w3), m, th, p, w2.
  rewrite Hcalls, Hc3, Hend, He4, He3, He3'.
  unfold same_class in Hc1, Hc2. fold (engine_after handler openDirectory e w) in Hc1.
  fold (engine_after handler openWriter e1 w1) in Hc2.
  rewrite <- He1 in Hc1. rewrite <- He2 in Hc2.
  rewrite <- Hc2, <- Hc1.
  rewrite <- app_assoc.
  repeat split; try reflexivity. exact Hnew.
Qed.

(** ** The commit timer *)

Section CommitTimer.
Context {W : Type}.
Variable handler : forall c : call, W -> outcome (resp c) * W.

Lemma CommitTask_run_run e w tracking :
  trackingIndexWriter e = Some tracking ->
  let committed := handler (IndexWriter_commit (getIndexWriter tracking)) w in
  run handler (CommitTask_run e) w =
    ((afterCommit (fst committed), commitLog (fst committed) e),
     snd committed,
     [IndexWriter_commit (getIndexWriter tracking)]).
Proof.
  intros Ht. unfold CommitTask_run, try_catch, bind, deref, invoke, log, assign.
  rewrite Ht. cbn.
  destruct (handler (IndexWriter_commit (getIndexWriter tracking)) w)
    as [[[] | t] w']; cbn; [reflexivity |].
  now destruct (instanceOf t IOException_).
Qed.

Lemma commitLog_fields o e :
  exists l, commitLog o e = set_LOGGER l e.
Proof.
  destruct o as [[] | t]; cbn.
  - exists (LOGGER e). now destruct e.
  - destruct (instanceOf t IOException_).
    + eexists. reflexivity.
    + exists (LOGGER e). now destruct e.
Qed.

Lemma timerTicks_commit n : forall e w tracking,
  trackingIndexWriter e = Some tracking ->
  commit_fails_with_IOException_only handler (getIndexWriter tracking) ->
  outcome_of handler (timerTicks n CommitTask) e w = Normal tt
  /\ calls_of handler (timerTicks n CommitTask) e w =
       repeat (IndexWriter_commit (getIndexWriter tracking)) n
  /\ exists l, engine_after handler (timerTicks n CommitTask) e w = set_LOGGER l e.
Proof.
  induction n as [| n IH]; intros e w tracking Ht Hio.
  - cbn. repeat split. exists (LOGGER e). now destruct e.
  - cbn [timerTicks runTask].
    assert (outcome_of handler CommitTask_run e w = Normal tt) as Hrun.
    { unfold outcome_of, result. rewrite (CommitTask_run_run e w Ht). cbn.
      pose proof (Hio w) as Hio'.
      destruct (handler (IndexWriter_commit (getIndexWriter tracking)) w)
        as [[[] | t] w']; cbn in *; [reflexivity |].
      now rewrite (Hio' t eq_refl). }
    destruct (commitLog_fields
                (fst (handler (IndexWriter_commit (getIndexWriter tracking)) w)) e)
      as [l Hl].
    assert (engine_after handler CommitTask_run e w = set_LOGGER l e) as He.
    { unfold engine_after, result. rewrite (CommitTask_run_run e w Ht). exact Hl. }
    assert (calls_of handler CommitTask_run e w =
            [IndexWriter_commit (getIndexWriter tracking)]) as Hc.
    { unfold calls_of, trace. now rewrite (CommitTask_run_run e w Ht). }
    specialize (IH (set_LOGGER l e) (world_of handler CommitTask_run e w) tracking Ht Hio).
    destruct IH as (IHo & IHc & l' & IHe).
    unfold outcome_of, calls_of, engine_after, result, trace.
    erewrite run_bind_Normal by exact Hrun. cbn [fst snd].
    rewrite He, Hc.
    repeat split.
    + exact IHo.
    + unfold calls_of, trace in IHc. rewrite IHc. reflexivity.
    + exists l'. unfold engine_after, result in IHe. rewrite IHe. reflexivity.
Qed.
End CommitTimer.

(** C7 (amended).  The commit task is scheduled on a daemon timer with a
    delay and a period of 5 * 60 * 1000 ms; scheduling it does not read the
    reopen thread, and a tick makes no call but [commit()].  A commit that
    fails with an [IOException] is logged at ERROR level and [run()] returns
    normally, so nothing reaches the timer thread or any caller and only the
    log changes; and as long as commits fail with [IOException]s only, every
    one of [n] ticks calls [commit()] again. *)
Theorem commit_timer_contains_IOExceptions {W}
    (handler : forall c, W -> outcome (resp c) * W)
    (e : AbstractIndexEngine) (w : W) (tracking : TrackingIndexWriter) :
  trackingIndexWriter e = Some tracking ->
  commitPeriodMillis = 5 * 60 * 1000
  /\ (outcome_of handler startCommitTimer e w = Normal tt ->
      exists timer,
        calls_of handler startCommitTimer e w =
          [Timer_new true;
           Timer_schedule timer CommitTask (5 * 60 * 1000) (5 * 60 * 1000)])
  /\ (forall thread,
        calls_of handler startCommitTimer (set_nrtReopenThread thread e) w =
        calls_of handler startCommitTimer e w)
  /\ calls_of handler CommitTask_run e w =
       [IndexWriter_commit (getIndexWriter tracking)]
  /\ (forall ex,
        fst (handler (IndexWriter_commit (getIndexWriter tracking)) w) = Thrown ex ->
        instanceOf ex IOException_ = true ->
        outcome_of handler CommitTask_run e w = Normal tt
        /\ engine_after handler CommitTask_run e w =
             set_LOGGER (LOGGER e ++ [commitLogRecord ex])%list e)
  /\ (commit_fails_with_IOException_only handler (getIndexWriter tracking) ->
      forall n,
        outcome_of handler (timerTicks n CommitTask) e w = Normal tt
        /\ calls_of handler (timerTicks n CommitTask) e w =
             repeat (IndexWriter_commit (getIndexWriter tracking)) n
        /\ exists l,
             engine_after handler (timerTicks n CommitTask) e w = set_LOGGER l e).
Proof.
  intros Ht. split; [reflexivity |]. split; [| split; [| split; [| split]]].
  - intros H. apply startCommitTimer_Normal in H. destruct H as (timer & Hc & _).
    exists timer. exact Hc.
  - intros thread.
    unfold calls_of, trace, startCommitTimer, bind, deref, invoke, assign. cbn.
    destruct (handler (Timer_new true) w) as [[timer | t] w1]; reflexivity.
  - unfold calls_of, trace. now rewrite (CommitTask_run_run handler e w Ht).
  - intros ex Hc Hio. unfold outcome_of, engine_after, result.
    rewrite (CommitTask_run_run handler e w Ht). cbn zeta. cbn [fst snd].
    pose proof Hc as Hc'.
    destruct (handler (IndexWriter_commit (getIndexWriter tracking)) w) as [o w'].
    cbn in Hc'. subst o. cbn. rewrite Hio. split; reflexivity.
  - intros Honly n. apply timerTicks_commit; assumption.
Qed.

(** ** Resetting the index *)

Section Reset.
Context {W : Type}.
Variable handler : forall c : call, W -> outcome (resp c) * W.

Ltac absurd_outcome :=
  try (let H := fresh in intro H; discriminate H).

Ltac rethrown :=
  try match goal with
      | |- context [if ?b then _ else _] => destruct b; cbn -[afterPropertiesSet]
      end;
  absurd_outcome.

Lemma deleteDirectory_Normal e w :
  outcome_of handler deleteDirectory e w = Normal tt ->
  exists timer thread manager tracking dir w',
    commiterThread e = Some timer
    /\ nrtReopenThread e = Some thread
    /\ nrtManager e = Some manager
    /\ trackingIndexWriter e = Some tracking
    /\ directory e = Some dir
    /\ outcome_of handler afterPropertiesSet e w' = Normal tt
    /\ calls_of handler deleteDirectory e w =
         (teardownCalls e timer thread manager tracking dir
          ++ calls_of handler afterPropertiesSet e w')%list
    /\ engine_after handler deleteDirectory e w =
         engine_after handler afterPropertiesSet e w'.
Proof.
  unfold outcome_of, engine_after, calls_of, trace, result, deleteDirectory,
    try_catch, bind, deref, invoke, field, throw.
  destruct (commiterThread e) as [timer |]; cbn -[afterPropertiesSet];
    [| rethrown].
  destruct (handler (Timer_cancel timer) w) as [[[] | t1] w1];
    cbn -[afterPropertiesSet]; [| rethrown].
  destruct (nrtReopenThread e) as [thread |]; cbn -[afterPropertiesSet];
    [| rethrown].
  destruct (handler (ReopenThread_close thread) w1) as [[[] | t2] w2];
    cbn -[afterPropertiesSet]; [| rethrown].
  destruct (nrtManager e) as [manager |]; cbn -[afterPropertiesSet];
    [| rethrown].
  destruct (handler (NRTManager_close manager) w2) as [[[] | t3] w3];
    cbn -[afterPropertiesSet]; [| rethrown].
  destruct (trackingIndexWriter e) as [tracking |]; cbn -[afterPropertiesSet];
    [| rethrown].
  destruct (handler (IndexWriter_close (getIndexWriter tracking)) w3) as [[[] | t4] w4];
    cbn -[afterPropertiesSet]; [| rethrown].
  destruct (directory e) as [dir |]; cbn -[afterPropertiesSet];
    [| rethrown].
  destruct (handler (FSDirectory_close dir) w4) as [[[] | t5] w5];
    cbn -[afterPropertiesSet]; [| rethrown].
  destruct (handler (FileUtils_delete (indexPath e)) w5) as [[[] | t6] w6];
    cbn -[afterPropertiesSet]; [| rethrown].
  rewrite !run_pbind. cbn -[afterPropertiesSet].
  unfold result, world_after, trace.
  destruct (run handler (afterPropertiesSet e) w6) as [[[[[] | t7] e'] w7] tr] eqn:Hrun;
    cbn -[afterPropertiesSet].
  - intros _. exists timer, thread, manager, tracking, dir, w6.
    rewrite Hrun. cbn. rewrite !app_nil_r. repeat split.
  - rethrown.
Qed.
End Reset.

(** ** The analyzer *)

Lemma same_settings_refl e : same_settings e e.
Proof. repeat split. Qed.

Lemma same_settings_trans a b c :
  same_settings a b -> same_settings b c -> same_settings a c.
Proof. unfold same_settings. intros (? & ? & ?) (? & ? & ?). repeat split; congruence. Qed.

Lemma same_settings_LOGGER e v : same_settings e (set_LOGGER v e).
Proof. repeat split. Qed.

Section Analyzers.
Context {W : Type}.
Variable handler : forall c : call, W -> outcome (resp c) * W.

(** A cached analyzer is returned at once: no call is made, no field changes. *)
Lemma getAnalyser_cached e w a :
  analyzer e = Some a ->
  run handler (getAnalyser e) w = ((Normal a, e), w, []).
Proof.
  intros Ha. unfold getAnalyser, bind, field. cbn. rewrite Ha. reflexivity.
Qed.

Lemma languageBlock_same_settings lang stopSet :
  steady same_settings (languageBlock lang stopSet).
Proof.
  unfold languageBlock. destruct (negb _).
  - apply (@languageAnalyzers_steady same_settings same_settings_refl
             same_settings_trans same_settings_LOGGER).
  - apply steady_ret. apply same_settings_refl.
Qed.

Lemma getAnalyser_builds e w lang stopSet pair :
  analyzer e = None ->
  analyzerLanguage e = Some lang ->
  outcome_of handler loadStopSet e w = Normal stopSet ->
  let e1 := engine_after handler loadStopSet e w in
  let w1 := world_of handler loadStopSet e w in
  outcome_of handler (languageBlock lang stopSet) e1 w1 = Normal pair ->
  outcome_of handler getAnalyser e w = Normal (wrapperOf e (fst pair) (snd pair))
  /\ engine_after handler getAnalyser e w =
       set_analyzer (Some (wrapperOf e (fst pair) (snd pair)))
         (engine_after handler (languageBlock lang stopSet) e1 w1).
Proof.
  intros Ha Hl Hs e1 w1 Hb.
  assert (same_settings e e1) as (Hf1 & Hl1 & _).
  { apply (ensures_run _ _
             (@loadStopSet_steady same_settings same_settings_refl same_settings_trans
                same_settings_LOGGER e) handler w). }
  assert (same_settings e1 (engine_after handler (languageBlock lang stopSet) e1 w1))
    as (Hf2 & _ & _).
  { apply (ensures_run _ _ (languageBlock_same_settings lang stopSet e1) handler w1). }
  set (e2 := engine_after handler (languageBlock lang stopSet) e1 w1) in *.
  assert (fst (fst (run handler (getAnalyser e) w)) =
          (Normal (wrapperOf e (fst pair) (snd pair)),
           set_analyzer (Some (wrapperOf e (fst pair) (snd pair))) e2)) as Hrun.
  { unfold getAnalyser. unfold bind at 1. unfold field at 1. cbn [pbind fst snd].
    rewrite Ha.
    erewrite run_bind_Normal by exact Hs. cbn [fst snd].
    fold e1. fold w1.
    unfold bind at 1. unfold deref at 1. rewrite <- Hl1, Hl. cbn [pbind fst snd].
    erewrite run_bind_Normal by exact Hb. cbn [fst snd].
    fold e2.
    unfold bind, field, assign, ret. cbn [pbind fst snd run].
    unfold wrapperOf, autoComplete. rewrite Hf1, Hf2. reflexivity. }
  unfold outcome_of, engine_after, result. rewrite Hrun. split; reflexivity.
Qed.

(** No class of the language package is found: the lookup leaves both locals
    as they were and logs nothing. *)
Lemma lookup_no_provider lang n ns e w (scanResult : ScanResult)
    (classes : list JavaClass) w1 w2 w3 :
  handler (ClassGraph_scan (packageOf lang)) w = (Normal scanResult, w1) ->
  handler (ScanResult_loadSubclasses scanResult) w1 = (Normal classes, w2) ->
  find (provides lang) classes = None ->
  handler (ScanResult_close scanResult) w2 = (Normal tt, w3) ->
  run handler (lookupLanguageAnalyzer (packageOf lang) n ns e) w =
    ((Normal (n, ns), e), w3,
     [ClassGraph_scan (packageOf lang); ScanResult_loadSubclasses scanResult;
      ScanResult_close scanResult]).
Proof.
  intros Hscan Hload Hfind Hclose.
  unfold lookupLanguageAnalyzer, try_with_resource, bind, invoke, ret.
  cbn -[packageOf]. rewrite Hscan. cbn -[packageOf]. rewrite Hload. cbn -[packageOf].
  unfold provides in Hfind. rewrite Hfind. cbn -[packageOf]. rewrite Hclose.
  reflexivity.
Qed.

(** A class is found but cannot be instantiated: the lookup throws what
    [newInstance] threw, after closing the scan, and logs nothing. *)
Lemma lookup_newInstance_fails lang n ns e w (scanResult : ScanResult)
    (classes : list JavaClass) cls t w1 w2 w3 :
  handler (ClassGraph_scan (packageOf lang)) w = (Normal scanResult, w1) ->
  handler (ScanResult_loadSubclasses scanResult) w1 = (Normal classes, w2) ->
  find (provides lang) classes = Some cls ->
  handler (Class_newInstance cls) w2 = (Thrown t, w3) ->
  outcome_of handler (lookupLanguageAnalyzer (packageOf lang) n ns) e w = Thrown t
  /\ engine_after handler (lookupLanguageAnalyzer (packageOf lang) n ns) e w = e.
Proof.
  intros Hscan Hload Hfind Hnew.
  unfold outcome_of, engine_after, result, lookupLanguageAnalyzer,
    try_with_resource, bind, invoke, ret.
  cbn -[packageOf]. rewrite Hscan. cbn -[packageOf]. rewrite Hload. cbn -[packageOf].
  unfold provides in Hfind. rewrite Hfind. cbn -[packageOf]. rewrite Hnew.
  cbn -[packageOf].
  destruct (handler (ScanResult_close scanResult) w3) as [[[] | u] w4]; split; reflexivity.
Qed.

(** Whenever the lookup throws one of the four reflection failures, the block
    ends normally with the autocomplete analyzer in both roles and one more
    warning in the log. *)
Lemma languageAnalyzers_fallback lang n ns ac e w t :
  outcome_of handler (lookupLanguageAnalyzer (packageOf lang) n ns) e w = Thrown t ->
  existsb (instanceOf t) reflectionFailures = true ->
  let e' := engine_after handler (lookupLanguageAnalyzer (packageOf lang) n ns) e w in
  outcome_of handler (languageAnalyzers lang n ns ac) e w = Normal (ac, ac)
  /\ engine_after handler (languageAnalyzers lang n ns ac) e w =
       set_LOGGER (LOGGER e' ++ [{| level := WARN;
                                    text := fallbackWarning (analyzerLanguage e');
                                    thrown := None |}])%list e'.
Proof.
  intros Hthrown Hclass e'.
  unfold outcome_of, engine_after, result, languageAnalyzers. cbv zeta.
  fold (packageOf lang).
  erewrite run_try_catch_caught by eassumption.
  fold e'. split; reflexivity.
Qed.

Lemma languageAnalyzers_no_provider lang n ns ac e w (scanResult : ScanResult)
    (classes : list JavaClass) w1 w2 w3 :
  handler (ClassGraph_scan (packageOf lang)) w = (Normal scanResult, w1) ->
  handler (ScanResult_loadSubclasses scanResult) w1 = (Normal classes, w2) ->
  find (provides lang) classes = None ->
  handler (ScanResult_close scanResult) w2 = (Normal tt, w3) ->
  outcome_of handler (languageAnalyzers lang n ns ac) e w = Normal (n, ns)
  /\ engine_after handler (languageAnalyzers lang n ns ac) e w = e.
Proof.
  intros Hscan Hload Hfind Hclose.
  pose proof (lookup_no_provider n ns e Hscan Hload Hfind Hclose) as Hrun.
  unfold outcome_of, engine_after, result, languageAnalyzers. cbv zeta.
  fold (packageOf lang).
  erewrite run_try_catch_Normal
    by (unfold outcome_of, result; rewrite Hrun; reflexivity).
  unfold engine_after, result. rewrite Hrun. split; reflexivity.
Qed.
End Analyzers.

Lemma ensures_bind_any {A B} (m : J A) (f : A -> J B)
    (Q : outcome B * AbstractIndexEngine -> Prop) e :
  (forall a e', ensures Q (f a e')) ->
  (forall t e', Q (Thrown t, e')) ->
  ensures Q (bind m f e).
Proof.
  intros Hf Ht. unfold bind. apply ensures_pbind. apply ensures_always.
  intros [[a | t] e']; cbn; auto.
Qed.

(** Whenever [getAnalyser] returns, the wrapper it returns is the one its
    field holds. *)
Lemma getAnalyser_stores e :
  ensures (fun r => forall built, fst r = Normal built -> analyzer (snd r) = Some built)
          (getAnalyser e).
Proof.
  unfold getAnalyser. unfold bind at 1. unfold field at 1. cbn [pbind fst snd].
  destruct (analyzer e) as [a |] eqn:Ha.
  - cbn. intros built [= <-]. exact Ha.
  - do 4 (apply ensures_bind_any; [intros ? ? | intros ? ? ? [=]]).
    cbn. intros built [= <-]. reflexivity.
Qed.

(** C5 (amended).  For a configured language other than "en", with the
    stop set loaded: when the lookup of the language analyzer throws an
    [InstantiationException], [NoSuchMethodException],
    [InvocationTargetException] or [IllegalAccessException] (in particular
    when a provider class is found and instantiating it throws one of these),
    [getAnalyser] returns normally with the autocomplete analyzer in both the
    normal and the non-stemmed role, and a warning is added to the log; when
    no provider class is found, [getAnalyser] returns normally with the
    default normal and non-stemmed analyzers built from the stop set, and the
    language lookup adds nothing to the log. *)
Theorem language_provider_fallback {W}
    (handler : forall c, W -> outcome (resp c) * W)
    (e : AbstractIndexEngine) (w : W) (lang : string)
    (stopSet : option CharArraySet) :
  analyzer e = None ->
  analyzerLanguage e = Some lang ->
  String.eqb lang "en" = false ->
  outcome_of handler loadStopSet e w = Normal stopSet ->
  let e1 := engine_after handler loadStopSet e w in
  let w1 := world_of handler loadStopSet e w in
  let lookup :=
    lookupLanguageAnalyzer (packageOf lang) (normalOf stopSet) (nonStemmedOf stopSet) in
  let warning :=
    {| level := WARN; text := fallbackWarning (Some lang); thrown := None |} in
  (forall t,
     outcome_of handler lookup e1 w1 = Thrown t ->
     existsb (instanceOf t) reflectionFailures = true ->
     outcome_of handler getAnalyser e w = Normal (wrapperOf e autoComplete autoComplete)
     /\ LOGGER (engine_after handler getAnalyser e w) =
          (LOGGER (engine_after handler lookup e1 w1) ++ [warning])%list)
  /\ (forall (scanResult : ScanResult) (classes : list JavaClass) cls t w2 w3 w4,
        handler (ClassGraph_scan (packageOf lang)) w1 = (Normal scanResult, w2) ->
        handler (ScanResult_loadSubclasses scanResult) w2 = (Normal classes, w3) ->
        find (provides lang) classes = Some cls ->
        handler (Class_newInstance cls) w3 = (Thrown t, w4) ->
        existsb (instanceOf t) reflectionFailures = true ->
        outcome_of handler getAnalyser e w =
          Normal (wrapperOf e autoComplete autoComplete)
        /\ LOGGER (engine_after handler getAnalyser e w) =
             (LOGGER e1 ++ [warning])%list)
  /\ (forall (scanResult : ScanResult) (classes : list JavaClass) w2 w3 w4,
        handler (ClassGraph_scan (packageOf lang)) w1 = (Normal scanResult, w2) ->
        handler (ScanResult_loadSubclasses scanResult) w2 = (Normal classes, w3) ->
        find (provides lang) classes = None ->
        handler (ScanResult_close scanResult) w3 = (Normal tt, w4) ->
        outcome_of handler getAnalyser e w =
          Normal (wrapperOf e (normalOf stopSet) (nonStemmedOf stopSet))
        /\ LOGGER (engine_after handler getAnalyser e w) = LOGGER e1).
Proof.
  intros Ha Hl Hne Hs e1 w1 lookup warning.
  assert (analyzerLanguage e1 = Some lang) as Hl1.
  { pose proof (ensures_run _ _
             (@loadStopSet_steady same_settings same_settings_refl same_settings_trans
                same_settings_LOGGER e) handler w) as (_ & H & _).
    fold (engine_after handler loadStopSet e w) in H. fold e1 in H. congruence. }
  assert (forall t,
     outcome_of handler lookup e1 w1 = Thrown t ->
     existsb (instanceOf t) reflectionFailures = true ->
     outcome_of handler getAnalyser e w = Normal (wrapperOf e autoComplete autoComplete)
     /\ LOGGER (engine_after handler getAnalyser e w) =
          (LOGGER (engine_after handler lookup e1 w1) ++ [warning])%list) as Hfallback.
  { intros t Ht Hc.
    destruct (@languageAnalyzers_fallback W handler lang (normalOf stopSet)
                (nonStemmedOf stopSet) autoComplete e1 w1 t Ht Hc) as [Ho He].
    assert (outcome_of handler (languageBlock lang stopSet) e1 w1
            = Normal (autoComplete, autoComplete)) as Hb.
    { unfold languageBlock. rewrite Hne. exact Ho. }
    destruct (@getAnalyser_builds W handler e w lang stopSet _ Ha Hl Hs Hb) as [Hout Heng].
    split; [exact Hout |].
    rewrite Heng. cbn [LOGGER set_analyzer].
    fold e1. fold w1.
    unfold languageBlock. rewrite Hne. cbn [negb]. rewrite He. cbn [LOGGER set_LOGGER].
    fold lookup.
    assert (analyzerLanguage (engine_after handler lookup e1 w1) = Some lang) as Hl2.
    { pose proof (ensures_run _ _
               (@lookupLanguageAnalyzer_steady same_settings same_settings_refl
                  same_settings_trans same_settings_LOGGER (packageOf lang)
                  (normalOf stopSet) (nonStemmedOf stopSet) e1) handler w1)
        as (_ & H & _).
      unfold engine_after, lookup. rewrite <- H. exact Hl1. }
    rewrite Hl2. reflexivity. }
  split; [exact Hfallback | split].
  - intros scanResult classes cls t w2 w3 w4 Hscan Hload Hfind Hnew Hc.
    destruct (@lookup_newInstance_fails W handler lang (normalOf stopSet)
                (nonStemmedOf stopSet) e1 w1 scanResult classes cls t w2 w3 w4
                Hscan Hload Hfind Hnew) as [Ht He].
    destruct (Hfallback t Ht Hc) as [Hout Hlog].
    split; [exact Hout |]. rewrite Hlog. fold lookup in He. rewrite He. reflexivity.
  - intros scanResult classes w2 w3 w4 Hscan Hload Hfind Hclose.
    destruct (@languageAnalyzers_no_provider W handler lang (normalOf stopSet)
                (nonStemmedOf stopSet) autoComplete e1 w1 scanResult classes w2 w3 w4
                Hscan Hload Hfind Hclose)
      as [Ho He].
    assert (outcome_of handler (languageBlock lang stopSet) e1 w1
            = Normal (normalOf stopSet, nonStemmedOf stopSet)) as Hb.
    { unfold languageBlock. rewrite Hne. exact Ho. }
    destruct (@getAnalyser_builds W handler e w lang stopSet _ Ha Hl Hs Hb) as [Hout Heng].
    split; [exact Hout |].
    rewrite Heng. cbn [LOGGER set_analyzer]. fold e1. fold w1.
    unfold languageBlock. rewrite Hne. cbn [negb]. rewrite He. reflexivity.
Qed.

(** With a cached analyzer, opening the writer makes two calls, and the new
    writer is given the cached analyzer. *)
Lemma openWriter_cached {W} (handler : forall c, W -> outcome (resp c) * W) e w a :
  analyzer e = Some a ->
  outcome_of handler openWriter e w = Normal tt ->
  exists dir writer,
    calls_of handler openWriter e w =
      [IndexWriter_new dir a; NRTManager_new {| getIndexWriter := writer |}].
Proof.
  intros Ha.
  unfold outcome_of, calls_of, trace, result, openWriter, getAnalyser, bind, deref,
    invoke, field, assign, log, throw, ret.
  cbn. rewrite Ha. cbn.
  destruct (directory e) as [dir |]; cbn; [| intros H; discriminate H].
  destruct (handler (IndexWriter_new dir a) w) as [[writer | t] w1]; cbn;
    [| intros H; discriminate H].
  destruct (handler (NRTManager_new {| getIndexWriter := writer |}) w1)
    as [[manager | t] w2]; cbn; [| intros H; discriminate H].
  intros _. exists dir, writer. reflexivity.
Qed.

Lemma openDirectory_keeps_analyzer : steady analyzer_kept openDirectory.
Proof.
  apply openDirectory_steady; unfold analyzer_kept; cbn; intros; auto.
Qed.

Lemma deleteDirectory_keeps_analyzer : steady analyzer_kept deleteDirectory.
Proof.
  apply deleteDirectory_steady; unfold analyzer_kept; cbn; intros; auto.
  apply getAnalyser_keeps_analyzer.
Qed.

(** ** Calls and their answers *)

Lemma history_calls {W} (handler : forall c, W -> outcome (resp c) * W)
    {A} (p : prog A) (w : W) :
  map (@projT1 call (fun c => outcome (resp c))) (history handler p w)
    = trace handler p w.
Proof.
  unfold trace. revert w. induction p as [a | c k IH]; intros w; cbn.
  - reflexivity.
  - f_equal. apply IH.
Qed.



(** ** What a restart creates *)

Section Restart.
Context {W : Type}.
Variable handler : forall c : call, W -> outcome (resp c) * W.

Ltac absurd_outcome :=
  try (let H := fresh in intro H; discriminate H).

Ltac answer_next :=
  match goal with
  | |- context [handler ?c ?w] =>
      destruct (handler c w) as [[? | ?] ?]; cbn; absurd_outcome
  | |- context [if ?b then _ else _] => destruct b; cbn; absurd_outcome
  end.









Ltac rethrown :=
  try match goal with
      | |- context [if ?b then _ else _] => destruct b; cbn -[afterPropertiesSet]
      end;
  absurd_outcome.

End Restart.


(** C9 (amended).  Whenever [getAnalyser] returns, the wrapper it returns is
    stored in the [analyzer] field.  Once the field is set, every later call
    returns that wrapper without making any call or changing any field,
    whatever stop-word file or language is set afterwards; and no request
    clears the field: [deleteDirectory] keeps it, a completed
    [deleteDirectory] hands the cached wrapper to the writer it opens, and
    after any history of requests [getAnalyser] still returns it. *)
Theorem analyzer_cached_across_reset {W}
    (handler : forall c, W -> outcome (resp c) * W)
    (e : AbstractIndexEngine) (a : PerFieldAnalyzerWrapper) :
  analyzer e = Some a ->
  (forall e0 w0 built,
     outcome_of handler getAnalyser e0 w0 = Normal built ->
     analyzer (engine_after handler getAnalyser e0 w0) = Some built)
  /\ (forall w, run handler (getAnalyser e) w = ((Normal a, e), w, []))
  /\ (forall f l w,
        run handler (getAnalyser (set_analyzerLanguage l (set_stopWordsFile f e))) w
        = ((Normal a, set_analyzerLanguage l (set_stopWordsFile f e)), w, []))
  /\ (forall w, analyzer (engine_after handler deleteDirectory e w) = Some a)
  /\ (forall w, outcome_of handler deleteDirectory e w = Normal tt ->
        exists dir, In (IndexWriter_new dir a) (calls_of handler deleteDirectory e w))
  /\ (forall rs w w',
        analyzer (result handler (serveAll rs e) w) = Some a
        /\ outcome_of handler getAnalyser (result handler (serveAll rs e) w) w'
           = Normal a).
Proof.
  intros Ha. split; [| split; [| split; [| split; [| split]]]].
  - intros e0 w0 built Hb.
    exact (ensures_run _ _ (getAnalyser_stores e0) handler w0 built Hb).
  - intros w. now apply getAnalyser_cached.
  - intros f l w. now apply getAnalyser_cached.
  - intros w.
    exact (ensures_run _ _ (deleteDirectory_keeps_analyzer e) handler w a Ha).
  - intros w H. apply deleteDirectory_Normal in H.
    destruct H as (timer & thread & manager & tracking & dir & w' & _ & _ & _ & _
                   & _ & Hinit & Hcalls & _).
    apply afterPropertiesSet_Normal in Hinit.
    destruct Hinit as (e1 & w1 & e2 & w2 & e3 & w3 & H1 & He1 & Hw1 & H2 & _ & _ & _
                       & _ & _ & _ & _ & Hc).
    assert (analyzer e1 = Some a) as Ha1.
    { rewrite He1.
      exact (ensures_run _ _ (openDirectory_keeps_analyzer e) handler w' a Ha). }
    destruct (openWriter_cached handler e1 w1 Ha1 H2) as (d & writer & Hw).
    exists d. rewrite Hcalls, Hc, Hw.
    apply in_or_app. right. apply in_or_app. right. apply in_or_app. left.
    left. reflexivity.
  - intros rs w w'.
    pose proof (ensures_run _ _ (analyzer_kept_serveAll rs e) handler w a Ha) as Hk.
    split; [exact Hk |].
    unfold outcome_of. unfold result at 1.
    now rewrite (getAnalyser_cached handler _ w' Hk).
Qed.

(** ** The theorems at work in the simulated environment *)

Lemma Sim_RefCounted fault : RefCounted (Sim.handler fault) Sim.refCount.
Proof.
  split; intros; unfold Sim.handler in *;
    destruct (fault _); cbn in *; try discriminate; try reflexivity; lia.
Qed.

Lemma Sim_started_reachable : reachable Sim.started.
Proof.
  exists "ItemIndex", Sim.fieldMap, (Sim.startUp "en"), Sim.World,
         (Sim.handler Sim.noFault), Sim.world0.
  reflexivity.
Qed.

Lemma Sim_commit_fails_with_IOException_only writer :
  commit_fails_with_IOException_only (Sim.handler Sim.noFault) writer.
Proof.
  intros w t. unfold Sim.handler. cbn.
  destruct (Sim.failingCommits w); cbn; intros H; [discriminate H |].
  injection H as <-. reflexivity.
Qed.

(** Closed statements about concrete runs are settled by running them. *)
Ltac by_running :=
  cbv zeta;
  repeat match goal with |- _ /\ _ => split end;
  first [ vm_compute; reflexivity | vm_compute; discriminate ].

(** C1 at work: the searcher throws, the snapshot is released once and the
    reference count is back at zero. *)
Lemma search_releases_exactly_once_witness :
  calls_of (Sim.handler (Sim.searcherThrows Sim.unchecked)) (search aSearcher)
           Sim.started Sim.world0 =
    [NRTManager_waitForGeneration (NRTManagerRef 3) (-1);
     NRTManager_acquire (NRTManagerRef 3);
     Searcher_search aSearcher (Some (IndexSearcherRef 4));
     NRTManager_release (NRTManagerRef 3) (IndexSearcherRef 4)]
  /\ Sim.refCount
       (world_of (Sim.handler (Sim.searcherThrows Sim.unchecked)) (search aSearcher)
                 Sim.started Sim.world0) = 0.
Proof.
  pose proof (@search_releases_exactly_once Sim.World
                (Sim.handler (Sim.searcherThrows Sim.unchecked)) Sim.refCount
                Sim.started aSearcher (NRTManagerRef 3)
                Sim.world0 Sim.world0 (Sim.set_refCount 1 Sim.world0)
                (IndexSearcherRef 4) eq_refl eq_refl eq_refl) as H.
  split.
  - exact (proj1 H).
  - exact (proj1 (proj2 (proj2 (proj2 H))
                    (Sim_RefCounted (Sim.searcherThrows Sim.unchecked)) eq_refl)).
Defined.

(** C2 at work: the first write of a started engine returns generation 7. *)
Lemma modifyIndex_tracks_max_generation_witness :
  outcome_of (Sim.handler Sim.noFault) (modifyIndex aBuilder) Sim.started Sim.world0
    = Normal tt
  /\ generation (engine_after (Sim.handler Sim.noFault) (modifyIndex aBuilder)
                   Sim.started Sim.world0) = Z.max (-1) 7.
Proof.
  pose proof (@modifyIndex_tracks_max_generation Sim.World (Sim.handler Sim.noFault)
                Sim.started aBuilder 7 Sim.world0 Sim.world0
                Sim_started_reachable eq_refl) as H.
  exact (conj (proj1 H) (proj1 (proj2 H))).
Defined.

(** C3 at work: the builder throws an [IOException]. *)
Lemma modifyIndex_failure_keeps_generation_witness :
  generation (engine_after (Sim.handler (Sim.builderThrows Sim.ioFailure))
                (modifyIndex aBuilder) Sim.started Sim.world0) = -1
  /\ outcome_of (Sim.handler (Sim.builderThrows Sim.ioFailure))
                (modifyIndex aBuilder) Sim.started Sim.world0
     = Thrown (buildError Sim.ioFailure).
Proof.
  pose proof (@modifyIndex_failure_keeps_generation Sim.World
                (Sim.handler (Sim.builderThrows Sim.ioFailure))
                Sim.started aBuilder Sim.ioFailure Sim.world0 Sim.world0
                Sim_started_reachable eq_refl) as H.
  exact (conj (proj1 H) (proj1 (proj1 (proj2 (proj2 H)) eq_refl))).
Defined.

(** C3 as stated fails: a builder that throws a [java.lang.Error] gets it
    back as it is, not wrapped in an exception that carries it as cause. *)
Lemma modifyIndex_does_not_wrap_Error :
  outcome_of (Sim.handler (Sim.builderThrows Sim.linkageError))
             (modifyIndex aBuilder) Sim.started Sim.world0
    = Thrown Sim.linkageError
  /\ getCause Sim.linkageError = None
  /\ Sim.linkageError <> buildError Sim.linkageError.
Proof. by_running. Qed.



(** C5 at work: Lucene's French analyzer is found but cannot be
    instantiated. *)
Lemma language_provider_fallback_witness :
  outcome_of (Sim.handler (Sim.newInstanceThrows Sim.cannotInstantiate))
             getAnalyser Sim.french Sim.withFrenchAnalyzer
    = Normal {| defaultAnalyzer := TLEAnalyzer None false;
                fieldAnalyzers := [("autocomplete", TLEAnalyzer None false);
                                   ("name", TLEAnalyzer None false)] |}
  /\ LOGGER (engine_after (Sim.handler (Sim.newInstanceThrows Sim.cannotInstantiate))
                          getAnalyser Sim.french Sim.withFrenchAnalyzer)
     = [{| level := WARN;
           text := "fr language analyzer is not avaiable so use the default analyzer";
           thrown := None |}].
Proof.
  pose proof (@language_provider_fallback Sim.World
                (Sim.handler (Sim.newInstanceThrows Sim.cannotInstantiate))
                Sim.french Sim.withFrenchAnalyzer "fr" (Some ["the"; "a"])
                eq_refl eq_refl eq_refl eq_refl) as H.
  exact (proj1 (proj2 H) (ScanResultRef 7) [Sim.frenchAnalyzer] Sim.frenchAnalyzer
               Sim.cannotInstantiate Sim.withFrenchAnalyzer Sim.withFrenchAnalyzer
               Sim.withFrenchAnalyzer eq_refl eq_refl eq_refl eq_refl eq_refl).
Defined.

(** C5 as stated fails: with language "fr" and no provider class found, the
    build does not fall back to the autocomplete analyzer (the normal role
    keeps the stemming analyzer with the configured stop words, the
    non-stemmed role its stop words) and logs no warning. *)
Lemma no_provider_keeps_default_analyzers :
  outcome_of (Sim.handler Sim.noFault) getAnalyser Sim.french Sim.world0
    = Normal {| defaultAnalyzer := TLEAnalyzer (Some ["the"; "a"]) true;
                fieldAnalyzers :=
                  [("autocomplete", TLEAnalyzer None false);
                   ("name", TLEAnalyzer (Some ["the"; "a"]) false)] |}
  /\ TLEAnalyzer (Some ["the"; "a"]) true <> autoComplete
  /\ TLEAnalyzer (Some ["the"; "a"]) false <> autoComplete
  /\ LOGGER (engine_after (Sim.handler Sim.noFault) getAnalyser Sim.french Sim.world0)
     = []
  /\ outcome_of (Sim.handler Sim.noFault) afterPropertiesSet Sim.french Sim.world0
     = Normal tt
  /\ filter (fun r => match level r with WARN => true | _ => false end)
       (LOGGER (engine_after (Sim.handler Sim.noFault) afterPropertiesSet
                  Sim.french Sim.world0))
     = [].
Proof. by_running. Qed.

(** C6 at work: the searcher fails with an [IOException]. *)
Lemma search_errors_differ_in_message_only_witness :
  outcome_of (Sim.handler (Sim.searcherThrows Sim.ioFailure)) (search aSearcher)
             Sim.started Sim.world0
    = Thrown (searchError Sim.ioFailure).
Proof.
  pose proof (@search_errors_differ_in_message_only Sim.World
                (Sim.handler (Sim.searcherThrows Sim.ioFailure))
                Sim.started aSearcher (NRTManagerRef 3)
                Sim.world0 Sim.world0 (Sim.set_refCount 1 Sim.world0)
                (IndexSearcherRef 4) eq_refl eq_refl eq_refl) as H.
  exact (proj1 (proj1 H Sim.ioFailure eq_refl eq_refl eq_refl)).
Defined.

(** C6 as stated fails: a failed search and a failed release raise the same
    kind of error, [ErrorDuringSearchException]; and when the release fails,
    the caller receives the very same error whether the searcher had failed
    or had returned a result. *)
Lemma search_and_release_failures_share_a_class :
  (exists t u,
     outcome_of (Sim.handler (Sim.searcherThrows Sim.ioFailure)) (search aSearcher)
                Sim.started Sim.world0 = Thrown t
     /\ outcome_of (Sim.handler (Sim.releaseThrows Sim.ioFailure)) (search aSearcher)
                   Sim.started Sim.world0 = Thrown u
     /\ getClass t = ErrorDuringSearchException_
     /\ getClass u = ErrorDuringSearchException_)
  /\ outcome_of (Sim.handler (Sim.searcherAndReleaseThrow Sim.ioFailure Sim.ioFailure))
                (search aSearcher) Sim.started Sim.world0
     = outcome_of (Sim.handler (Sim.releaseThrows Sim.ioFailure)) (search aSearcher)
                  Sim.started Sim.world0.
Proof.
  split; [| vm_compute; reflexivity].
  exists (searchError Sim.ioFailure), (releaseError Sim.ioFailure).
  by_running.
Qed.

(** C7 at work: the disk fails two commits and then recovers; three ticks
    make three commits, and all three return to the timer. *)
Lemma commit_timer_contains_IOExceptions_witness :
  outcome_of (Sim.handler Sim.noFault) (timerTicks 3 CommitTask)
             Sim.started Sim.flakyDisk = Normal tt
  /\ calls_of (Sim.handler Sim.noFault) (timerTicks 3 CommitTask)
              Sim.started Sim.flakyDisk
     = [IndexWriter_commit (IndexWriterRef 2); IndexWriter_commit (IndexWriterRef 2);
        IndexWriter_commit (IndexWriterRef 2)].
Proof.
  pose proof (@commit_timer_contains_IOExceptions Sim.World (Sim.handler Sim.noFault)
                Sim.started Sim.flakyDisk {| getIndexWriter := IndexWriterRef 2 |}
                eq_refl) as H.
  pose proof (proj2 (proj2 (proj2 (proj2 (proj2 H))))
                (@Sim_commit_fails_with_IOException_only (IndexWriterRef 2)) 3%nat) as H3.
  exact (conj (proj1 H3) (proj1 (proj2 H3))).
Defined.

(** C7 as stated fails: a commit that fails with an unchecked exception is
    not logged, the exception leaves [run()], and the second tick never
    commits. *)
Lemma unchecked_commit_failure_escapes :
  outcome_of (Sim.handler (Sim.commitThrows Sim.unchecked)) CommitTask_run
             Sim.started Sim.world0 = Thrown Sim.unchecked
  /\ LOGGER (engine_after (Sim.handler (Sim.commitThrows Sim.unchecked)) CommitTask_run
                          Sim.started Sim.world0) = LOGGER Sim.started
  /\ calls_of (Sim.handler (Sim.commitThrows Sim.unchecked)) (timerTicks 2 CommitTask)
              Sim.started Sim.world0 = [IndexWriter_commit (IndexWriterRef 2)].
Proof. by_running. Qed.

(** C8 at work: starting an engine. *)
Lemma reopen_thread_configuration_witness :
  exists before after manager thread priority w2,
    calls_of (Sim.handler Sim.noFault) afterPropertiesSet
             (Sim.configured "en") Sim.world0 =
      (before ++
       [ReopenThread_new manager (5 # 1) (1 # 10);
        ReopenThread_setName thread
          ("NRT Reopen Thread: " ++ "class " ++ runtimeClass (Sim.configured "en"));
        Thread_currentPriority;
        ReopenThread_setPriority thread
          (Z.min (int_add priority 2) Thread_MAX_PRIORITY);
        ReopenThread_setDaemon thread true;
        ReopenThread_start thread] ++ after)%list
    /\ fst (Sim.handler Sim.noFault (ReopenThread_new manager (5 # 1) (1 # 10)) w2)
       = Normal thread
    /\ nrtReopenThread (engine_after (Sim.handler Sim.noFault) afterPropertiesSet
                          (Sim.configured "en") Sim.world0) = Some thread
    /\ targetMaxStaleSec_literal == 5
    /\ targetMinStaleSec_literal * 10 == 1.
Proof.
  exact (@reopen_thread_configuration Sim.World (Sim.handler Sim.noFault)
           (Sim.configured "en") Sim.world0 eq_refl).
Defined.

(** C9 at work: a started engine. *)
Lemma analyzer_cached_across_reset_witness :
  analyzer (engine_after (Sim.handler Sim.noFault) deleteDirectory
              Sim.started Sim.world0)
    = Some {| defaultAnalyzer := TLEAnalyzer None true;
              fieldAnalyzers := [("autocomplete", TLEAnalyzer None false);
                                 ("name", TLEAnalyzer None false)] |}.
Proof.
  pose proof (@analyzer_cached_across_reset Sim.World (Sim.handler Sim.noFault)
                Sim.started
                {| defaultAnalyzer := TLEAnalyzer None true;
                   fieldAnalyzers := [("autocomplete", TLEAnalyzer None false);
                                      ("name", TLEAnalyzer None false)] |}
                eq_refl) as H.
  exact (proj1 (proj2 (proj2 (proj2 H))) Sim.world0).
Defined.

(** C9 as stated fails: a reset does not invalidate the cached analyzer.
    After a stop-word file is configured and the directory is reset,
    [getAnalyser] makes no call and returns the wrapper built before the
    reset; an engine whose field had been cleared would build a different
    one. *)
Lemma reset_keeps_cached_analyzer :
  let handler := Sim.handler Sim.noFault in
  let reconfigured := set_stopWordsFile (Some "/etc/stopwords.txt") Sim.started in
  let reset := engine_after handler deleteDirectory reconfigured Sim.world0 in
  outcome_of handler deleteDirectory reconfigured Sim.world0 = Normal tt
  /\ analyzer reset = analyzer Sim.started
  /\ analyzer reset <> None
  /\ run handler (getAnalyser reset) Sim.world0 =
       ((Normal {| defaultAnalyzer := TLEAnalyzer None true;
                   fieldAnalyzers := [("autocomplete", TLEAnalyzer None false);
                                      ("name", TLEAnalyzer None false)] |}, reset),
        Sim.world0, [])
  /\ outcome_of handler getAnalyser (set_analyzer None reset) Sim.world0 =
       Normal {| defaultAnalyzer := TLEAnalyzer (Some ["the"; "a"]) true;
                 fieldAnalyzers :=
                   [("autocomplete", TLEAnalyzer None false);
                    ("name", TLEAnalyzer (Some ["the"; "a"]) false)] |}.
Proof. by_running. Qed.

(** C10 at work: the searcher throws an unchecked exception and the release
    returns. *)
Lemma search_unchecked_exception_after_release_witness :
  outcome_of (Sim.handler (Sim.searcherThrows Sim.unchecked)) (search aSearcher)
             Sim.started Sim.world0 = Thrown Sim.unchecked.
Proof.
  pose proof (@search_unchecked_exception_after_release Sim.World
                (Sim.handler (Sim.searcherThrows Sim.unchecked))
                Sim.started aSearcher (NRTManagerRef 3)
                Sim.world0 Sim.world0 (Sim.set_refCount 1 Sim.world0)
                (IndexSearcherRef 4) Sim.unchecked
                eq_refl eq_refl eq_refl eq_refl eq_refl) as H.
  exact (proj1 (proj1 (proj2 H) eq_refl)).
Defined.

(** C10 as stated fails: when the release throws as well, the caller does not
    receive the searcher's exception but the release error. *)
Lemma release_failure_replaces_searcher_exception :
  outcome_of (Sim.handler (Sim.searcherAndReleaseThrow Sim.unchecked Sim.ioFailure))
             (search aSearcher) Sim.started Sim.world0
    = Thrown (releaseError Sim.ioFailure)
  /\ releaseError Sim.ioFailure <> Sim.unchecked.
Proof. by_running. Qed.

(** * Further properties of the engine *)

(** ** Calls a method never makes *)

Lemma calls_all_run {A} (P : call -> Prop) (p : prog A) :
  calls_all P p ->
  forall W (handler : forall c, W -> outcome (resp c) * W) (w : W),
    Forall P (trace handler p w).
Proof.
  unfold trace. induction p as [a | c k IH]; cbn; intros HP W handler w.
  - constructor.
  - destruct HP as [Hc Hk]. constructor; [exact Hc |]. apply IH, Hk.
Qed.

Lemma calls_all_pbind {A B} (P : call -> Prop) (p : prog A) (f : A -> prog B) :
  calls_all P p -> (forall a, calls_all P (f a)) -> calls_all P (pbind p f).
Proof.
  intros Hp Hf. induction p as [a | c k IH]; cbn.
  - apply Hf.
  - destruct Hp as [Hc Hk]. split; [exact Hc |]. intros o. apply IH, Hk.
Qed.

Section Only.
Variable P : call -> Prop.

Lemma only_ret {A} (a : A) : only P (ret a).
Proof. intros e. exact I. Qed.

Lemma only_throw {A} (t : Throwable) : only P (@throw A t).
Proof. intros e. exact I. Qed.

Lemma only_field {A} (f : AbstractIndexEngine -> A) : only P (field f).
Proof. intros e. exact I. Qed.

Lemma only_assign upd : only P (assign upd).
Proof. intros e. exact I. Qed.

Lemma only_log_record l msg t : only P (log l msg t).
Proof. intros e. exact I. Qed.

Lemma only_deref {A} (f : AbstractIndexEngine -> option A) : only P (deref f).
Proof. intros e. unfold deref. destruct (f e); exact I. Qed.

Lemma only_invoke (c : call) : P c -> only P (invoke c).
Proof. intros Hc e. split; [exact Hc | intros o; exact I]. Qed.

Lemma only_bind {A B} (m : J A) (f : A -> J B) :
  only P m -> (forall a, only P (f a)) -> only P (bind m f).
Proof.
  intros Hm Hf e. unfold bind. apply calls_all_pbind; [apply Hm |].
  intros [[a | t] e1]; cbn; [apply Hf | exact I].
Qed.

Lemma only_try_catch {A} (body : J A) classes (h : Throwable -> J A) :
  only P body -> (forall t, only P (h t)) -> only P (try_catch body classes h).
Proof.
  intros Hb Hh e. unfold try_catch. apply calls_all_pbind; [apply Hb |].
  intros [[a | t] e1]; cbn; [exact I |].
  destruct (existsb (instanceOf t) classes); [apply Hh | exact I].
Qed.

Lemma only_try_finally {A} (body : J A) (fin : J unit) :
  only P body -> only P fin -> only P (try_finally body fin).
Proof.
  intros Hb Hf e. unfold try_finally. apply calls_all_pbind; [apply Hb |].
  intros r. apply calls_all_pbind; [apply Hf |].
  intros [[a | t] e2]; cbn; exact I.
Qed.

Lemma only_try_with_resource {X A} (open : J X) (close : X -> J unit)
    (body : X -> J A) :
  only P open -> (forall x, only P (close x)) -> (forall x, only P (body x)) ->
  only P (try_with_resource open close body).
Proof.
  intros Ho Hc Hb. unfold try_with_resource. apply only_bind; [exact Ho |].
  intros x e. apply calls_all_pbind; [apply Hb |].
  intros r. apply calls_all_pbind; [apply Hc |].
  intros r'. destruct (fst r), (fst r'); cbn; exact I.
Qed.

Lemma only_if {A} (b : bool) (m1 m2 : J A) :
  only P m1 -> only P m2 -> only P (if b then m1 else m2).
Proof. now destruct b. Qed.
End Only.

Lemma only_calls_of {A} (P : call -> Prop) (m : J A) :
  only P m ->
  forall W (handler : forall c, W -> outcome (resp c) * W) e (w : W),
    Forall P (calls_of handler m e w).
Proof. intros Hm W handler e w. apply calls_all_run, Hm. Qed.

(** One step of showing that a method body makes only calls in [P]; what is
    left open is [P c] for each call [c] of the body. *)
Ltac only_step :=
  lazymatch goal with
  | |- only _ (match ?x with _ => _ end) => destruct x
  | |- only _ (try_with_resource _ _ _) =>
      apply only_try_with_resource; [| intros ? | intros ?]
  | |- only _ (try_catch _ _ _) => apply only_try_catch; [| intros ?]
  | |- only _ (try_finally _ _) => apply only_try_finally
  | |- only _ (bind _ _) => apply only_bind; [| intros ?]
  | |- only _ (ret _) => apply only_ret
  | |- only _ (throw _) => apply only_throw
  | |- only _ (field _) => apply only_field
  | |- only _ (deref _) => apply only_deref
  | |- only _ (log _ _ _) => apply only_log_record
  | |- only _ (assign _) => apply only_assign
  | |- only _ (invoke _) => apply only_invoke
  end.

Ltac only_steps := repeat only_step.

Lemma getAnalyser_no_teardown : only no_teardown getAnalyser.
Proof.
  unfold getAnalyser, loadStopSet, languageAnalyzers, lookupLanguageAnalyzer,
    useAutoComplete. cbv zeta. only_steps; reflexivity.
Qed.

(** X1.  [afterPropertiesSet] never cancels, closes or deletes anything:
    whatever state the engine is in and however its calls are answered, no
    call it makes is a [Timer.cancel], a [close] of the reopen thread, the
    manager, the writer or the directory, or a [FileUtils.delete].  Run on an
    engine that is already set up, it therefore leaves the old timer running
    and the old handles open. *)
Theorem afterPropertiesSet_never_tears_down {W}
    (handler : forall c, W -> outcome (resp c) * W)
    (e : AbstractIndexEngine) (w : W) :
  Forall no_teardown (calls_of handler afterPropertiesSet e w)
  /\ (forall timer, ~ In (Timer_cancel timer) (calls_of handler afterPropertiesSet e w))
  /\ (forall writer,
        ~ In (IndexWriter_close writer) (calls_of handler afterPropertiesSet e w)).
Proof.
  assert (Forall no_teardown (calls_of handler afterPropertiesSet e w)) as H.
  { apply only_calls_of.
    unfold afterPropertiesSet, openDirectory, openWriter, startReopenThread,
      startCommitTimer.
    repeat first [ apply getAnalyser_no_teardown | only_step ]; reflexivity. }
  split; [exact H |].
  rewrite Forall_forall in H.
  split; intros x Hin; apply H in Hin; discriminate Hin.
Qed.

(** ** The priority of the reopen thread *)

Ltac priority_side :=
  unfold priority_capped; first [exact I | apply Z.le_min_r].

Lemma getAnalyser_priority : only priority_capped getAnalyser.
Proof.
  unfold getAnalyser, loadStopSet, languageAnalyzers, lookupLanguageAnalyzer,
    useAutoComplete. cbv zeta. only_steps; priority_side.
Qed.

Lemma afterPropertiesSet_priority : only priority_capped afterPropertiesSet.
Proof.
  unfold afterPropertiesSet, openDirectory, openWriter, startReopenThread,
    startCommitTimer.
  repeat first [ apply getAnalyser_priority | only_step ]; priority_side.
Qed.

Lemma deleteDirectory_priority : only priority_capped deleteDirectory.
Proof.
  unfold deleteDirectory.
  repeat first [ apply afterPropertiesSet_priority | only_step ]; priority_side.
Qed.

(** X2.  Whatever priority the calling thread reports (even one near
    [Integer.MAX_VALUE], where adding 2 wraps around), the priority
    [afterPropertiesSet] hands to [setPriority] never exceeds
    [Thread.MAX_PRIORITY]; the same holds when [deleteDirectory] starts the
    engine again. *)
Theorem reopen_priority_never_exceeds_max {W}
    (handler : forall c, W -> outcome (resp c) * W)
    (e : AbstractIndexEngine) (w : W) (thread : NRTManagerReopenThread) (p : Z) :
  In (ReopenThread_setPriority thread p) (calls_of handler afterPropertiesSet e w)
  \/ In (ReopenThread_setPriority thread p) (calls_of handler deleteDirectory e w) ->
  p <= Thread_MAX_PRIORITY.
Proof.
  intros [Hin | Hin].
  - pose proof (only_calls_of afterPropertiesSet_priority handler e w) as H.
    rewrite Forall_forall in H. exact (H _ Hin).
  - pose proof (only_calls_of deleteDirectory_priority handler e w) as H.
    rewrite Forall_forall in H. exact (H _ Hin).
Qed.

(** ** Opening the directory *)

(** X3.  When the index path does not exist and cannot be created,
    [afterPropertiesSet] throws a [java.lang.Error] "Error creating index:"
    followed by the path.  It has then made two calls only ([exists] and
    [mkdirs]): no directory is opened, and no field of the engine has
    changed. *)
Theorem afterPropertiesSet_cannot_create_directory {W}
    (handler : forall c, W -> outcome (resp c) * W)
    (e : AbstractIndexEngine) (path : File) (w w1 w2 : W) :
  indexPath e = Some path ->
  handler (File_exists path) w = (Normal false, w1) ->
  handler (File_mkdirs path) w1 = (Normal false, w2) ->
  run handler (afterPropertiesSet e) w =
    ((Thrown (mkThrowable Error_ (Some ("Error creating index:" ++ path)) None), e),
     w2, [File_exists path; File_mkdirs path]).
Proof.
  intros Hp Hex Hmk.
  assert (run handler (openDirectory e) w =
          ((Thrown (mkThrowable Error_ (Some ("Error creating index:" ++ path)) None), e),
           w2, [File_exists path; File_mkdirs path])) as Hrun.
  { unfold openDirectory, bind, deref, invoke, throw, ret.
    rewrite Hp. cbn -[String.append]. rewrite Hex. cbn -[String.append].
    rewrite Hmk. reflexivity. }
  unfold afterPropertiesSet.
  erewrite run_bind_Thrown
    by (unfold outcome_of, result; rewrite Hrun; reflexivity).
  unfold engine_after, world_of, calls_of, result, world_after, trace.
  rewrite Hrun. reflexivity.
Qed.

(** X4.  Opening the directory: a missing index path is created before the
    directory is opened; the directory handed out is stored in [directory];
    and the lock is cleared exactly when [isLocked] answers true, after an
    INFO record "Unlocking index:" followed by the path.  An index that is
    not locked is neither unlocked nor mentioned in the log. *)
Theorem openDirectory_clears_stale_lock {W}
    (handler : forall c, W -> outcome (resp c) * W)
    (e : AbstractIndexEngine) (path : File) (present locked : bool)
    (dir : FSDirectory) (w w1 w1' w3 w4 : W) :
  indexPath e = Some path ->
  handler (File_exists path) w = (Normal present, w1) ->
  (present = false -> handler (File_mkdirs path) w1 = (Normal true, w1')) ->
  handler (FSDirectory_open path) (if present then w1 else w1') = (Normal dir, w3) ->
  handler (IndexWriter_isLocked dir) w3 = (Normal locked, w4) ->
  calls_of handler openDirectory e w =
    ([File_exists path] ++ (if present then [] else [File_mkdirs path])
     ++ [FSDirectory_open path; IndexWriter_isLocked dir]
     ++ (if locked then [IndexWriter_unlock dir] else []))%list
  /\ directory (engine_after handler openDirectory e w) = Some dir
  /\ LOGGER (engine_after handler openDirectory e w) =
       (LOGGER e ++
        (if locked
         then [{| level := INFO; text := "Unlocking index:" ++ path; thrown := None |}]
         else []))%list.
Proof.
  intros Hp Hex Hmk Hopen Hlock.
  unfold calls_of, engine_after, trace, result, openDirectory, bind, deref, invoke,
    assign, log, throw, ret.
  rewrite Hp. cbn -[String.append]. rewrite Hex. cbn -[String.append].
  destruct present; cbn -[String.append] in *.
  - rewrite Hopen. cbn -[String.append]. rewrite Hlock.
    destruct locked; cbn -[String.append].
    + destruct (handler (IndexWriter_unlock dir) w4) as [[[] | t] w5];
        cbn -[String.append]; repeat split.
    + rewrite app_nil_r. repeat split.
  - rewrite (Hmk eq_refl). cbn -[String.append]. rewrite Hopen.
    cbn -[String.append]. rewrite Hlock.
    destruct locked; cbn -[String.append].
    + destruct (handler (IndexWriter_unlock dir) w4) as [[[] | t] w5];
        cbn -[String.append]; repeat split.
    + rewrite app_nil_r. repeat split.
Qed.

(** ** What reaches the caller *)

Lemma IOException_is_checked t :
  instanceOf t IOException_ = true ->
  instanceOf t Exception_ = true
  /\ Throwables_propagate t = new_RuntimeException_of t.
Proof.
  destruct t as [c m ca]. unfold Throwables_propagate, instanceOf.
  destruct c; cbn; intros H; try discriminate H; split; reflexivity.
Qed.

Lemma propagate_not_IOException t :
  instanceOf t IOException_ = true ->
  instanceOf (Throwables_propagate t) IOException_ = false.
Proof.
  intros H. apply IOException_is_checked in H. destruct H as [_ ->]. reflexivity.
Qed.

Lemma not_Exception_not_IOException t :
  instanceOf t Exception_ = false -> instanceOf t IOException_ = false.
Proof.
  destruct t as [c m ca]. unfold instanceOf.
  destruct c; cbn; intros H; try discriminate H; reflexivity.
Qed.

Lemma run_try_catch_uncaught {W} (handler : forall c, W -> outcome (resp c) * W)
    {A} (body : J A) classes (h : Throwable -> J A) e w t :
  outcome_of handler body e w = Thrown t ->
  existsb (instanceOf t) classes = false ->
  run handler (try_catch body classes h e) w =
    ((Thrown t, engine_after handler body e w),
     world_of handler body e w, calls_of handler body e w).
Proof.
  unfold outcome_of, engine_after, world_of, calls_of, try_catch. intros H Hc.
  rewrite run_pbind, H, Hc. cbn. now rewrite app_nil_r.
Qed.

(** What a [try]/[catch] statement throws was thrown by its body and not
    caught, or was thrown by the [catch] clause. *)
Lemma try_catch_Thrown_inv {W} (handler : forall c, W -> outcome (resp c) * W)
    {A} (body : J A) classes (h : Throwable -> J A) e w t :
  outcome_of handler (try_catch body classes h) e w = Thrown t ->
  (outcome_of handler body e w = Thrown t /\ existsb (instanceOf t) classes = false)
  \/ exists t0,
       outcome_of handler body e w = Thrown t0
       /\ existsb (instanceOf t0) classes = true
       /\ outcome_of handler (h t0) (engine_after handler body e w)
            (world_of handler body e w) = Thrown t.
Proof.
  intros H. destruct (outcome_of handler body e w) as [a | t0] eqn:Hb.
  - unfold outcome_of, result in H.
    erewrite run_try_catch_Normal in H by exact Hb. discriminate H.
  - destruct (existsb (instanceOf t0) classes) eqn:Hc.
    + right. exists t0. split; [reflexivity |]. split; [exact Hc |].
      unfold outcome_of, result in H.
      erewrite run_try_catch_caught in H by eassumption. exact H.
    + left. unfold outcome_of, result in H.
      erewrite run_try_catch_uncaught in H by eassumption.
      cbn in H. injection H as <-. split; [reflexivity | exact Hc].
Qed.

(** X5.  A teardown step that fails stops [deleteDirectory] there.  When
    closing the writer throws an [IOException], the caller receives a
    [RuntimeException] whose cause is that exception; the directory has not
    been closed, the index files have not been deleted, the engine has not
    been started again, and every field still holds the handle it held (the
    timer already cancelled, the reopen thread and the manager already
    closed). *)
Theorem deleteDirectory_stops_at_failed_close {W}
    (handler : forall c, W -> outcome (resp c) * W)
    (e : AbstractIndexEngine) (timer : Timer) (thread : NRTManagerReopenThread)
    (manager : NRTManager) (tracking : TrackingIndexWriter)
    (w w1 w2 w3 w4 : W) (t : Throwable) :
  commiterThread e = Some timer ->
  nrtReopenThread e = Some thread ->
  nrtManager e = Some manager ->
  trackingIndexWriter e = Some tracking ->
  handler (Timer_cancel timer) w = (Normal tt, w1) ->
  handler (ReopenThread_close thread) w1 = (Normal tt, w2) ->
  handler (NRTManager_close manager) w2 = (Normal tt, w3) ->
  handler (IndexWriter_close (getIndexWriter tracking)) w3 = (Thrown t, w4) ->
  instanceOf t IOException_ = true ->
  exists r,
    run handler (deleteDirectory e) w =
      ((Thrown r, e), w4,
       [Timer_cancel timer; ReopenThread_close thread; NRTManager_close manager;
        IndexWriter_close (getIndexWriter tracking)])
    /\ getClass r = RuntimeException_
    /\ getCause r = Some t.
Proof.
  intros Htimer Hthread Hmanager Hwriter Hcancel Hclose1 Hclose2 Hclose3 Hio.
  exists (Throwables_propagate t). split.
  - unfold deleteDirectory, try_catch, bind, deref, invoke, field, throw.
    rewrite Htimer. cbn -[afterPropertiesSet]. rewrite Hcancel.
    cbn -[afterPropertiesSet]. rewrite Hthread. cbn -[afterPropertiesSet].
    rewrite Hclose1. cbn -[afterPropertiesSet]. rewrite Hmanager.
    cbn -[afterPropertiesSet]. rewrite Hclose2. cbn -[afterPropertiesSet].
    rewrite Hwriter. cbn -[afterPropertiesSet]. rewrite Hclose3.
    cbn -[afterPropertiesSet]. rewrite Hio. reflexivity.
  - apply IOException_is_checked in Hio. destruct Hio as [_ ->]. split; reflexivity.
Qed.

(** X6.  No [IOException] leaves [deleteDirectory], [modifyIndex] or the
    commit task's [run()], whatever state the engine is in and however the
    library answers: whatever one of them throws is not an [IOException]. *)
Theorem no_IOException_escapes {W}
    (handler : forall c, W -> outcome (resp c) * W)
    (e : AbstractIndexEngine) (w : W) (t : Throwable) :
  outcome_of handler deleteDirectory e w = Thrown t
  \/ (exists builder, outcome_of handler (modifyIndex builder) e w = Thrown t)
  \/ outcome_of handler CommitTask_run e w = Thrown t ->
  instanceOf t IOException_ = false.
Proof.
  intros [H | [[builder H] | H]].
  - unfold deleteDirectory in H. apply try_catch_Thrown_inv in H.
    destruct H as [[_ Hc] | (t0 & _ & Hc & Hh)].
    + cbn in Hc. now rewrite orb_false_r in Hc.
    + cbn in Hc. rewrite orb_false_r in Hc.
      unfold outcome_of, result, throw in Hh. cbn in Hh. injection Hh as <-.
      now apply propagate_not_IOException.
  - unfold outcome_of, result in H. rewrite modifyIndex_run in H. cbn zeta in H.
    destruct (handler _ w) as [[g | t0] w']; cbn in H; [discriminate H |].
    destruct (instanceOf t0 Exception_) eqn:Hex; injection H as <-.
    + reflexivity.
    + now apply not_Exception_not_IOException.
  - unfold CommitTask_run in H. apply try_catch_Thrown_inv in H.
    destruct H as [[_ Hc] | (t0 & _ & _ & Hh)].
    + cbn in Hc. now rewrite orb_false_r in Hc.
    + discriminate Hh.
Qed.

(** ** [search] at its edges *)

(** X7.  When the manager hands out no snapshot ([acquire] answers [null]),
    [search] still calls the searcher, with [null], and releases nothing:
    the searcher is its last call.  The caller receives what the searcher
    returned, or an [ErrorDuringSearchException] "Error searching index" for
    an [IOException], or the searcher's own exception otherwise. *)
Theorem search_without_snapshot {W}
    (handler : forall c, W -> outcome (resp c) * W)
    (e : AbstractIndexEngine) (s : Searcher) (m : NRTManager) (w w1 w2 : W) :
  nrtManager e = Some m ->
  handler (NRTManager_waitForGeneration m (generation e)) w = (Normal tt, w1) ->
  handler (NRTManager_acquire m) w1 = (Normal None, w2) ->
  calls_of handler (search s) e w =
    [NRTManager_waitForGeneration m (generation e); NRTManager_acquire m;
     Searcher_search s None]
  /\ filter is_release (calls_of handler (search s) e w) = []
  /\ (forall v, fst (handler (Searcher_search s None) w2) = Normal v ->
        outcome_of handler (search s) e w = Normal v)
  /\ (forall ex, fst (handler (Searcher_search s None) w2) = Thrown ex ->
        outcome_of handler (search s) e w =
          Thrown (if instanceOf ex IOException_ then searchError ex else ex)).
Proof.
  intros Hm Hwait Hacq.
  unfold calls_of, outcome_of, trace, result, search, bind, deref, field, invoke,
    try_finally, try_catch, log, assign, throw, ret.
  rewrite Hm. cbn. rewrite Hwait. cbn. rewrite Hm. cbn. rewrite Hacq. cbn.
  destruct (handler (Searcher_search s None) w2) as [[v | t] w3]; cbn.
  - repeat split.
    + intros v' Hv. congruence.
    + intros ex Hex. discriminate Hex.
  - destruct (instanceOf t IOException_) eqn:Ht; cbn; repeat split.
    + intros v Hv. discriminate Hv.
    + intros ex Hex. injection Hex as <-. now rewrite Ht.
    + intros v Hv. discriminate Hv.
    + intros ex Hex. injection Hex as <-. now rewrite Ht.
Qed.

(** X8.  [search] changes no field of the engine, whatever state it starts
    in and however it ends, with one exception: when the searcher threw an
    [IOException], one ERROR record "Error searching index" carrying that
    exception has been appended to the log.  In particular a search never
    touches the tracked generation or the manager. *)
Theorem search_changes_only_the_log {W}
    (handler : forall c, W -> outcome (resp c) * W)
    (e : AbstractIndexEngine) (s : Searcher) (w : W) :
  (engine_after handler (search s) e w = e
   \/ exists snapshot w' ex,
        fst (handler (Searcher_search s snapshot) w') = Thrown ex
        /\ instanceOf ex IOException_ = true
        /\ engine_after handler (search s) e w =
             set_LOGGER (LOGGER e ++ [searchLogRecord ex])%list e)
  /\ generation (engine_after handler (search s) e w) = generation e
  /\ nrtManager (engine_after handler (search s) e w) = nrtManager e.
Proof.
  assert (engine_after handler (search s) e w = e
          \/ exists snapshot w' ex,
               fst (handler (Searcher_search s snapshot) w') = Thrown ex
               /\ instanceOf ex IOException_ = true
               /\ engine_after handler (search s) e w =
                    set_LOGGER (LOGGER e ++ [searchLogRecord ex])%list e) as H.
  { unfold engine_after, result, search, bind, deref, field, invoke,
      try_finally, try_catch, log, assign, throw, ret.
    destruct (nrtManager e) as [m |] eqn:Hm; cbn; [| now left].
    destruct (handler (NRTManager_waitForGeneration m (generation e)) w)
      as [[[] | t0] w1]; cbn; [| now left].
    rewrite Hm. cbn.
    destruct (handler (NRTManager_acquire m) w1) as [[snapshot | t1] w2]; cbn;
      [| now left].
    destruct (handler (Searcher_search s snapshot) w2) as [[v | ex] w3] eqn:Hs; cbn.
    - destruct snapshot as [acquired |]; cbn; [| now left].
      rewrite Hm. cbn.
      destruct (handler (NRTManager_release m acquired) w3) as [[[] | u] w4]; cbn;
        [now left |].
      destruct (instanceOf u IOException_); now left.
    - destruct (instanceOf ex IOException_) eqn:Hex; cbn.
      + right. exists snapshot, w2, ex. rewrite Hs.
        split; [reflexivity |]. split; [exact Hex |].
        destruct snapshot as [acquired |]; cbn; [| reflexivity].
        rewrite Hm. cbn.
        destruct (handler (NRTManager_release m acquired) w3) as [[[] | u] w4]; cbn;
          [reflexivity |].
        destruct (instanceOf u IOException_); reflexivity.
      + left.
        destruct snapshot as [acquired |]; cbn; [| reflexivity].
        rewrite Hm. cbn.
        destruct (handler (NRTManager_release m acquired) w3) as [[[] | u] w4]; cbn;
          [reflexivity |].
        destruct (instanceOf u IOException_); reflexivity. }
  split; [exact H |].
  destruct H as [-> | (snapshot & w' & ex & _ & _ & ->)]; split; reflexivity.
Qed.

(** X9.  [search] gives up before the searcher runs when it cannot get a
    snapshot: if waiting for the generation throws, or if the wait returns
    and [acquire] throws, that exception reaches the caller as it is (it is
    not wrapped and not logged), the searcher is never called, and nothing
    is released. *)
Theorem search_stops_without_a_snapshot {W}
    (handler : forall c, W -> outcome (resp c) * W)
    (e : AbstractIndexEngine) (s : Searcher) (m : NRTManager)
    (w w1 : W) (waited : outcome unit) (t : Throwable) :
  nrtManager e = Some m ->
  handler (NRTManager_waitForGeneration m (generation e)) w = (waited, w1) ->
  waited = Thrown t
  \/ (waited = Normal tt /\ fst (handler (NRTManager_acquire m) w1) = Thrown t) ->
  outcome_of handler (search s) e w = Thrown t
  /\ engine_after handler (search s) e w = e
  /\ filter is_searcher_call (calls_of handler (search s) e w) = []
  /\ filter is_release (calls_of handler (search s) e w) = [].
Proof.
  intros Hm Hwait Hfail.
  unfold calls_of, outcome_of, engine_after, trace, result, search, bind, deref,
    field, invoke.
  rewrite Hm. cbn. rewrite Hwait. cbn.
  destruct Hfail as [-> | [-> Hacq]]; cbn.
  - repeat split.
  - rewrite Hm. cbn.
    destruct (handler (NRTManager_acquire m) w1) as [[snapshot | t1] w2]; cbn in *;
      [discriminate Hacq |].
    injection Hacq as ->. repeat split.
Qed.

(** ** Before the engine is started *)

(** X10.  An engine whose handles are still [null] fails fast: [search]
    without a manager, [deleteDirectory] without a commit timer,
    [afterPropertiesSet] without an index path and the commit task without a
    writer each throw a [NullPointerException] before making any call, and
    change no field.  [modifyIndex] has no such guard: it hands the [null]
    manager and writer to the builder.  A freshly constructed engine is in
    all of these situations. *)
Theorem unstarted_engine_throws_NullPointerException {W}
    (handler : forall c, W -> outcome (resp c) * W)
    (e : AbstractIndexEngine) (w : W) :
  (nrtManager e = None ->
   forall s, run handler (search s e) w = ((Thrown new_NullPointerException, e), w, []))
  /\ (commiterThread e = None ->
      run handler (deleteDirectory e) w = ((Thrown new_NullPointerException, e), w, []))
  /\ (indexPath e = None ->
      run handler (afterPropertiesSet e) w =
        ((Thrown new_NullPointerException, e), w, []))
  /\ (trackingIndexWriter e = None ->
      run handler (CommitTask_run e) w = ((Thrown new_NullPointerException, e), w, []))
  /\ (nrtManager e = None -> trackingIndexWriter e = None ->
      forall builder,
        calls_of handler (modifyIndex builder) e w =
          [IndexBuilder_buildIndex builder None None])
  /\ (forall cls fieldMap,
        nrtManager (newEngine cls fieldMap) = None
        /\ commiterThread (newEngine cls fieldMap) = None
        /\ indexPath (newEngine cls fieldMap) = None
        /\ trackingIndexWriter (newEngine cls fieldMap) = None).
Proof.
  split; [| split; [| split; [| split; [| split]]]].
  - intros Hm s. unfold search, bind, deref. rewrite Hm. reflexivity.
  - intros Ht. unfold deleteDirectory, try_catch, bind, deref.
    rewrite Ht. reflexivity.
  - intros Hp. unfold afterPropertiesSet, openDirectory, bind, deref.
    rewrite Hp. reflexivity.
  - intros Hw. unfold CommitTask_run, try_catch, bind, deref. rewrite Hw. reflexivity.
  - intros Hm Hw builder. unfold calls_of, trace. rewrite modifyIndex_run.
    cbn. rewrite Hm, Hw. reflexivity.
  - intros cls fieldMap. repeat split.
Qed.

(** ** The commit task *)

(** X11.  A commit that fails with anything but an [IOException] is not
    contained: the throwable leaves [run()] as it is, nothing is logged, and
    since it ends the timer thread, that tick is the last one: however many
    ticks were still due, [commit()] has been called once. *)
Theorem commit_task_lets_unchecked_failures_out {W}
    (handler : forall c, W -> outcome (resp c) * W)
    (e : AbstractIndexEngine) (tracking : TrackingIndexWriter)
    (w w' : W) (t : Throwable) :
  trackingIndexWriter e = Some tracking ->
  handler (IndexWriter_commit (getIndexWriter tracking)) w = (Thrown t, w') ->
  instanceOf t IOException_ = false ->
  run handler (CommitTask_run e) w =
    ((Thrown t, e), w', [IndexWriter_commit (getIndexWriter tracking)])
  /\ forall n,
       run handler (timerTicks (S n) CommitTask e) w =
         ((Thrown t, e), w', [IndexWriter_commit (getIndexWriter tracking)]).
Proof.
  intros Hw Hcommit Ht.
  assert (run handler (CommitTask_run e) w =
          ((Thrown t, e), w', [IndexWriter_commit (getIndexWriter tracking)])) as Hrun.
  { rewrite (CommitTask_run_run handler e w Hw). cbn zeta. rewrite Hcommit. cbn.
    rewrite Ht. reflexivity. }
  split; [exact Hrun |].
  intros n. cbn [timerTicks runTask].
  erewrite run_bind_Thrown
    by (unfold outcome_of, result; rewrite Hrun; reflexivity).
  unfold engine_after, world_of, calls_of, result, world_after, trace.
  rewrite Hrun. reflexivity.
Qed.

(** ** The stop words *)

(** X12.  Loading the stop words never fails on a missing or unreadable
    file.  With no file configured nothing is called; a configured file that
    does not exist is not read; when reading it throws an [IOException], a
    WARN record "No stop words available: " followed by the file is logged
    with that exception; in all three cases the stop set is [null] and the
    method goes on.  Only a file that exists and can be read gives a stop
    set, and then nothing is logged. *)
Theorem loadStopSet_tolerates_missing_words {W}
    (handler : forall c, W -> outcome (resp c) * W)
    (e : AbstractIndexEngine) (w : W) :
  (stopWordsFile e = None ->
   run handler (loadStopSet e) w = ((Normal None, e), w, []))
  /\ (forall file w1,
        stopWordsFile e = Some file ->
        handler (File_exists file) w = (Normal false, w1) ->
        run handler (loadStopSet e) w = ((Normal None, e), w1, [File_exists file]))
  /\ (forall file w1 w2 ex,
        stopWordsFile e = Some file ->
        handler (File_exists file) w = (Normal true, w1) ->
        handler (WordlistLoader_getWordSet file) w1 = (Thrown ex, w2) ->
        instanceOf ex IOException_ = true ->
        run handler (loadStopSet e) w =
          ((Normal None, set_LOGGER (LOGGER e ++ [stopWordsWarning file ex])%list e),
           w2, [File_exists file; WordlistLoader_getWordSet file]))
  /\ (forall file w1 w2 words,
        stopWordsFile e = Some file ->
        handler (File_exists file) w = (Normal true, w1) ->
        handler (WordlistLoader_getWordSet file) w1 = (Normal words, w2) ->
        run handler (loadStopSet e) w =
          ((Normal (Some words), e), w2,
           [File_exists file; WordlistLoader_getWordSet file])).
Proof.
  unfold loadStopSet, try_catch, bind, field, invoke, log, assign, ret,
    stopWordsWarning.
  split; [| split; [| split]].
  - intros Hf. cbn. rewrite Hf. reflexivity.
  - intros file w1 Hf Hex. cbn -[String.append]. rewrite Hf.
    cbn -[String.append]. rewrite Hex. reflexivity.
  - intros file w1 w2 ex Hf Hex Hread Hio. cbn -[String.append]. rewrite Hf.
    cbn -[String.append]. rewrite Hex. cbn -[String.append]. rewrite Hread.
    cbn -[String.append]. rewrite Hio. reflexivity.
  - intros file w1 w2 words Hf Hex Hread. cbn -[String.append]. rewrite Hf.
    cbn -[String.append]. rewrite Hex. cbn -[String.append]. rewrite Hread.
    reflexivity.
Qed.

(** ** Building the analyzer *)

Lemma loadStopSet_same_settings {W}
    (handler : forall c, W -> outcome (resp c) * W) e w :
  same_settings e (engine_after handler loadStopSet e w).
Proof.
  apply (ensures_run _ _
           (@loadStopSet_steady same_settings same_settings_refl same_settings_trans
              same_settings_LOGGER e) handler w).
Qed.

(** What [getAnalyser] does once the stop words are loaded and the language
    is read. *)
Lemma getAnalyser_after_stop_words {W}
    (handler : forall c, W -> outcome (resp c) * W) e w stopSet :
  analyzer e = None ->
  outcome_of handler loadStopSet e w = Normal stopSet ->
  let e1 := engine_after handler loadStopSet e w in
  let w1 := world_of handler loadStopSet e w in
  run handler (getAnalyser e) w =
    (fst (run handler
            ((lang <- deref analyzerLanguage ;;
              analyzers <- languageBlock lang stopSet ;;
              fieldMap <- field getAnalyzerFieldMap ;;
              let built := {| defaultAnalyzer := fst analyzers;
                              fieldAnalyzers := fieldMap autoComplete (snd analyzers) |} in
              assign (set_analyzer (Some built)) ;;
              ret built) e1) w1),
     (calls_of handler loadStopSet e w ++
      snd (run handler
             ((lang <- deref analyzerLanguage ;;
               analyzers <- languageBlock lang stopSet ;;
               fieldMap <- field getAnalyzerFieldMap ;;
               let built := {| defaultAnalyzer := fst analyzers;
                               fieldAnalyzers := fieldMap autoComplete (snd analyzers) |} in
               assign (set_analyzer (Some built)) ;;
               ret built) e1) w1))%list).
Proof.
  intros Ha Hs e1 w1.
  unfold getAnalyser. unfold bind at 1. unfold field at 1. cbn [pbind fst snd].
  rewrite Ha.
  erewrite run_bind_Normal by exact Hs. reflexivity.
Qed.

(** X13.  With the language "en" the class path is never scanned: building
    the analyzer makes the calls of loading the stop words and no other, and
    the wrapper it returns and caches has the stemming [TLEAnalyzer] over the
    loaded stop set as its default and hands the field map the stop-word-free
    autocomplete analyzer and the non-stemming [TLEAnalyzer] over the same
    stop set. *)
Theorem getAnalyser_english_skips_lookup {W}
    (handler : forall c, W -> outcome (resp c) * W)
    (e : AbstractIndexEngine) (w : W) (stopSet : option CharArraySet) :
  analyzer e = None ->
  analyzerLanguage e = Some "en" ->
  outcome_of handler loadStopSet e w = Normal stopSet ->
  let built :=
    {| defaultAnalyzer := TLEAnalyzer stopSet true;
       fieldAnalyzers :=
         getAnalyzerFieldMap e (TLEAnalyzer None false) (TLEAnalyzer stopSet false) |} in
  calls_of handler getAnalyser e w = calls_of handler loadStopSet e w
  /\ outcome_of handler getAnalyser e w = Normal built
  /\ engine_after handler getAnalyser e w =
       set_analyzer (Some built) (engine_after handler loadStopSet e w).
Proof.
  intros Ha Hl Hs built.
  pose proof (loadStopSet_same_settings handler e w) as (Hf1 & Hl1 & _).
  rewrite Hl in Hl1. symmetry in Hl1.
  assert (run handler (getAnalyser e) w =
          ((Normal built, set_analyzer (Some built) (engine_after handler loadStopSet e w)),
           world_of handler loadStopSet e w, calls_of handler loadStopSet e w)) as Hrun.
  { rewrite (getAnalyser_after_stop_words handler e w Ha Hs). cbv zeta.
    unfold bind, deref, field, assign, ret. rewrite Hl1.
    cbn. rewrite app_nil_r. subst built. rewrite Hf1. reflexivity. }
  unfold calls_of at 1, outcome_of at 1, engine_after at 1, trace, result.
  rewrite Hrun. repeat split.
Qed.

(** X14.  With no language configured ([analyzerLanguage] is [null]),
    building the analyzer throws a [NullPointerException] right after the
    stop words are loaded: nothing is scanned, and no analyzer is cached, so
    the next call tries again. *)
Theorem getAnalyser_without_language {W}
    (handler : forall c, W -> outcome (resp c) * W)
    (e : AbstractIndexEngine) (w : W) (stopSet : option CharArraySet) :
  analyzer e = None ->
  analyzerLanguage e = None ->
  outcome_of handler loadStopSet e w = Normal stopSet ->
  outcome_of handler getAnalyser e w = Thrown new_NullPointerException
  /\ calls_of handler getAnalyser e w = calls_of handler loadStopSet e w
  /\ analyzer (engine_after handler getAnalyser e w) = None.
Proof.
  intros Ha Hl Hs.
  pose proof (loadStopSet_same_settings handler e w) as (_ & Hl1 & Ha1).
  rewrite Hl in Hl1. symmetry in Hl1. rewrite Ha in Ha1. symmetry in Ha1.
  assert (run handler (getAnalyser e) w =
          ((Thrown new_NullPointerException, engine_after handler loadStopSet e w),
           world_of handler loadStopSet e w, calls_of handler loadStopSet e w)) as Hrun.
  { rewrite (getAnalyser_after_stop_words handler e w Ha Hs). cbv zeta.
    unfold bind, deref. rewrite Hl1. cbn. now rewrite app_nil_r. }
  unfold calls_of at 1, outcome_of at 1, engine_after at 1, trace, result.
  rewrite Hrun. repeat split. exact Ha1.
Qed.

(** A provider class is found and can be used: the lookup returns the
    reflected instance and a non-stemming analyzer over the provider's own
    default stop set, and logs which class it took. *)
Lemma lookup_provider_found {W} (handler : forall c, W -> outcome (resp c) * W)
    lang n ns e w (scanResult : ScanResult) (classes : list JavaClass) cls
    (instance : Object) (getDefaultStopSet : Method) (defaults : CharArraySet)
    w1 w2 w3 w4 w5 w6 :
  handler (ClassGraph_scan (packageOf lang)) w = (Normal scanResult, w1) ->
  handler (ScanResult_loadSubclasses scanResult) w1 = (Normal classes, w2) ->
  find (provides lang) classes = Some cls ->
  handler (Class_newInstance cls) w2 = (Normal instance, w3) ->
  handler (Class_getDeclaredMethod cls "getDefaultStopSet") w3
    = (Normal getDefaultStopSet, w4) ->
  handler (Method_invoke getDefaultStopSet) w4 = (Normal defaults, w5) ->
  handler (ScanResult_close scanResult) w5 = (Normal tt, w6) ->
  run handler (lookupLanguageAnalyzer (packageOf lang) n ns e) w =
    ((Normal (LanguageAnalyzer instance, TLEAnalyzer (Some defaults) false),
      set_LOGGER (LOGGER e ++ [providerLogRecord cls])%list e),
     w6,
     [ClassGraph_scan (packageOf lang); ScanResult_loadSubclasses scanResult;
      Class_newInstance cls; Class_getDeclaredMethod cls "getDefaultStopSet";
      Method_invoke getDefaultStopSet; ScanResult_close scanResult]).
Proof.
  intros Hscan Hload Hfind Hnew Hmeth Hinv Hclose.
  unfold lookupLanguageAnalyzer, try_with_resource, bind, invoke, log, assign, ret,
    providerLogRecord.
  cbn -[packageOf String.append]. rewrite Hscan. cbn -[packageOf String.append].
  rewrite Hload. cbn -[packageOf String.append].
  unfold provides in Hfind. rewrite Hfind. cbn -[packageOf String.append].
  rewrite Hnew. cbn -[packageOf String.append].
  rewrite Hmeth. cbn -[packageOf String.append].
  rewrite Hinv. cbn -[packageOf String.append].
  rewrite Hclose. reflexivity.
Qed.

(** X15.  For a language other than "en" whose package provides an analyzer
    class that can be instantiated and asked for its default stop set, the
    wrapper [getAnalyser] returns has the instance of that class as its
    default analyzer, and hands the field map the autocomplete analyzer and a
    non-stemming [TLEAnalyzer] over the provider's default stop set.  The
    stop words loaded from the configured file appear in neither, and the
    class taken is logged at INFO level. *)
Theorem getAnalyser_uses_language_provider {W}
    (handler : forall c, W -> outcome (resp c) * W)
    (e : AbstractIndexEngine) (w : W) (lang : string)
    (stopSet : option CharArraySet)
    (scanResult : ScanResult) (classes : list JavaClass) (cls : JavaClass)
    (instance : Object) (getDefaultStopSet : Method) (defaults : CharArraySet)
    (w2 w3 w4 w5 w6 w7 : W) :
  analyzer e = None ->
  analyzerLanguage e = Some lang ->
  String.eqb lang "en" = false ->
  outcome_of handler loadStopSet e w = Normal stopSet ->
  let e1 := engine_after handler loadStopSet e w in
  let w1 := world_of handler loadStopSet e w in
  handler (ClassGraph_scan (packageOf lang)) w1 = (Normal scanResult, w2) ->
  handler (ScanResult_loadSubclasses scanResult) w2 = (Normal classes, w3) ->
  find (provides lang) classes = Some cls ->
  handler (Class_newInstance cls) w3 = (Normal instance, w4) ->
  handler (Class_getDeclaredMethod cls "getDefaultStopSet") w4
    = (Normal getDefaultStopSet, w5) ->
  handler (Method_invoke getDefaultStopSet) w5 = (Normal defaults, w6) ->
  handler (ScanResult_close scanResult) w6 = (Normal tt, w7) ->
  outcome_of handler getAnalyser e w =
    Normal {| defaultAnalyzer := LanguageAnalyzer instance;
              fieldAnalyzers :=
                getAnalyzerFieldMap e (TLEAnalyzer None false)
                  (TLEAnalyzer (Some defaults) false) |}
  /\ LOGGER (engine_after handler getAnalyser e w) =
       (LOGGER e1 ++ [providerLogRecord cls])%list.
Proof.
  intros Ha Hl Hen Hs e1 w1 Hscan Hload Hfind Hnew Hmeth Hinv Hclose.
  pose proof (@lookup_provider_found W handler lang (normalOf stopSet)
                (nonStemmedOf stopSet) e1 w1 scanResult classes cls instance
                getDefaultStopSet defaults w2 w3 w4 w5 w6 w7
                Hscan Hload Hfind Hnew Hmeth Hinv Hclose) as Hrun.
  assert (run handler (languageBlock lang stopSet e1) w1 =
          ((Normal (LanguageAnalyzer instance, TLEAnalyzer (Some defaults) false),
            set_LOGGER (LOGGER e1 ++ [providerLogRecord cls])%list e1), w7,
           [ClassGraph_scan (packageOf lang); ScanResult_loadSubclasses scanResult;
            Class_newInstance cls; Class_getDeclaredMethod cls "getDefaultStopSet";
            Method_invoke getDefaultStopSet; ScanResult_close scanResult])) as Hblock.
  { unfold languageBlock. rewrite Hen. cbn [negb].
    unfold languageAnalyzers. cbv zeta. fold (packageOf lang).
    erewrite run_try_catch_Normal
      by (unfold outcome_of, result; rewrite Hrun; reflexivity).
    unfold engine_after, world_of, calls_of, result, world_after, trace.
    rewrite Hrun. reflexivity. }
  destruct (@getAnalyser_builds W handler e w lang stopSet
              (LanguageAnalyzer instance, TLEAnalyzer (Some defaults) false) Ha Hl Hs)
    as [Hout Heng].
  { unfold outcome_of, result. fold e1. fold w1. rewrite Hblock. reflexivity. }
  split.
  - rewrite Hout. reflexivity.
  - rewrite Heng. fold e1. fold w1. unfold engine_after, result. rewrite Hblock.
    reflexivity.
Qed.

Ltac scan_closed :=
  cbn -[packageOf String.append];
  try match goal with
      | |- context [if ?b then _ else _] => destruct b; cbn -[packageOf String.append]
      end;
  split; reflexivity.

(** X16.  A scan result that was opened is closed exactly once, and closing
    it is the last call of the language lookup, on every path: whether or
    not a class is found, and wherever loading, instantiating or asking for
    the default stop set fails. *)
Theorem scan_result_closed_exactly_once {W}
    (handler : forall c, W -> outcome (resp c) * W)
    (lang : string) (n ns ac : Analyzer) (e : AbstractIndexEngine)
    (scanResult : ScanResult) (w w1 : W) :
  handler (ClassGraph_scan (packageOf lang)) w = (Normal scanResult, w1) ->
  filter is_scan_close (calls_of handler (languageAnalyzers lang n ns ac) e w)
    = [ScanResult_close scanResult]
  /\ last (calls_of handler (languageAnalyzers lang n ns ac) e w)
          (ClassGraph_scan (packageOf lang))
     = ScanResult_close scanResult.
Proof.
  intros Hscan.
  unfold calls_of, trace, languageAnalyzers, lookupLanguageAnalyzer, useAutoComplete,
    try_catch, try_with_resource, bind, invoke, field, log, assign, ret.
  cbv zeta. fold (packageOf lang).
  cbn -[packageOf String.append]. rewrite Hscan. cbn -[packageOf String.append].
  destruct (handler (ScanResult_loadSubclasses scanResult) w1) as [[classes | t] w2];
    cbn -[packageOf String.append].
  - destruct (find _ classes) as [cls |]; cbn -[packageOf String.append].
    + destruct (handler (Class_newInstance cls) w2) as [[instance | t] w3];
        cbn -[packageOf String.append].
      * destruct (handler (Class_getDeclaredMethod cls "getDefaultStopSet") w3)
          as [[meth | t] w4]; cbn -[packageOf String.append].
        -- destruct (handler (Method_invoke meth) w4) as [[defaults | t] w5];
             cbn -[packageOf String.append].
           ++ destruct (handler (ScanResult_close scanResult) w5) as [[[] | u] w6];
                scan_closed.
           ++ destruct (handler (ScanResult_close scanResult) w5) as [[[] | u] w6];
                scan_closed.
        -- destruct (handler (ScanResult_close scanResult) w4) as [[[] | u] w5];
             scan_closed.
      * destruct (handler (ScanResult_close scanResult) w3) as [[[] | u] w4];
          scan_closed.
    + destruct (handler (ScanResult_close scanResult) w2) as [[[] | u] w3];
        scan_closed.
  - destruct (handler (ScanResult_close scanResult) w2) as [[[] | u] w3];
      scan_closed.
Qed.

(** X22.  A [getAnalyser] that throws has cached nothing: it was called
    with no analyzer cached (with one cached it cannot throw), and the field
    is still [null] afterwards, wherever the failure came from (reading the
    stop words, the missing language, scanning the class path, or an
    exception of the lookup that its [catch] clause does not name).  The
    next call therefore builds the analyzer again from the start. *)
Theorem failed_getAnalyser_caches_nothing {W}
    (handler : forall c, W -> outcome (resp c) * W)
    (e : AbstractIndexEngine) (w : W) (t : Throwable) :
  outcome_of handler getAnalyser e w = Thrown t ->
  analyzer e = None
  /\ analyzer (engine_after handler getAnalyser e w) = None.
Proof.
  intros H. destruct (analyzer e) as [a |] eqn:Ha.
  - unfold outcome_of, result in H.
    rewrite (getAnalyser_cached handler e w Ha) in H. discriminate H.
  - split; [reflexivity |].
    pose proof (loadStopSet_same_settings handler e w) as (_ & _ & Ha1).
    rewrite Ha in Ha1. symmetry in Ha1.
    destruct (outcome_of handler loadStopSet e w) as [stopSet | t0] eqn:Hs.
    + unfold outcome_of, engine_after, result in H |- *.
      rewrite (getAnalyser_after_stop_words handler e w Ha Hs) in H |- *.
      cbv zeta in H |- *. cbn [fst snd] in H |- *.
      set (e1 := engine_after handler loadStopSet e w) in *.
      set (w1 := world_of handler loadStopSet e w) in *.
      unfold bind at 1 in H. unfold bind at 1. unfold deref in H |- *.
      destruct (analyzerLanguage e1) as [lang |]; cbn [pbind fst snd] in H |- *;
        [| exact Ha1].
      destruct (outcome_of handler (languageBlock lang stopSet) e1 w1)
        as [pair | t1] eqn:Hb.
      * erewrite run_bind_Normal in H by exact Hb. discriminate H.
      * erewrite run_bind_Thrown by exact Hb. cbn [fst snd].
        pose proof (ensures_run _ _ (languageBlock_same_settings lang stopSet e1)
                      handler w1) as (_ & _ & Ha2).
        unfold engine_after. rewrite <- Ha2. exact Ha1.
    + unfold engine_after, result, getAnalyser.
      unfold bind at 1. unfold field at 1. cbn [pbind fst snd]. rewrite Ha.
      erewrite run_bind_Thrown by exact Hs. exact Ha1.
Qed.

(** ** What a restart keeps *)

Lemma same_configuration_refl e : same_configuration e e.
Proof. repeat split. Qed.

Lemma same_configuration_trans a b c :
  same_configuration a b -> same_configuration b c -> same_configuration a c.
Proof.
  unfold same_configuration. intros (? & ? & ? & ? & ?) (? & ? & ? & ? & ?).
  repeat split; congruence.
Qed.

Lemma getAnalyser_same_configuration : steady same_configuration getAnalyser.
Proof.
  apply getAnalyser_steady_assign.
  - apply same_configuration_refl.
  - apply same_configuration_trans.
  - intros; repeat split.
  - intros; repeat split.
Qed.

Lemma deleteDirectory_same_configuration : steady same_configuration deleteDirectory.
Proof.
  apply deleteDirectory_steady;
    first [ apply same_configuration_refl | apply same_configuration_trans
          | apply getAnalyser_same_configuration | intros; repeat split ].
Qed.

Lemma afterPropertiesSet_same_configuration :
  steady same_configuration afterPropertiesSet.
Proof.
  apply afterPropertiesSet_steady;
    first [ apply same_configuration_refl | apply same_configuration_trans
          | apply getAnalyser_same_configuration | intros; repeat split ].
Qed.

(** X17.  Neither [afterPropertiesSet] nor [deleteDirectory] changes the
    index path, the stop-word file, the language or the tracked generation,
    however they end.  So the generation reached by writes to the old index
    survives a reset: after a completed [deleteDirectory], the first thing
    the next [search] does is to wait on the manager the engine now holds
    for the generation tracked before the reset. *)
Theorem reset_keeps_configuration_and_generation {W}
    (handler : forall c, W -> outcome (resp c) * W)
    (e : AbstractIndexEngine) (w : W) :
  same_configuration e (engine_after handler afterPropertiesSet e w)
  /\ same_configuration e (engine_after handler deleteDirectory e w)
  /\ (outcome_of handler deleteDirectory e w = Normal tt ->
      exists manager,
        nrtManager (engine_after handler deleteDirectory e w) = Some manager
        /\ forall s w',
             hd_error (calls_of handler (search s)
                         (engine_after handler deleteDirectory e w) w')
             = Some (NRTManager_waitForGeneration manager (generation e))).
Proof.
  pose proof (ensures_run _ _ (afterPropertiesSet_same_configuration e) handler w)
    as Hinit.
  pose proof (ensures_run _ _ (deleteDirectory_same_configuration e) handler w)
    as Hreset.
  split; [exact Hinit |]. split; [exact Hreset |].
  intros Hdone.
  destruct Hreset as (_ & _ & _ & _ & Hgen). cbn in Hgen.
  apply deleteDirectory_Normal in Hdone.
  destruct Hdone as (timer & thread & m0 & tracking & dir & w' & _ & _ & _ & _ & _
                     & Hinit' & _ & Heng).
  apply afterPropertiesSet_ready in Hinit'. rewrite <- Heng in Hinit'.
  unfold engine_after in *.
  set (e' := snd (result handler (deleteDirectory e) w)) in *.
  unfold isReady in Hinit'.
  destruct (nrtManager e') as [manager |] eqn:Hm;
    [| destruct (directory e'), (trackingIndexWriter e'); discriminate Hinit'].
  exists manager. split; [reflexivity |].
  intros s w0. unfold calls_of, trace, search, bind, deref, field, invoke.
  rewrite Hm. cbn. rewrite Hgen. reflexivity.
Qed.

(** A completed [openWriter] opened the writer with the analyzer that is
    cached when it returns. *)
Lemma openWriter_Normal_analyzer {W} (handler : forall c, W -> outcome (resp c) * W)
    e w :
  outcome_of handler openWriter e w = Normal tt ->
  exists dir built,
    In (IndexWriter_new dir built) (calls_of handler openWriter e w)
    /\ analyzer (engine_after handler openWriter e w) = Some built.
Proof.
  unfold outcome_of, engine_after, calls_of, trace, result, openWriter, bind, deref,
    invoke, field, assign, log, throw, ret.
  cbn -[getAnalyser]. rewrite run_pbind.
  match goal with
  | |- context [result handler (getAnalyser ?e1) w] =>
      pose proof (ensures_run _ _ (getAnalyser_stores e1) handler w) as Hst;
      destruct (result handler (getAnalyser e1) w) as [[an | t] e2]
  end; cbn in *; [| intros H; discriminate H].
  specialize (Hst an eq_refl).
  destruct (directory e2) as [dir |]; cbn; [| intros H; discriminate H].
  match goal with
  | |- context [handler (IndexWriter_new dir an) ?w1] =>
      destruct (handler (IndexWriter_new dir an) w1) as [[writer | t] w2]
  end; cbn; [| intros H; discriminate H].
  match goal with
  | |- context [handler (NRTManager_new ?tr) w2] =>
      destruct (handler (NRTManager_new tr) w2) as [[manager | t] w3]
  end; cbn; [| intros H; discriminate H].
  intros _. exists dir, an. split; [| exact Hst].
  apply in_or_app. right. left. reflexivity.
Qed.

(** X18.  A completed [afterPropertiesSet] leaves the engine ready whatever
    state it started from: the directory, the writer, the manager, the reopen
    thread and the commit timer are all set, and the analyzer is cached, so
    that a later [getAnalyser] returns the wrapper the writer was opened with
    without making any call. *)
Theorem afterPropertiesSet_leaves_engine_ready {W}
    (handler : forall c, W -> outcome (resp c) * W)
    (e : AbstractIndexEngine) (w : W) :
  outcome_of handler afterPropertiesSet e w = Normal tt ->
  isReady (engine_after handler afterPropertiesSet e w) = true
  /\ exists dir built,
       In (IndexWriter_new dir built) (calls_of handler afterPropertiesSet e w)
       /\ analyzer (engine_after handler afterPropertiesSet e w) = Some built
       /\ forall w',
            run handler (getAnalyser (engine_after handler afterPropertiesSet e w)) w'
            = ((Normal built, engine_after handler afterPropertiesSet e w), w', []).
Proof.
  intros H. split; [exact (afterPropertiesSet_ready handler e w H) |].
  apply afterPropertiesSet_Normal in H.
  destruct H
    as (e1 & w1 & e2 & w2 & e3 & w3 & H1 & -> & -> & H2 & -> & -> & H3 & -> & -> & H4
        & -> & ->).
  apply startCommitTimer_Normal in H4. destruct H4 as (timer & _ & ->).
  apply startReopenThread_Normal in H3. destruct H3 as (m & th & p & _ & _ & _ & ->).
  apply openWriter_Normal_analyzer in H2. destruct H2 as (dir & built & Hin & Ha).
  exists dir, built. split; [| split].
  - apply in_or_app. right. apply in_or_app. left. exact Hin.
  - exact Ha.
  - intros w'. apply getAnalyser_cached. exact Ha.
Qed.

(** ** Writes, then searches *)

(** X19.  A search after a write waits for that write: once [modifyIndex]
    has run with a builder that returned generation [g], the first call of
    the next [search] is to wait, on the manager the engine holds, for
    [max(g, previous generation)]; after a failed write it waits for the
    larger of [-1] and the previous generation. *)
Theorem search_waits_for_latest_write {W}
    (handler : forall c, W -> outcome (resp c) * W)
    (e : AbstractIndexEngine) (builder : IndexBuilder) (s : Searcher)
    (m : NRTManager) (w : W) :
  nrtManager e = Some m ->
  let built :=
    fst (handler (IndexBuilder_buildIndex builder (nrtManager e) (trackingIndexWriter e))
           w) in
  let e' := engine_after handler (modifyIndex builder) e w in
  forall w',
    hd_error (calls_of handler (search s) e' w') =
      Some (NRTManager_waitForGeneration m
              (Z.max (match built with Normal g => g | Thrown _ => -1 end)
                     (generation e))).
Proof.
  intros Hm built e' w'. subst built e'.
  unfold engine_after, result. rewrite modifyIndex_run. cbn zeta. cbn [fst snd].
  unfold calls_of, trace, search, bind, deref, field, invoke.
  cbn. rewrite Hm. cbn.
  destruct (handler _ w) as [[g | t] w1]; reflexivity.
Qed.

(** X20.  A release that fails is never logged, and it decides what the
    caller sees.  After a search that returned a value, the value is lost:
    the caller receives the release failure (wrapped as "Error releasing
    searcher" when it is an [IOException]) and no field has changed.  After
    a search that failed with an [IOException], the log names the search
    failure while the caller receives the release failure. *)
Theorem release_failure_is_not_logged {W}
    (handler : forall c, W -> outcome (resp c) * W)
    (e : AbstractIndexEngine) (s : Searcher) (m : NRTManager)
    (w w1 w2 : W) (snapshot : IndexSearcher) (u : Throwable) :
  nrtManager e = Some m ->
  handler (NRTManager_waitForGeneration m (generation e)) w = (Normal tt, w1) ->
  handler (NRTManager_acquire m) w1 = (Normal (Some snapshot), w2) ->
  let searched := handler (Searcher_search s (Some snapshot)) w2 in
  fst (handler (NRTManager_release m snapshot) (snd searched)) = Thrown u ->
  outcome_of handler (search s) e w =
    Thrown (if instanceOf u IOException_ then releaseError u else u)
  /\ (forall v, fst searched = Normal v -> engine_after handler (search s) e w = e)
  /\ (forall ex, fst searched = Thrown ex -> instanceOf ex IOException_ = true ->
        LOGGER (engine_after handler (search s) e w) =
          (LOGGER e ++ [searchLogRecord ex])%list).
Proof.
  intros Hm Hwait Hacq searched Hrel.
  pose proof (@search_run W handler e s m w w1 w2 snapshot Hm Hwait Hacq) as Hrun.
  cbv zeta in Hrun. fold searched in Hrun.
  unfold outcome_of, engine_after, result. rewrite Hrun. cbn [fst snd].
  rewrite Hrel. cbn [afterRelease].
  split; [now destruct (instanceOf u IOException_) |].
  split.
  - intros v Hv. rewrite Hv. reflexivity.
  - intros ex Hex Hio. rewrite Hex. cbn [searchLog]. rewrite Hio. reflexivity.
Qed.

(** ** Once started, always started *)

Section Keeps.
Variable P : AbstractIndexEngine -> Prop.

Lemma keeps_ret {A} (a : A) : keeps P (ret a).
Proof. intros e He. exact He. Qed.

Lemma keeps_throw {A} (t : Throwable) : keeps P (@throw A t).
Proof. intros e He. exact He. Qed.

Lemma keeps_field {A} (f : AbstractIndexEngine -> A) : keeps P (field f).
Proof. intros e He. exact He. Qed.

Lemma keeps_deref {A} (f : AbstractIndexEngine -> option A) : keeps P (deref f).
Proof. intros e He. unfold deref. destruct (f e); exact He. Qed.

Lemma keeps_invoke (c : call) : keeps P (invoke c).
Proof. intros e He o. exact He. Qed.

Lemma keeps_assign (upd : AbstractIndexEngine -> AbstractIndexEngine) :
  (forall e, P e -> P (upd e)) -> keeps P (assign upd).
Proof. intros H e He. apply H, He. Qed.

Lemma keeps_bind {A B} (m : J A) (f : A -> J B) :
  keeps P m -> (forall a, keeps P (f a)) -> keeps P (bind m f).
Proof.
  intros Hm Hf e He. unfold bind. apply ensures_pbind.
  eapply ensures_weaken; [| apply Hm, He].
  intros [[a | t] e1] H1; cbn in *; [apply Hf, H1 | exact H1].
Qed.

Lemma keeps_try_catch {A} (body : J A) classes (h : Throwable -> J A) :
  keeps P body -> (forall t, keeps P (h t)) -> keeps P (try_catch body classes h).
Proof.
  intros Hb Hh e He. unfold try_catch. apply ensures_pbind.
  eapply ensures_weaken; [| apply Hb, He].
  intros [[a | t] e1] H1; cbn in *; [exact H1 |].
  destruct (existsb (instanceOf t) classes); [apply Hh, H1 | exact H1].
Qed.

Lemma keeps_try_finally {A} (body : J A) (fin : J unit) :
  keeps P body -> keeps P fin -> keeps P (try_finally body fin).
Proof.
  intros Hb Hf e He. unfold try_finally. apply ensures_pbind.
  eapply ensures_weaken; [| apply Hb, He].
  intros r Hr. cbn in Hr. apply ensures_pbind.
  eapply ensures_weaken; [| apply Hf, Hr].
  intros [[a | t] e2] H2; cbn in *; exact H2.
Qed.

Lemma keeps_try_with_resource {X A} (open : J X) (close : X -> J unit)
    (body : X -> J A) :
  keeps P open -> (forall x, keeps P (close x)) -> (forall x, keeps P (body x)) ->
  keeps P (try_with_resource open close body).
Proof.
  intros Ho Hc Hb. unfold try_with_resource. apply keeps_bind; [exact Ho |].
  intros x e He. apply ensures_pbind.
  eapply ensures_weaken; [| apply Hb, He].
  intros r Hr. cbn in Hr. apply ensures_pbind.
  eapply ensures_weaken; [| apply Hc, Hr].
  intros r' Hr'. destruct (fst r), (fst r'); cbn in *; exact Hr'.
Qed.
End Keeps.

Ltac ready_side :=
  let e := fresh "e" in
  let H := fresh "H" in
  intros e H; unfold ready, isReady in *; cbn;
  destruct (directory e), (trackingIndexWriter e), (nrtManager e),
    (nrtReopenThread e), (commiterThread e);
  first [ reflexivity | discriminate H ].

(** One step of showing that a method body keeps the engine ready; the
    assignments of the body are checked one by one. *)
Ltac ready_step :=
  lazymatch goal with
  | |- keeps _ (match ?x with _ => _ end) => destruct x
  | |- keeps _ (try_with_resource _ _ _) =>
      apply keeps_try_with_resource; [| intros ? | intros ?]
  | |- keeps _ (try_catch _ _ _) => apply keeps_try_catch; [| intros ?]
  | |- keeps _ (try_finally _ _) => apply keeps_try_finally
  | |- keeps _ (bind _ _) => apply keeps_bind; [| intros ?]
  | |- keeps _ (ret _) => apply keeps_ret
  | |- keeps _ (throw _) => apply keeps_throw
  | |- keeps _ (field _) => apply keeps_field
  | |- keeps _ (deref _) => apply keeps_deref
  | |- keeps _ (invoke _) => apply keeps_invoke
  | |- keeps _ (log _ _ _) => apply keeps_assign; ready_side
  | |- keeps _ (assign _) => apply keeps_assign; ready_side
  end.

Lemma getAnalyser_keeps_ready : keeps ready getAnalyser.
Proof.
  unfold getAnalyser, loadStopSet, languageAnalyzers, lookupLanguageAnalyzer,
    useAutoComplete. cbv zeta. repeat ready_step.
Qed.

Lemma afterPropertiesSet_keeps_ready : keeps ready afterPropertiesSet.
Proof.
  unfold afterPropertiesSet, openDirectory, openWriter, startReopenThread,
    startCommitTimer.
  repeat first [ apply getAnalyser_keeps_ready | ready_step ].
Qed.

Lemma deleteDirectory_keeps_ready : keeps ready deleteDirectory.
Proof.
  unfold deleteDirectory.
  repeat first [ apply afterPropertiesSet_keeps_ready | ready_step ].
Qed.

Lemma search_keeps_ready s : keeps ready (search s).
Proof. unfold search. repeat ready_step. Qed.

Lemma CommitTask_run_keeps_ready : keeps ready CommitTask_run.
Proof. unfold CommitTask_run. repeat ready_step. Qed.

Lemma modifyIndex_keeps_ready b : keeps ready (modifyIndex b).
Proof.
  intros e He. unfold modifyIndex, try_catch, throw. cbn. intros [g | t]; cbn.
  - revert He. generalize e. ready_side.
  - destruct (instanceOf t Exception_ || false); cbn; revert He; generalize e;
      ready_side.
Qed.

Lemma serve_keeps_ready r : keeps ready (serve r).
Proof.
  destruct r as [f | l | f | | | b | s | | t]; cbn [serve].
  - apply keeps_assign. ready_side.
  - apply keeps_assign. ready_side.
  - apply keeps_assign. ready_side.
  - apply afterPropertiesSet_keeps_ready.
  - apply deleteDirectory_keeps_ready.
  - apply modifyIndex_keeps_ready.
  - apply keeps_bind; [apply search_keeps_ready | intros ?; apply keeps_ret].
  - apply keeps_bind; [apply getAnalyser_keeps_ready | intros ?; apply keeps_ret].
  - destruct t. apply CommitTask_run_keeps_ready.
Qed.

Lemma serveAll_keeps_ready rs :
  forall e, ready e -> ensures ready (serveAll rs e).
Proof.
  induction rs as [| r rs IH]; intros e He; cbn.
  - exact He.
  - apply ensures_pbind. eapply ensures_weaken; [| apply serve_keeps_ready, He].
    intros res Hres. cbn in Hres. apply IH, Hres.
Qed.

(** X21.  No request ever sets a handle back to [null].  An engine whose
    directory, writer, manager, reopen thread and commit timer are set keeps
    all five set through any history of requests, however each request ends;
    in particular a [deleteDirectory] that fails half way leaves the handles
    it had, and a later [search] still finds a manager to wait on. *)
Theorem started_engine_stays_started {W}
    (handler : forall c, W -> outcome (resp c) * W)
    (e : AbstractIndexEngine) (rs : list request) (w : W) :
  isReady e = true ->
  isReady (result handler (serveAll rs e) w) = true
  /\ exists manager,
       nrtManager (result handler (serveAll rs e) w) = Some manager
       /\ forall s w',
            hd_error (calls_of handler (search s) (result handler (serveAll rs e) w) w')
            = Some (NRTManager_waitForGeneration manager
                      (generation (result handler (serveAll rs e) w))).
Proof.
  intros He.
  pose proof (ensures_run _ _ (@serveAll_keeps_ready rs e He) handler w) as Hready.
  split; [exact Hready |].
  set (e' := result handler (serveAll rs e) w) in *.
  unfold ready, isReady in Hready.
  destruct (nrtManager e') as [manager |] eqn:Hm;
    [| destruct (directory e'), (trackingIndexWriter e'); discriminate Hready].
  exists manager. split; [reflexivity |].
  intros s w'. unfold calls_of, trace, search, bind, deref, field, invoke.
  rewrite Hm. reflexivity.
Qed.

(** ** The further properties at work in the simulated environment *)

(** X2 at work: a caller of priority 5 gives the reopen thread priority 7. *)
Lemma reopen_priority_never_exceeds_max_witness :
  In (ReopenThread_setPriority (ReopenThreadRef 5) 7)
     (calls_of (Sim.handler Sim.noFault) afterPropertiesSet (Sim.configured "en")
               Sim.world0)
  /\ 7 <= Thread_MAX_PRIORITY.
Proof.
  assert (In (ReopenThread_setPriority (ReopenThreadRef 5) 7)
             (calls_of (Sim.handler Sim.noFault) afterPropertiesSet
                       (Sim.configured "en") Sim.world0)) as Hin.
  { vm_compute. repeat first [left; reflexivity | right]. }
  split; [exact Hin |].
  exact (@reopen_priority_never_exceeds_max Sim.World (Sim.handler Sim.noFault)
           (Sim.configured "en") Sim.world0 (ReopenThreadRef 5) 7 (or_introl Hin)).
Defined.

(** X3 at work: nothing can be created on a read-only disk. *)
Lemma afterPropertiesSet_cannot_create_directory_witness :
  run readOnlyDisk (afterPropertiesSet (Sim.configured "en")) Sim.world0 =
    ((Thrown (mkThrowable Error_ (Some "Error creating index:/var/index") None),
      Sim.configured "en"),
     Sim.world0, [File_exists "/var/index"; File_mkdirs "/var/index"]).
Proof.
  exact (@afterPropertiesSet_cannot_create_directory Sim.World readOnlyDisk
           (Sim.configured "en") "/var/index" Sim.world0 Sim.world0 Sim.world0
           eq_refl eq_refl eq_refl).
Defined.

(** X4 at work: the index path is missing and the directory is locked. *)
Lemma openDirectory_clears_stale_lock_witness :
  calls_of (Sim.handler Sim.noFault) openDirectory (Sim.configured "en")
           missingAndLocked =
    [File_exists "/var/index"; File_mkdirs "/var/index";
     FSDirectory_open "/var/index"; IndexWriter_isLocked (FSDirectoryRef 1);
     IndexWriter_unlock (FSDirectoryRef 1)]
  /\ LOGGER (engine_after (Sim.handler Sim.noFault) openDirectory
               (Sim.configured "en") missingAndLocked) =
       [{| level := INFO; text := "Unlocking index:/var/index"; thrown := None |}].
Proof.
  pose proof (@openDirectory_clears_stale_lock Sim.World (Sim.handler Sim.noFault)
                (Sim.configured "en") "/var/index" false true (FSDirectoryRef 1)
                missingAndLocked missingAndLocked missingAndLocked missingAndLocked
                missingAndLocked eq_refl eq_refl (fun _ => eq_refl) eq_refl eq_refl)
    as H.
  exact (conj (proj1 H) (proj2 (proj2 H))).
Defined.

(** X5 at work: the disk fails while the writer of a started engine is
    closed. *)
Lemma deleteDirectory_stops_at_failed_close_witness :
  exists r,
    run (Sim.handler (writerCloseThrows Sim.ioFailure)) (deleteDirectory Sim.started)
        Sim.world0 =
      ((Thrown r, Sim.started), Sim.world0,
       [Timer_cancel (TimerRef 6); ReopenThread_close (ReopenThreadRef 5);
        NRTManager_close (NRTManagerRef 3); IndexWriter_close (IndexWriterRef 2)])
    /\ getClass r = RuntimeException_
    /\ getCause r = Some Sim.ioFailure.
Proof.
  exact (@deleteDirectory_stops_at_failed_close Sim.World
           (Sim.handler (writerCloseThrows Sim.ioFailure)) Sim.started
           (TimerRef 6) (ReopenThreadRef 5) (NRTManagerRef 3) startedWriter
           Sim.world0 Sim.world0 Sim.world0 Sim.world0 Sim.world0 Sim.ioFailure
           eq_refl eq_refl eq_refl eq_refl eq_refl eq_refl eq_refl eq_refl eq_refl).
Defined.

(** X6 at work: the same failure, seen by the caller of [deleteDirectory]. *)
Lemma no_IOException_escapes_witness :
  outcome_of (Sim.handler (writerCloseThrows Sim.ioFailure)) deleteDirectory
             Sim.started Sim.world0
    = Thrown (mkThrowable RuntimeException_ (Some "java.io.IOException: disk failure")
                (Some Sim.ioFailure))
  /\ instanceOf (mkThrowable RuntimeException_
                   (Some "java.io.IOException: disk failure") (Some Sim.ioFailure))
                IOException_
     = false.
Proof.
  assert (outcome_of (Sim.handler (writerCloseThrows Sim.ioFailure)) deleteDirectory
                     Sim.started Sim.world0
          = Thrown (mkThrowable RuntimeException_
                      (Some "java.io.IOException: disk failure")
                      (Some Sim.ioFailure))) as H.
  { vm_compute. reflexivity. }
  split; [exact H |].
  exact (@no_IOException_escapes Sim.World
           (Sim.handler (writerCloseThrows Sim.ioFailure)) Sim.started Sim.world0
           (mkThrowable RuntimeException_ (Some "java.io.IOException: disk failure")
              (Some Sim.ioFailure))
           (or_introl H)).
Defined.

(** X7 at work: the manager of a started engine has no snapshot. *)
Lemma search_without_snapshot_witness :
  calls_of noSnapshot (search aSearcher) Sim.started Sim.world0 =
    [NRTManager_waitForGeneration (NRTManagerRef 3) (-1);
     NRTManager_acquire (NRTManagerRef 3); Searcher_search aSearcher None]
  /\ outcome_of noSnapshot (search aSearcher) Sim.started Sim.world0
     = Normal (ObjectRef 42).
Proof.
  pose proof (@search_without_snapshot Sim.World noSnapshot Sim.started aSearcher
                (NRTManagerRef 3) Sim.world0 Sim.world0 Sim.world0
                eq_refl eq_refl eq_refl) as H.
  exact (conj (proj1 H) (proj1 (proj2 (proj2 H)) (ObjectRef 42) eq_refl)).
Defined.

(** X9 at work: [acquire] throws. *)
Lemma search_stops_without_a_snapshot_witness :
  outcome_of (Sim.handler (acquireThrows Sim.unchecked)) (search aSearcher)
             Sim.started Sim.world0 = Thrown Sim.unchecked
  /\ engine_after (Sim.handler (acquireThrows Sim.unchecked)) (search aSearcher)
                  Sim.started Sim.world0 = Sim.started
  /\ filter is_searcher_call
       (calls_of (Sim.handler (acquireThrows Sim.unchecked)) (search aSearcher)
                 Sim.started Sim.world0) = []
  /\ filter is_release
       (calls_of (Sim.handler (acquireThrows Sim.unchecked)) (search aSearcher)
                 Sim.started Sim.world0) = [].
Proof.
  exact (@search_stops_without_a_snapshot Sim.World
           (Sim.handler (acquireThrows Sim.unchecked)) Sim.started aSearcher
           (NRTManagerRef 3) Sim.world0 Sim.world0 (Normal tt) Sim.unchecked
           eq_refl eq_refl (or_intror (conj eq_refl eq_refl))).
Defined.

(** X11 at work: a commit of a started engine fails with a
    [RuntimeException]; of three ticks only the first takes place. *)
Lemma commit_task_lets_unchecked_failures_out_witness :
  run (Sim.handler (Sim.commitThrows Sim.unchecked))
      (timerTicks 3 CommitTask Sim.started) Sim.world0 =
    ((Thrown Sim.unchecked, Sim.started), Sim.world0,
     [IndexWriter_commit (IndexWriterRef 2)]).
Proof.
  exact (proj2 (@commit_task_lets_unchecked_failures_out Sim.World
                  (Sim.handler (Sim.commitThrows Sim.unchecked)) Sim.started
                  startedWriter Sim.world0 Sim.world0 Sim.unchecked
                  eq_refl eq_refl eq_refl) 2%nat).
Defined.

(** X13 at work: an English engine with a stop-word file. *)
Lemma getAnalyser_english_skips_lookup_witness :
  calls_of (Sim.handler Sim.noFault) getAnalyser englishWithStopWords Sim.world0 =
    [File_exists "/etc/stopwords.txt"; WordlistLoader_getWordSet "/etc/stopwords.txt"]
  /\ outcome_of (Sim.handler Sim.noFault) getAnalyser englishWithStopWords Sim.world0 =
       Normal {| defaultAnalyzer := TLEAnalyzer (Some ["the"; "a"]) true;
                 fieldAnalyzers :=
                   [("autocomplete", TLEAnalyzer None false);
                    ("name", TLEAnalyzer (Some ["the"; "a"]) false)] |}.
Proof.
  pose proof (@getAnalyser_english_skips_lookup Sim.World (Sim.handler Sim.noFault)
                englishWithStopWords Sim.world0 (Some ["the"; "a"])
                eq_refl eq_refl eq_refl) as H.
  exact (conj (proj1 H) (proj1 (proj2 H))).
Defined.

(** X14 at work: a freshly constructed engine has no language. *)
Lemma getAnalyser_without_language_witness :
  outcome_of (Sim.handler Sim.noFault) getAnalyser (newEngine "ItemIndex" Sim.fieldMap)
             Sim.world0 = Thrown new_NullPointerException
  /\ analyzer (engine_after (Sim.handler Sim.noFault) getAnalyser
                 (newEngine "ItemIndex" Sim.fieldMap) Sim.world0) = None.
Proof.
  pose proof (@getAnalyser_without_language Sim.World (Sim.handler Sim.noFault)
                (newEngine "ItemIndex" Sim.fieldMap) Sim.world0 None
                eq_refl eq_refl eq_refl) as H.
  exact (conj (proj1 H) (proj2 (proj2 H))).
Defined.

(** X15 at work: Lucene's French analyzer is on the class path. *)
Lemma getAnalyser_uses_language_provider_witness :
  outcome_of (Sim.handler Sim.noFault) getAnalyser Sim.french Sim.withFrenchAnalyzer =
    Normal {| defaultAnalyzer := LanguageAnalyzer (ObjectRef 8);
              fieldAnalyzers :=
                [("autocomplete", TLEAnalyzer None false);
                 ("name", TLEAnalyzer (Some ["le"; "la"]) false)] |}
  /\ LOGGER (engine_after (Sim.handler Sim.noFault) getAnalyser Sim.french
               Sim.withFrenchAnalyzer) =
       [providerLogRecord Sim.frenchAnalyzer].
Proof.
  exact (@getAnalyser_uses_language_provider Sim.World (Sim.handler Sim.noFault)
           Sim.french Sim.withFrenchAnalyzer "fr" (Some ["the"; "a"])
           (ScanResultRef 7) [Sim.frenchAnalyzer] Sim.frenchAnalyzer (ObjectRef 8)
           (MethodRef 9) ["le"; "la"]
           Sim.withFrenchAnalyzer Sim.withFrenchAnalyzer Sim.withFrenchAnalyzer
           Sim.withFrenchAnalyzer Sim.withFrenchAnalyzer Sim.withFrenchAnalyzer
           eq_refl eq_refl eq_refl eq_refl eq_refl eq_refl eq_refl eq_refl eq_refl
           eq_refl eq_refl).
Defined.

(** X16 at work: the French analyzer is found but cannot be instantiated. *)
Lemma scan_result_closed_exactly_once_witness :
  filter is_scan_close
    (calls_of (Sim.handler (Sim.newInstanceThrows Sim.cannotInstantiate))
       (languageAnalyzers "fr" (normalOf None) (nonStemmedOf None) autoComplete)
       Sim.french Sim.withFrenchAnalyzer)
    = [ScanResult_close (ScanResultRef 7)]
  /\ last (calls_of (Sim.handler (Sim.newInstanceThrows Sim.cannotInstantiate))
             (languageAnalyzers "fr" (normalOf None) (nonStemmedOf None) autoComplete)
             Sim.french Sim.withFrenchAnalyzer)
          (ClassGraph_scan (packageOf "fr"))
     = ScanResult_close (ScanResultRef 7).
Proof.
  exact (@scan_result_closed_exactly_once Sim.World
           (Sim.handler (Sim.newInstanceThrows Sim.cannotInstantiate)) "fr"
           (normalOf None) (nonStemmedOf None) autoComplete Sim.french
           (ScanResultRef 7) Sim.withFrenchAnalyzer Sim.withFrenchAnalyzer eq_refl).
Defined.

(** X18 at work: starting a configured engine. *)
Lemma afterPropertiesSet_leaves_engine_ready_witness :
  isReady (engine_after (Sim.handler Sim.noFault) afterPropertiesSet
             (Sim.configured "en") Sim.world0) = true
  /\ exists dir built,
       In (IndexWriter_new dir built)
          (calls_of (Sim.handler Sim.noFault) afterPropertiesSet (Sim.configured "en")
                    Sim.world0)
       /\ analyzer (engine_after (Sim.handler Sim.noFault) afterPropertiesSet
                      (Sim.configured "en") Sim.world0) = Some built
       /\ forall w',
            run (Sim.handler Sim.noFault)
                (getAnalyser (engine_after (Sim.handler Sim.noFault) afterPropertiesSet
                                (Sim.configured "en") Sim.world0)) w'
            = ((Normal built,
                engine_after (Sim.handler Sim.noFault) afterPropertiesSet
                  (Sim.configured "en") Sim.world0), w', []).
Proof.
  assert (outcome_of (Sim.handler Sim.noFault) afterPropertiesSet (Sim.configured "en")
                     Sim.world0 = Normal tt) as H.
  { vm_compute. reflexivity. }
  exact (@afterPropertiesSet_leaves_engine_ready Sim.World (Sim.handler Sim.noFault)
           (Sim.configured "en") Sim.world0 H).
Defined.

(** X19 at work: the first write of a started engine returns generation 7,
    and the next search waits for it. *)
Lemma search_waits_for_latest_write_witness :
  hd_error (calls_of (Sim.handler Sim.noFault) (search aSearcher)
              (engine_after (Sim.handler Sim.noFault) (modifyIndex aBuilder)
                 Sim.started Sim.world0) Sim.world0)
  = Some (NRTManager_waitForGeneration (NRTManagerRef 3) 7).
Proof.
  exact (@search_waits_for_latest_write Sim.World (Sim.handler Sim.noFault)
           Sim.started aBuilder aSearcher (NRTManagerRef 3) Sim.world0 eq_refl
           Sim.world0).
Defined.

(** X20 at work: the searcher and the release both fail with an
    [IOException]. *)
Lemma release_failure_is_not_logged_witness :
  outcome_of (Sim.handler (Sim.searcherAndReleaseThrow Sim.ioFailure Sim.ioFailure))
             (search aSearcher) Sim.started Sim.world0
    = Thrown (releaseError Sim.ioFailure)
  /\ LOGGER (engine_after
               (Sim.handler (Sim.searcherAndReleaseThrow Sim.ioFailure Sim.ioFailure))
               (search aSearcher) Sim.started Sim.world0) =
       (LOGGER Sim.started ++ [searchLogRecord Sim.ioFailure])%list.
Proof.
  pose proof (@release_failure_is_not_logged Sim.World
                (Sim.handler (Sim.searcherAndReleaseThrow Sim.ioFailure Sim.ioFailure))
                Sim.started aSearcher (NRTManagerRef 3)
                Sim.world0 Sim.world0 (Sim.set_refCount 1 Sim.world0)
                (IndexSearcherRef 4) Sim.ioFailure
                eq_refl eq_refl eq_refl eq_refl) as H.
  exact (conj (proj1 H) (proj2 (proj2 H) Sim.ioFailure eq_refl eq_refl)).
Defined.

(** X21 at work: a reset that fails while closing the writer, then a write. *)
Lemma started_engine_stays_started_witness :
  isReady (result (Sim.handler (writerCloseThrows Sim.ioFailure))
             (serveAll [DeleteDirectory; ModifyIndex aBuilder] Sim.started)
             Sim.world0) = true.
Proof.
  exact (proj1 (@started_engine_stays_started Sim.World
                  (Sim.handler (writerCloseThrows Sim.ioFailure)) Sim.started
                  [DeleteDirectory; ModifyIndex aBuilder] Sim.world0 eq_refl)).
Defined.

(** X22 at work: scanning the class path fails with a [RuntimeException]. *)
Lemma failed_getAnalyser_caches_nothing_witness :
  analyzer Sim.french = None
  /\ analyzer (engine_after (Sim.handler (scanThrows Sim.unchecked)) getAnalyser
                 Sim.french Sim.withFrenchAnalyzer) = None.
Proof.
  assert (outcome_of (Sim.handler (scanThrows Sim.unchecked)) getAnalyser Sim.french
                     Sim.withFrenchAnalyzer = Thrown Sim.unchecked) as H.
  { vm_compute. reflexivity. }
  exact (@failed_getAnalyser_caches_nothing Sim.World
           (Sim.handler (scanThrows Sim.unchecked)) Sim.french Sim.withFrenchAnalyzer
           Sim.unchecked H).
Defined.

(** * The selection-session module *)

(** What the page carries as selection-session info is either an object
    with a [stateId], or something the type guard rejects; reading it never
    throws. *)
Lemma SelectionSession_info_cases (page : SelectionSession.Page) :
  (exists info x,
     SelectionSession.optionalMember (SelectionSession.getRenderData page)
       "selectionSessionInfo" = SelectionSession.Returns (SelectionSession.JsObject info)
     /\ SelectionSession.lookup "stateId" info = Some x
     /\ SelectionSession.isSelectionSessionInfo (SelectionSession.JsObject info)
        = SelectionSession.Returns true)
  \/ (exists v,
        SelectionSession.optionalMember (SelectionSession.getRenderData page)
          "selectionSessionInfo" = SelectionSession.Returns v
        /\ SelectionSession.isSelectionSessionInfo v = SelectionSession.Returns false).
Proof.
  destruct page as [rd cl]. cbn [SelectionSession.getRenderData].
  assert (forall v,
            (exists info x,
               v = SelectionSession.JsObject info
               /\ SelectionSession.lookup "stateId" info = Some x
               /\ SelectionSession.isSelectionSessionInfo (SelectionSession.JsObject info)
                  = SelectionSession.Returns true)
            \/ SelectionSession.isSelectionSessionInfo v = SelectionSession.Returns false)
    as Hguard.
  { intros v. destruct v; try (right; reflexivity).
    destruct (SelectionSession.lookup "stateId" properties) as [x |] eqn:Hx.
    - left. exists properties, x. split; [reflexivity |]. split; [exact Hx |].
      unfold SelectionSession.isSelectionSessionInfo. cbn. rewrite Hx. reflexivity.
    - right. unfold SelectionSession.isSelectionSessionInfo. cbn. rewrite Hx.
      reflexivity. }
  destruct rd; cbn -[SelectionSession.isSelectionSessionInfo];
    try (right; exists SelectionSession.JsUndefined; split; reflexivity).
  - destruct (SelectionSession.lookup "selectionSessionInfo" properties) as [v |];
      [| right; exists SelectionSession.JsUndefined; split; reflexivity].
    destruct (Hguard v) as [(info & x & -> & Hx & Hok) | Hno].
    + left. exists info, x. repeat split; assumption.
    + right. exists v. split; [reflexivity | exact Hno].
  - destruct (SelectionSession.lookup "selectionSessionInfo" properties) as [v |];
      [| right; exists SelectionSession.JsUndefined; split; reflexivity].
    destruct (Hguard v) as [(info & x & -> & Hx & Hok) | Hno].
    + left. exists info, x. repeat split; assumption.
    + right. exists v. split; [reflexivity | exact Hno].
Qed.

(** The structured-session test always returns. *)
Lemma structured_test_returns (page : SelectionSession.Page) :
  exists structured,
    SelectionSession.isSelectionSessionInStructured page
      = SelectionSession.Returns structured.
Proof.
  unfold SelectionSession.isSelectionSessionInStructured,
    SelectionSession.isSelectionSessionOpen, SelectionSession.getSelectionSessionInfo.
  destruct (SelectionSession_info_cases page)
    as [(info & x & -> & Hx & Hok) | (v & -> & Hno)];
    cbn [SelectionSession.andThen].
  - rewrite Hok. cbn [SelectionSession.andThen SelectionSession.member].
    eexists. reflexivity.
  - rewrite Hno. cbn [SelectionSession.andThen]. eexists. reflexivity.
Qed.

(** X23.  [isSelectionSessionOpen] never throws, whatever the page's render
    data is, and it tells exactly when [getSelectionSessionInfo] can be
    called: when it answers true the getter returns the session info, an
    object that has a [stateId]; when it answers false the getter throws the
    [TypeError] "The type of Selection Session Info is incorrect.". *)
Theorem getSelectionSessionInfo_throws_iff_closed (page : SelectionSession.Page) :
  (exists open, SelectionSession.isSelectionSessionOpen page = SelectionSession.Returns open)
  /\ (SelectionSession.isSelectionSessionOpen page = SelectionSession.Returns true ->
      exists info x,
        SelectionSession.getSelectionSessionInfo page
          = SelectionSession.Returns (SelectionSession.JsObject info)
        /\ SelectionSession.lookup "stateId" info = Some x)
  /\ (SelectionSession.isSelectionSessionOpen page = SelectionSession.Returns false ->
      SelectionSession.getSelectionSessionInfo page
        = SelectionSession.Throws
            (SelectionSession.TypeError
               "The type of Selection Session Info is incorrect.")).
Proof.
  unfold SelectionSession.isSelectionSessionOpen,
    SelectionSession.getSelectionSessionInfo.
  destruct (SelectionSession_info_cases page)
    as [(info & x & -> & Hx & Hok) | (v & -> & Hno)];
    cbn [SelectionSession.andThen].
  - rewrite Hok. cbn [SelectionSession.andThen]. split; [| split].
    + exists true. reflexivity.
    + intros _. exists info, x. split; [reflexivity | exact Hx].
    + intros H. discriminate H.
  - rewrite Hno. cbn [SelectionSession.andThen]. split; [| split].
    + exists false. reflexivity.
    + intros H. discriminate H.
    + intros _. reflexivity.
Qed.

(** X24.  [isSelectionSessionInStructured] never throws: although it calls
    the throwing getter, it does so only behind [isSelectionSessionOpen].
    It answers true exactly when the page carries a session info whose
    [layout] is the string "coursesearch". *)
Theorem isSelectionSessionInStructured_never_throws (page : SelectionSession.Page) :
  exists structured,
    SelectionSession.isSelectionSessionInStructured page
      = SelectionSession.Returns structured
    /\ (structured = true <->
        exists info,
          SelectionSession.getSelectionSessionInfo page
            = SelectionSession.Returns (SelectionSession.JsObject info)
          /\ SelectionSession.lookup "layout" info
             = Some (SelectionSession.JsString "coursesearch")).
Proof.
  unfold SelectionSession.isSelectionSessionInStructured,
    SelectionSession.isSelectionSessionOpen, SelectionSession.getSelectionSessionInfo.
  destruct (SelectionSession_info_cases page)
    as [(info & x & -> & Hx & Hok) | (v & -> & Hno)];
    cbn [SelectionSession.andThen].
  - rewrite Hok. cbn [SelectionSession.andThen SelectionSession.member].
    destruct (SelectionSession.lookup "layout" info) as [layout |] eqn:Hl.
    + eexists. split; [reflexivity |]. split.
      * intros Heq. exists info. split; [reflexivity |].
        destruct layout; cbn in Heq; try discriminate Heq.
        apply String.eqb_eq in Heq. now subst.
      * intros (info' & Hinfo & Hl'). injection Hinfo as <-.
        rewrite Hl in Hl'. injection Hl' as ->. reflexivity.
    + exists false. split; [reflexivity |]. split.
      * intros H. discriminate H.
      * intros (info' & Hinfo & Hl'). injection Hinfo as <-.
        rewrite Hl in Hl'. discriminate Hl'.
  - rewrite Hno. cbn [SelectionSession.andThen].
    exists false. split; [reflexivity |]. split.
    + intros H. discriminate H.
    + intros (info' & Hinfo & _). discriminate Hinfo.
Qed.

(** X25.  The CSS classes of the search page are read from [CourseList] in
    a structured session only.  Everywhere else both functions return the
    empty string without evaluating [CourseList], so they are safe on pages
    where [courselist.js] was never loaded; the only way either can throw is
    a structured session on a page without [CourseList]. *)
Theorem search_page_classes_need_CourseList_in_structured_only
    (page : SelectionSession.Page) :
  (SelectionSession.isSelectionSessionInStructured page = SelectionSession.Returns false ->
   SelectionSession.getSearchPageItemClass page = SelectionSession.Returns ""
   /\ SelectionSession.getSearchPageAttachmentClass page = SelectionSession.Returns "")
  /\ (forall courseList,
        SelectionSession.isSelectionSessionInStructured page
          = SelectionSession.Returns true ->
        SelectionSession.CourseList page = Some courseList ->
        SelectionSession.getSearchPageItemClass page
          = SelectionSession.Returns (SelectionSession.newSearchPageItemClass courseList)
        /\ SelectionSession.getSearchPageAttachmentClass page
           = SelectionSession.Returns
               (SelectionSession.newSearchPageAttachmentClass courseList))
  /\ (forall e,
        SelectionSession.getSearchPageItemClass page = SelectionSession.Throws e
        \/ SelectionSession.getSearchPageAttachmentClass page = SelectionSession.Throws e ->
        SelectionSession.isSelectionSessionInStructured page
          = SelectionSession.Returns true
        /\ SelectionSession.CourseList page = None).
Proof.
  unfold SelectionSession.getSearchPageItemClass,
    SelectionSession.getSearchPageAttachmentClass, SelectionSession.getGlobalCourseList.
  destruct (structured_test_returns page) as [structured ->].
  cbn [SelectionSession.andThen].
  split; [| split].
  - intros [= ->]. split; reflexivity.
  - intros courseList [= ->] ->. split; reflexivity.
  - intros e. destruct structured.
    + destruct (SelectionSession.CourseList page); cbn [SelectionSession.andThen].
      * intros [H | H]; discriminate H.
      * intros _. split; reflexivity.
    + intros [H | H]; discriminate H.
Qed.

(** X26.  Without an open session every question has a safe answer: the
    session is not structured, the Select Summary button counts as disabled,
    and both CSS classes are empty; none of these throws.  A page whose
    render data is [undefined] or [null], or whose render data has no
    [selectionSessionInfo] or a [null] one, is such a page. *)
Theorem closed_session_defaults (page : SelectionSession.Page) :
  (SelectionSession.isSelectionSessionOpen page = SelectionSession.Returns false ->
   SelectionSession.isSelectionSessionInStructured page = SelectionSession.Returns false
   /\ SelectionSession.isSelectSummaryButtonDisabled page
      = SelectionSession.Returns (SelectionSession.JsBoolean true)
   /\ SelectionSession.getSearchPageItemClass page = SelectionSession.Returns ""
   /\ SelectionSession.getSearchPageAttachmentClass page = SelectionSession.Returns "")
  /\ (SelectionSession.getRenderData page = SelectionSession.JsUndefined
      \/ SelectionSession.getRenderData page = SelectionSession.JsNull
      \/ (exists properties,
            SelectionSession.getRenderData page = SelectionSession.JsObject properties
            /\ (SelectionSession.lookup "selectionSessionInfo" properties = None
                \/ SelectionSession.lookup "selectionSessionInfo" properties
                   = Some SelectionSession.JsNull)) ->
      SelectionSession.isSelectionSessionOpen page = SelectionSession.Returns false).
Proof.
  split.
  - unfold SelectionSession.getSearchPageItemClass,
      SelectionSession.getSearchPageAttachmentClass,
      SelectionSession.isSelectionSessionInStructured,
      SelectionSession.isSelectSummaryButtonDisabled,
      SelectionSession.isSelectionSessionOpen.
    destruct (SelectionSession_info_cases page)
      as [(info & x & -> & Hx & Hok) | (v & -> & Hno)];
      cbn [SelectionSession.andThen].
    + rewrite Hok. intros H. discriminate H.
    + rewrite Hno. intros _. cbn [SelectionSession.andThen]. repeat split.
  - unfold SelectionSession.isSelectionSessionOpen.
    intros [-> | [-> | (properties & -> & [Hl | Hl])]]; cbn; try reflexivity;
      rewrite Hl; reflexivity.
Qed.

(** X23 at work: a page whose render data says there is no session. *)
Lemma getSelectionSessionInfo_throws_iff_closed_witness :
  SelectionSession.getSelectionSessionInfo SelectionSession.plainPage
    = SelectionSession.Throws
        (SelectionSession.TypeError "The type of Selection Session Info is incorrect.").
Proof.
  exact (proj2 (proj2 (getSelectionSessionInfo_throws_iff_closed
                         SelectionSession.plainPage)) eq_refl).
Defined.

(** X24 at work: a page in a structured session. *)
Lemma isSelectionSessionInStructured_never_throws_witness :
  exists structured,
    SelectionSession.isSelectionSessionInStructured SelectionSession.structuredPage
      = SelectionSession.Returns structured
    /\ (structured = true <->
        exists info,
          SelectionSession.getSelectionSessionInfo SelectionSession.structuredPage
            = SelectionSession.Returns (SelectionSession.JsObject info)
          /\ SelectionSession.lookup "layout" info
             = Some (SelectionSession.JsString "coursesearch")).
Proof.
  exact (isSelectionSessionInStructured_never_throws SelectionSession.structuredPage).
Defined.

(** X25 at work: the classes of a structured session come from
    [CourseList]. *)
Lemma search_page_classes_need_CourseList_in_structured_only_witness :
  SelectionSession.getSearchPageItemClass SelectionSession.structuredPage
    = SelectionSession.Returns "drag-item"
  /\ SelectionSession.getSearchPageAttachmentClass SelectionSession.structuredPage
     = SelectionSession.Returns "drag-attachment".
Proof.
  exact (proj1 (proj2 (search_page_classes_need_CourseList_in_structured_only
                         SelectionSession.structuredPage))
           {| SelectionSession.newSearchPageItemClass := "drag-item";
              SelectionSession.newSearchPageAttachmentClass := "drag-attachment" |}
           eq_refl eq_refl).
Defined.

(** X26 at work: no session, and no [CourseList] either. *)
Lemma closed_session_defaults_witness :
  SelectionSession.isSelectionSessionInStructured SelectionSession.plainPage
    = SelectionSession.Returns false
  /\ SelectionSession.isSelectSummaryButtonDisabled SelectionSession.plainPage
     = SelectionSession.Returns (SelectionSession.JsBoolean true)
  /\ SelectionSession.getSearchPageItemClass SelectionSession.plainPage
     = SelectionSession.Returns ""
  /\ SelectionSession.getSearchPageAttachmentClass SelectionSession.plainPage
     = SelectionSession.Returns "".
Proof.
  exact (proj1 (closed_session_defaults SelectionSession.plainPage) eq_refl).
Defined.
